(** * RoadFTP: a shallow embedding of [roadftp/ftp.py]

    The development follows the source file: the built-in string
    operations the client relies on ([PyStr]); the exceptions, the
    [FTPConfig] and [FTPEntry] records and the state of a run ([Env]); the
    sockets, the TLS context and the local files ([Sys]); the methods of
    [FTPClient] and the module-level [connect].  The properties of the
    client come last.

    Conventions.
    - A Python [str] is a [string]; its characters are the code points
      U+0000 to U+00FF (Rocq's 8-bit [ascii]).  Character classes below are
      the ones CPython uses on that range.
    - A Python [int] is a [Z].
    - [logger.debug] calls have no effect on the client and are left out. *)

From Stdlib Require Import String Ascii List ZArith NArith QArith Lia Bool Arith DecimalString.
Import ListNotations.
Close Scope Q_scope.
Open Scope string_scope.

(** ** Built-in string operations *)

Module PyStr.

Definition ord (c : ascii) : nat := nat_of_ascii c.

Definition between (lo hi n : nat) : bool := (lo <=? n)%nat && (n <=? hi)%nat.

(** [str.isspace] on one character; also the separator set of
    [str.split(None)]. *)
Definition isspace (c : ascii) : bool :=
  let n := ord c in
  between 9 13 n || between 28 32 n || (n =? 133)%nat || (n =? 160)%nat.

(** The characters [int()] strips from both ends of its argument. *)
Definition int_space (c : ascii) : bool :=
  let n := ord c in
  between 9 13 n || (n =? 32)%nat || (n =? 133)%nat || (n =? 160)%nat.

(** [str.isdecimal] on one character; also the regex class [\d]. *)
Definition isdecimal (c : ascii) : bool := between 48 57 (ord c).

(** [str.isdigit] on one character: the decimals and the superscripts
    U+00B2, U+00B3, U+00B9. *)
Definition isdigit_char (c : ascii) : bool :=
  let n := ord c in
  isdecimal c || (n =? 178)%nat || (n =? 179)%nat || (n =? 185)%nat.

Definition digit_val (c : ascii) : Z := Z.of_nat (ord c) - 48.

Fixpoint forallb_str (p : ascii -> bool) (s : string) : bool :=
  match s with
  | EmptyString => true
  | String c r => p c && forallb_str p r
  end.

Definition is_empty (s : string) : bool :=
  match s with EmptyString => true | _ => false end.

(** [s.isdigit()] *)
Definition isdigit (s : string) : bool :=
  negb (is_empty s) && forallb_str isdigit_char s.

(** [s.rstrip(chars)], with [chars] given as a predicate. *)
Fixpoint rstrip (p : ascii -> bool) (s : string) : string :=
  match s with
  | EmptyString => EmptyString
  | String c r =>
      let r' := rstrip p r in
      if is_empty r' && p c then EmptyString else String c r'
  end.

Fixpoint lstrip (p : ascii -> bool) (s : string) : string :=
  match s with
  | EmptyString => EmptyString
  | String c r => if p c then lstrip p r else s
  end.

Definition is_cr_or_lf (c : ascii) : bool :=
  ((ord c =? 13) || (ord c =? 10))%nat.

(** [s[:n]] *)
Definition slice_to (n : nat) (s : string) : string := substring 0 n s.

(** [s.startswith(p)] *)
Definition startswith (p s : string) : bool := prefix p s.

(** [sep.join(ls)] *)
Definition join (sep : string) (ls : list string) : string := String.concat sep ls.

(** Decimal digits after a first digit, with the single underscores
    that [int()] allows between two digits. *)
Fixpoint int_digits (acc : Z) (s : string) : option Z :=
  match s with
  | EmptyString => Some acc
  | String c r =>
      if isdecimal c then int_digits (10 * acc + digit_val c) r
      else if (ord c =? 95)%nat then
        match r with
        | String d r' =>
            if isdecimal d then int_digits (10 * acc + digit_val d) r'
            else None
        | EmptyString => None
        end
      else None
  end.

Definition int_literal (s : string) : option Z :=
  match s with
  | String c r => if isdecimal c then int_digits (digit_val c) r else None
  | EmptyString => None
  end.

(** [sys.get_int_max_str_digits()]: the interpreter's bound on the number
    of digits of a literal that [int()] converts, at its default. *)
Definition int_max_str_digits : N := 4300%N.

(** The number of decimal digits of a literal: leading zeros count, the
    underscores between digits do not. *)
Fixpoint count_decimals (s : string) : N :=
  match s with
  | EmptyString => 0%N
  | String c r =>
      if isdecimal c then N.succ (count_decimals r) else count_decimals r
  end.

(** A literal without its sign and surrounding white space: refused when
    it has more than [int_max_str_digits] digits, whatever they are. *)
Definition int_unsigned (s : string) : option Z :=
  if (count_decimals s <=? int_max_str_digits)%N then int_literal s
  else None.

(** [int(s)] in base 10; [None] stands for [ValueError], which is what
    [int()] raises both for a string that is not a literal and for a
    literal of more than [int_max_str_digits] digits (the two differ in
    the text of the message only). *)
Definition int (s : string) : option Z :=
  match rstrip int_space (lstrip int_space s) with
  | String "+" r => int_unsigned r
  | String "-" r => option_map Z.opp (int_unsigned r)
  | t => int_unsigned t
  end.

(** [str(n)] for an [int]. *)
Definition str_of_int (n : Z) : string :=
  NilZero.string_of_int (Z.to_int n).

(** The maximal prefix without white space, and what follows it. *)
Fixpoint take_word (s : string) : string * string :=
  match s with
  | EmptyString => (EmptyString, EmptyString)
  | String c r =>
      if isspace c then (EmptyString, s)
      else let '(w, rest) := take_word r in (String c w, rest)
  end.

(** [s.split(None, maxsplit)] for [maxsplit >= 0]: leading white space is
    skipped before every field; once [maxsplit] fields are cut, what is
    left after the white space is the last field, unchanged. *)
Fixpoint split_ws (maxsplit : nat) (s : string) : list string :=
  let s' := lstrip isspace s in
  if is_empty s' then []
  else
    match maxsplit with
    | O => [s']
    | S m => let '(w, rest) := take_word s' in w :: split_ws m rest
    end.

(** [s.split()]: no more than [length s] cuts can ever be made. *)
Definition split (s : string) : list string := split_ws (String.length s) s.

(** [\d+] at the head of [s]: the digits (at least one) and the rest. *)
Fixpoint take_decimals (s : string) : string * string :=
  match s with
  | EmptyString => (EmptyString, EmptyString)
  | String c r =>
      if isdecimal c then let '(d, rest) := take_decimals r in (String c d, rest)
      else (EmptyString, s)
  end.

Definition re_decimals (s : string) : option (string * string) :=
  let '(d, rest) := take_decimals s in
  if is_empty d then None else Some (d, rest).

(** One literal character of a pattern. *)
Definition re_char (c : ascii) (s : string) : option string :=
  match s with
  | String c' r => if Ascii.eqb c c' then Some r else None
  | EmptyString => None
  end.

(** [re.match(r"\((\d+),(\d+),(\d+),(\d+),(\d+),(\d+)\)", s)]: the six
    groups.  Each [\d+] is followed by a character that is not a digit,
    so the greedy reading is the only one. *)
Definition pasv_match_here (s : string) : option (list string) :=
  match re_char "(" s with None => None | Some s =>
  match re_decimals s with None => None | Some (g1, s) =>
  match re_char "," s with None => None | Some s =>
  match re_decimals s with None => None | Some (g2, s) =>
  match re_char "," s with None => None | Some s =>
  match re_decimals s with None => None | Some (g3, s) =>
  match re_char "," s with None => None | Some s =>
  match re_decimals s with None => None | Some (g4, s) =>
  match re_char "," s with None => None | Some s =>
  match re_decimals s with None => None | Some (g5, s) =>
  match re_char "," s with None => None | Some s =>
  match re_decimals s with None => None | Some (g6, s) =>
  match re_char ")" s with None => None | Some _ =>
    Some [g1; g2; g3; g4; g5; g6]
  end end end end end end end end end end end end end.

(** [re.search] of the same pattern: the leftmost position that matches. *)
Fixpoint pasv_search (s : string) : option (list string) :=
  match pasv_match_here s with
  | Some gs => Some gs
  | None =>
      match s with
      | EmptyString => None
      | String _ r => pasv_search r
      end
  end.

(** [re.search] of a double quote, any characters other than a double
    quote, and a double quote: group 1 is the text between the first
    double quote and the next one (code point 34). *)
Fixpoint take_until_quote (s : string) : option string :=
  match s with
  | EmptyString => None
  | String c r =>
      if (ord c =? 34)%nat then Some EmptyString
      else option_map (String c) (take_until_quote r)
  end.

Fixpoint quoted_search (s : string) : option string :=
  match s with
  | EmptyString => None
  | String c r =>
      if (ord c =? 34)%nat then take_until_quote r else quoted_search r
  end.

End PyStr.

(** ** Exceptions, events and the state of a run *)

Module Env.

Definition LF : string := String "010"%char EmptyString.
Definition CRLF : string := String "013"%char LF.

(** The exceptions that reach the client.  All of them are subclasses of
    [Exception] ([socket.timeout] and [ssl.SSLError] are [OSError]s), so
    an [except Exception] clause catches every [exn]. *)
Inductive exn : Type :=
| FTPError (msg : string)
| ValueError (msg : string)
| AttributeError (msg : string)
| IndexError (msg : string)
| OSError (msg : string).

Inductive FTPMode : Type := ACTIVE | PASSIVE.

Record FTPConfig : Type := mkFTPConfig {
  host : string;
  port : Z;
  username : string;
  password : string;
  timeout : Q;
  mode : FTPMode;
  secure : bool
}.

(** The dataclass constructor: a field that is not given takes the
    default written in the class body. *)
Definition FTPConfig_init (host : string) (port : option Z)
    (username password : option string) (timeout : option Q)
    (mode : option FTPMode) (secure : option bool) : FTPConfig :=
  {| host := host;
     port := match port with Some p => p | None => 21%Z end;
     username := match username with Some u => u | None => "anonymous" end;
     password := match password with Some p => p | None => "anonymous@" end;
     timeout := match timeout with Some t => t | None => 30%Q end;
     mode := match mode with Some m => m | None => PASSIVE end;
     secure := match secure with Some b => b | None => false end |}.

(** [modified] is a [datetime] in the source; no path of the client
    ever sets it, so the field only ever holds [None]. *)
Record FTPEntry : Type := mkFTPEntry {
  name : string;
  size : Z;
  modified : option unit;
  is_dir : bool;
  permissions : string;
  raw : string
}.

Definition sock := nat.
Definition handle := nat.
Definition bytes := list Byte.byte.

(** What the client does to the outside, in order. *)
Inductive event : Type :=
| EvSocket (s : sock)
| EvSetTimeout (s : sock) (t : Q)
| EvConnect (s : sock) (host : string) (port : Z)
| EvWrapSocket (s s' : sock) (server_hostname : string)
| EvSendall (s : sock) (data : string)
| EvSendBytes (s : sock) (data : bytes)
| EvSockClose (s : sock)
| EvOpen (f : handle) (path : string) (mode : string)
| EvWrite (f : handle) (data : bytes)
| EvFileClose (f : handle).

(** The attributes of the [FTPClient] object.  [_file] is the file object
    that [connect] makes with [_socket.makefile], written as the socket it
    reads from: a file object of its own, which stays open when [close]
    is called on the socket. *)
Record client : Type := mkClient {
  config : FTPConfig;
  _socket : option sock;
  _file : option sock
}.

(** The state of a run: the client object and the outside world.
    - [faults]: what happens to the successive calls that can fail
      ([socket], [connect], [wrap_socket], [sendall], [readline], [recv],
      [open], [write], [read]): [Some e] makes the call raise [e]; when
      the list is used up every call goes through.
    - [ctrl_in]: what the successive [readline] calls on the control
      connection return; when it is used up [readline] returns the empty
      string (end of file).
    - [data_in], [file_in]: the same for [recv] on a data connection and
      for [read] on a local file; the empty chunk is end of file.
    - [next_id]: the next fresh socket or file identifier.
    - [trace]: the events so far, oldest first. *)
Record state : Type := mkState {
  self : client;
  faults : list (option exn);
  ctrl_in : list string;
  data_in : list bytes;
  file_in : list bytes;
  next_id : nat;
  trace : list event
}.

Definition set_self (c : client) (st : state) : state :=
  mkState c (faults st) (ctrl_in st) (data_in st) (file_in st) (next_id st) (trace st).
Definition set_faults (fs : list (option exn)) (st : state) : state :=
  mkState (self st) fs (ctrl_in st) (data_in st) (file_in st) (next_id st) (trace st).
Definition set_ctrl_in (ls : list string) (st : state) : state :=
  mkState (self st) (faults st) ls (data_in st) (file_in st) (next_id st) (trace st).
Definition set_data_in (ds : list bytes) (st : state) : state :=
  mkState (self st) (faults st) (ctrl_in st) ds (file_in st) (next_id st) (trace st).
Definition set_file_in (ds : list bytes) (st : state) : state :=
  mkState (self st) (faults st) (ctrl_in st) (data_in st) ds (next_id st) (trace st).
Definition set_next_id (n : nat) (st : state) : state :=
  mkState (self st) (faults st) (ctrl_in st) (data_in st) (file_in st) n (trace st).
Definition log (e : event) (st : state) : state :=
  mkState (self st) (faults st) (ctrl_in st) (data_in st) (file_in st) (next_id st)
          (trace st ++ [e])%list.

(** How a call ends: with a value, with an exception, or never. *)
Inductive outcome (A : Type) : Type :=
| Ok (a : A) (st : state)
| Raise (e : exn) (st : state)
| Diverge (st : state).
Arguments Ok {A} a st.
Arguments Raise {A} e st.
Arguments Diverge {A} st.

Definition M (A : Type) : Type := state -> outcome A.

Definition ret {A} (a : A) : M A := fun st => Ok a st.
Definition raise {A} (e : exn) : M A := fun st => Raise e st.
Definition diverge {A} : M A := fun st => Diverge st.

Definition bind {A B} (m : M A) (k : A -> M B) : M B :=
  fun st =>
    match m st with
    | Ok a st' => k a st'
    | Raise e st' => Raise e st'
    | Diverge st' => Diverge st'
    end.

(** [try: m  except Exception: h] *)
Definition try_except {A} (m : M A) (h : exn -> M A) : M A :=
  fun st =>
    match m st with
    | Ok a st' => Ok a st'
    | Raise e st' => h e st'
    | Diverge st' => Diverge st'
    end.

(** [try: m  finally: c], the shape of a [with] block's exit. *)
Definition finally {A} (m : M A) (c : M unit) : M A :=
  fun st =>
    match m st with
    | Ok a st' => bind c (fun _ => ret a) st'
    | Raise e st' => bind c (fun _ => raise e) st'
    | Diverge st' => Diverge st'
    end.

Definition get {A} (f : state -> A) : M A := fun st => Ok (f st) st.
Definition modify (f : state -> state) : M unit := fun st => Ok tt (f st).
Definition emit (e : event) : M unit := modify (log e).

(** A call that can fail takes the next entry of [faults]. *)
Definition fallible {A} (m : M A) : M A :=
  fun st =>
    match faults st with
    | [] => m st
    | None :: fs => m (set_faults fs st)
    | Some e :: fs => Raise e (set_faults fs st)
    end.

Definition fresh : M nat :=
  fun st => Ok (next_id st) (set_next_id (S (next_id st)) st).

End Env.
Import Env.

Declare Scope ftp_scope.
Delimit Scope ftp_scope with ftp.
Notation "x <- c1 ;; c2" := (bind c1 (fun x => c2))
  (at level 61, c1 at next level, right associativity) : ftp_scope.
Notation "' pat <- c1 ;; c2" := (bind c1 (fun x => match x with pat => c2 end))
  (at level 61, pat pattern, c1 at next level, right associativity) : ftp_scope.
Notation "c1 ;; c2" := (bind c1 (fun _ => c2))
  (at level 61, right associativity) : ftp_scope.
Open Scope ftp_scope.

(** ** The sockets, the TLS context and the local files *)

Module Sys.

(** [socket.socket(AF_INET, SOCK_STREAM)] *)
Definition socket_new : M sock :=
  fallible (s <- fresh ;; emit (EvSocket s) ;; ret s).

(** [s.settimeout(t)]: records the timeout and returns; the call is taken
    with a timeout it accepts, a number that is not negative, as every
    configuration used below has. *)
Definition settimeout (s : sock) (t : Q) : M unit := emit (EvSetTimeout s t).

Definition connect (s : sock) (h : string) (p : Z) : M unit :=
  fallible (emit (EvConnect s h p)).

(** [ssl.create_default_context().wrap_socket(s, server_hostname=h)]:
    the default context checks the peer's certificate against [h]. *)
Definition wrap_socket (s : sock) (h : string) : M sock :=
  fallible (s' <- fresh ;; emit (EvWrapSocket s s' h) ;; ret s').

(** [s.sendall(text.encode())] *)
Definition sendall (s : sock) (text : string) : M unit :=
  fallible (emit (EvSendall s text)).

Definition sendall_bytes (s : sock) (data : bytes) : M unit :=
  fallible (emit (EvSendBytes s data)).

(** [f.readline()] on the control connection's file object. *)
Definition readline (f : sock) : M string :=
  fallible (fun st =>
    match ctrl_in st with
    | [] => Ok EmptyString st
    | l :: ls => Ok l (set_ctrl_in ls st)
    end).

(** [s.recv(8192)] on a data connection: an entry of [data_in] is what
    one call returns. *)
Definition recv (s : sock) : M bytes :=
  fallible (fun st =>
    match data_in st with
    | [] => Ok [] st
    | d :: ds => Ok d (set_data_in ds st)
    end).

Definition close (s : sock) : M unit := emit (EvSockClose s).

(** [open(path, mode)] *)
Definition open (path mode : string) : M handle :=
  fallible (f <- fresh ;; emit (EvOpen f path mode) ;; ret f).

Definition write (f : handle) (data : bytes) : M unit :=
  fallible (emit (EvWrite f data)).

(** [f.read(8192)]: an entry of [file_in] is what one call returns. *)
Definition read (f : handle) : M bytes :=
  fallible (fun st =>
    match file_in st with
    | [] => Ok [] st
    | d :: ds => Ok d (set_file_in ds st)
    end).

Definition fclose (f : handle) : M unit := emit (EvFileClose f).

(** [with open(path, mode) as f: body f] *)
Definition with_open {A} (path mode : string) (body : handle -> M A) : M A :=
  f <- open path mode ;; finally (body f) (fclose f).

End Sys.

(** ** class FTPClient *)

Inductive result (A : Type) : Type :=
| Returns (a : A)
| Raises (e : exn).
Arguments Returns {A} a.
Arguments Raises {A} e.

Definition lift {A} (r : result A) : M A :=
  match r with
  | Returns a => ret a
  | Raises e => raise e
  end.

Module FTPClient.

Definition __init__ (cfg : FTPConfig) : client := mkClient cfg None None.

Definition cfg : M FTPConfig := get (fun st => config (self st)).

Definition set__socket (s : sock) : M unit :=
  modify (fun st => set_self (mkClient (config (self st)) (Some s) (_file (self st))) st).

Definition set__file (f : sock) : M unit :=
  modify (fun st => set_self (mkClient (config (self st)) (_socket (self st)) (Some f)) st).

(** [self._socket] and [self._file] as the receiver of a method call:
    on [None] the attribute lookup raises. *)
Definition the_socket : M sock :=
  o <- get (fun st => _socket (self st)) ;;
  match o with
  | Some s => ret s
  | None => raise (AttributeError "'NoneType' object has no attribute")
  end.

Definition the_file : M sock :=
  o <- get (fun st => _file (self st)) ;;
  match o with
  | Some f => ret f
  | None => raise (AttributeError "'NoneType' object has no attribute")
  end.

(** [len(line) >= 4 and line[3] == " "] *)
Definition ends_response (line : string) : bool :=
  (4 <=? String.length line)%nat &&
  match String.get 3 line with
  | Some c => Ascii.eqb c " "
  | None => false
  end.

(** The [while True] loop of [_read_response]. *)
Fixpoint read_lines (fuel : nat) (lines : list string) : M (list string) :=
  match fuel with
  | O => diverge
  | S fuel' =>
      f <- the_file ;;
      raw <- Sys.readline f ;;
      let line := PyStr.rstrip PyStr.is_cr_or_lf raw in
      let lines := (lines ++ [line])%list in
      if ends_response line then ret lines else read_lines fuel' lines
  end.

(** Each turn of the loop uses up one entry of [ctrl_in] and one of
    [faults] while there are any; once both are empty every [readline]
    returns the empty string and the loop cannot end. *)
Definition read_fuel (st : state) : nat :=
  S (List.length (ctrl_in st) + List.length (faults st)).

Definition _read_response : M (Z * string) :=
  fun st =>
    (lines <- read_lines (read_fuel st) [] ;;
     match PyStr.int (PyStr.slice_to 3 (last lines EmptyString)) with
     | None => raise (ValueError "invalid literal for int() with base 10")
     | Some code => ret (code, PyStr.join LF lines)
     end) st.

(** [if expect and code != expect] *)
Definition mismatch (expect : option Z) (code : Z) : bool :=
  match expect with
  | Some e => negb (e =? 0)%Z && negb (code =? e)%Z
  | None => false
  end.

Definition expect_str (expect : option Z) : string :=
  match expect with
  | Some e => PyStr.str_of_int e
  | None => "None"
  end.

Definition _command (cmd : string) (expect : option Z) : M (Z * string) :=
  s <- the_socket ;;
  Sys.sendall s (cmd ++ CRLF) ;;
  '(code, message) <- _read_response ;;
  if mismatch expect code then
    raise (FTPError ("Expected " ++ expect_str expect ++ ", got "
                     ++ PyStr.str_of_int code ++ ": " ++ message))
  else ret (code, message).

(** [[int(x) for x in groups]] *)
Fixpoint ints (groups : list string) : result (list Z) :=
  match groups with
  | [] => Returns []
  | g :: gs =>
      match PyStr.int g with
      | None => Raises (ValueError "invalid literal for int() with base 10")
      | Some n =>
          match ints gs with
          | Returns ns => Returns (n :: ns)
          | Raises e => Raises e
          end
      end
  end.

Definition _pasv : M (string * Z) :=
  '(code, msg) <- _command "PASV" None ;;
  if negb (code =? 227)%Z then raise (FTPError ("PASV failed: " ++ msg))
  else
    match PyStr.pasv_search msg with
    | None => raise (FTPError "Invalid PASV response")
    | Some groups =>
        parts <- lift (ints groups) ;;
        let host := PyStr.join "." (map PyStr.str_of_int (firstn 4 parts)) in
        let port := (nth 4 parts 0 * 256 + nth 5 parts 0)%Z in
        ret (host, port)
    end.

Definition _data_connection : M sock :=
  '(host, port) <- _pasv ;;
  sock <- Sys.socket_new ;;
  c <- cfg ;;
  Sys.settimeout sock (timeout c) ;;
  Sys.connect sock host port ;;
  if secure c then Sys.wrap_socket sock (Env.host c) else ret sock.

Definition connect : M unit :=
  s <- Sys.socket_new ;;
  set__socket s ;;
  c <- cfg ;;
  Sys.settimeout s (timeout c) ;;
  Sys.connect s (host c) (port c) ;;
  (if secure c then
     s' <- Sys.wrap_socket s (host c) ;; set__socket s'
   else ret tt) ;;
  f <- the_socket ;;
  set__file f ;;
  _read_response ;;
  _command ("USER " ++ username c) None ;;
  _command ("PASS " ++ password c) None ;;
  ret tt.

Definition pwd : M string :=
  '(code, msg) <- _command "PWD" None ;;
  match PyStr.quoted_search msg with
  | Some path => ret path
  | None => ret EmptyString
  end.

Definition cwd (path : string) : M unit :=
  _command ("CWD " ++ path) (Some 250%Z) ;; ret tt.

Definition mkd (path : string) : M unit :=
  _command ("MKD " ++ path) (Some 257%Z) ;; ret tt.

Definition rmd (path : string) : M unit :=
  _command ("RMD " ++ path) (Some 250%Z) ;; ret tt.

Definition delete (path : string) : M unit :=
  _command ("DELE " ++ path) (Some 250%Z) ;; ret tt.

Definition rename (old new : string) : M unit :=
  _command ("RNFR " ++ old) (Some 350%Z) ;;
  _command ("RNTO " ++ new) (Some 250%Z) ;;
  ret tt.

(** [xs[-1]] *)
Definition last_item {A} (xs : list A) : result A :=
  match rev xs with
  | x :: _ => Returns x
  | [] => Raises (IndexError "list index out of range")
  end.

(** [int(s)] as an expression that can raise.  The class of the exception
    is what the model keeps: the one message stands for both texts of
    [int()], that of a string that is no literal and that of a literal
    with too many digits. *)
Definition int_of (s : string) : result Z :=
  match PyStr.int s with
  | Some n => Returns n
  | None => Raises (ValueError "invalid literal for int() with base 10")
  end.

Definition size (path : string) : M Z :=
  '(code, msg) <- _command ("SIZE " ++ path) None ;;
  if (code =? 213)%Z then
    tok <- lift (last_item (PyStr.split msg)) ;;
    lift (int_of tok)
  else ret 0%Z.

Definition _parse_list_line (line : string) : result (option FTPEntry) :=
  if PyStr.is_empty line then Returns None
  else
    let parts := PyStr.split_ws 8 line in
    if (List.length parts <? 9)%nat then
      Returns (Some (mkFTPEntry line 0 None false EmptyString line))
    else
      let p4 := nth 4 parts EmptyString in
      let p0 := nth 0 parts EmptyString in
      match (if PyStr.isdigit p4 then int_of p4 else Returns 0%Z) with
      | Raises e => Raises e
      | Returns sz =>
          Returns (Some (mkFTPEntry (nth 8 parts EmptyString) sz None
                                    (PyStr.startswith "d" p0) p0 line))
      end.

Definition is_nil {A} (xs : list A) : bool :=
  match xs with [] => true | _ => false end.

(** The receiving loop of [list]. *)
Fixpoint recv_all (fuel : nat) (data_sock : sock) (data : bytes) : M bytes :=
  match fuel with
  | O => diverge
  | S fuel' =>
      chunk <- Sys.recv data_sock ;;
      if is_nil chunk then ret data
      else recv_all fuel' data_sock (data ++ chunk)%list
  end.

(** The [for] loop of [list]. *)
Fixpoint parse_entries (lines : list string) (entries : list FTPEntry)
  : result (list FTPEntry) :=
  match lines with
  | [] => Returns entries
  | line :: rest =>
      match _parse_list_line line with
      | Raises e => Raises e
      | Returns (Some entry) => parse_entries rest (entries ++ [entry])%list
      | Returns None => parse_entries rest entries
      end
  end.

Section Listing.

(** [data.decode("utf-8", errors="replace")] and [str.splitlines]. *)
Variable decode_utf8_replace : bytes -> string.
Variable splitlines : string -> list string.

Definition list (path : string) : M (list FTPEntry) :=
  data_sock <- _data_connection ;;
  _command (if PyStr.is_empty path then "LIST" else "LIST " ++ path) None ;;
  fuel <- get (fun st => S (List.length (data_in st))) ;;
  data <- recv_all fuel data_sock [] ;;
  Sys.close data_sock ;;
  _read_response ;;
  lift (parse_entries (splitlines (decode_utf8_replace data)) []).

End Listing.

(** The receiving loop of [download]. *)
Fixpoint recv_to_file (fuel : nat) (data_sock : sock) (f : handle) (total : Z)
  : M Z :=
  match fuel with
  | O => diverge
  | S fuel' =>
      chunk <- Sys.recv data_sock ;;
      if is_nil chunk then ret total
      else
        Sys.write f chunk ;;
        recv_to_file fuel' data_sock f (total + Z.of_nat (List.length chunk))%Z
  end.

Definition download (remote local : string) : M Z :=
  data_sock <- _data_connection ;;
  _command "TYPE I" None ;;
  _command ("RETR " ++ remote) None ;;
  fuel <- get (fun st => S (List.length (data_in st))) ;;
  total <- Sys.with_open local "wb"
             (fun f => recv_to_file fuel data_sock f 0%Z) ;;
  Sys.close data_sock ;;
  _read_response ;;
  ret total.

(** The sending loop of [upload]. *)
Fixpoint send_from_file (fuel : nat) (data_sock : sock) (f : handle) (total : Z)
  : M Z :=
  match fuel with
  | O => diverge
  | S fuel' =>
      chunk <- Sys.read f ;;
      if is_nil chunk then ret total
      else
        Sys.sendall_bytes data_sock chunk ;;
        send_from_file fuel' data_sock f (total + Z.of_nat (List.length chunk))%Z
  end.

Definition upload (local remote : string) : M Z :=
  data_sock <- _data_connection ;;
  _command "TYPE I" None ;;
  _command ("STOR " ++ remote) None ;;
  fuel <- get (fun st => S (List.length (file_in st))) ;;
  total <- Sys.with_open local "rb"
             (fun f => send_from_file fuel data_sock f 0%Z) ;;
  Sys.close data_sock ;;
  _read_response ;;
  ret total.

Definition close : M unit :=
  try_except (_command "QUIT" None ;; ret tt) (fun _ => ret tt) ;;
  o <- get (fun st => _socket (self st)) ;;
  match o with
  | Some s => Sys.close s
  | None => ret tt
  end.

Definition __enter__ : M unit := connect.

Definition __exit__ : M unit := close.

End FTPClient.

(** ** Module-level [connect] *)

(** The keyword arguments that [FTPConfig] accepts besides [host],
    [username] and [password]. *)
Record kwargs : Type := mkKwargs {
  kw_port : option Z;
  kw_timeout : option Q;
  kw_mode : option FTPMode;
  kw_secure : option bool
}.

Definition no_kwargs : kwargs := mkKwargs None None None None.

(** [connect(host, username="anonymous", password="anonymous@", **kwargs)]:
    an argument left out is [None] here and takes the default of the
    signature. *)
Definition connect (host : string) (username password : option string)
    (kw : kwargs) : M unit :=
  let username := match username with Some u => u | None => "anonymous" end in
  let password := match password with Some p => p | None => "anonymous@" end in
  let config := FTPConfig_init host (kw_port kw) (Some username) (Some password)
                               (kw_timeout kw) (kw_mode kw) (kw_secure kw) in
  modify (set_self (FTPClient.__init__ config)) ;;
  FTPClient.connect.

(** ** Vocabulary of the statements *)

(** The line with its trailing carriage returns and line feeds removed, as
    [_read_response] stores it. *)
Definition strip_eol (raw : string) : string :=
  PyStr.rstrip PyStr.is_cr_or_lf raw.

(** The 4th character of a line is a space. *)
Definition fourth_is_space (line : string) : bool :=
  match String.get 3 line with
  | Some c => Ascii.eqb c " "
  | None => false
  end.

Definition all_decimal (s : string) : bool := PyStr.forallb_str PyStr.isdecimal s.

(** The number a string of decimal digits denotes. *)
Fixpoint decimal_acc (acc : Z) (s : string) : Z :=
  match s with
  | EmptyString => acc
  | String c r => decimal_acc (10 * acc + PyStr.digit_val c) r
  end.

Definition decimal_value (s : string) : Z := decimal_acc 0 s.

(** None of the next [n] calls that can fail does fail. *)
Fixpoint no_fault (n : nat) (fs : list (option exn)) : bool :=
  match n, fs with
  | O, _ => true
  | _, [] => true
  | S n', None :: fs' => no_fault n' fs'
  | S _, Some _ :: _ => false
  end.

(** The state once the next call that can fail has taken its entry of
    [faults]. *)
Definition pop_fault (st : state) : state :=
  match faults st with
  | [] => st
  | _ :: fs => set_faults fs st
  end.

(** A step that only reads: the client object, the trace and the other
    inputs are as before. *)
Definition reads_only (st st' : state) : Prop :=
  self st' = self st /\ trace st' = trace st /\ next_id st' = next_id st /\
  data_in st' = data_in st /\ file_in st' = file_in st.

(** What [_read_response] returns once it has read the stripped lines
    [lines]. *)
Definition response_of (lines : list string) (st : state) : outcome (Z * string) :=
  match PyStr.int (PyStr.slice_to 3 (last lines EmptyString)) with
  | None => Raise (ValueError "invalid literal for int() with base 10") st
  | Some code => Ok (code, PyStr.join LF lines) st
  end.

Definition outcome_state {A} (o : outcome A) : state :=
  match o with
  | Ok _ st => st
  | Raise _ st => st
  | Diverge st => st
  end.

(** The lines sent on the control connection among the events [evs],
    oldest first. *)
Fixpoint commands_sent (evs : list event) : list string :=
  match evs with
  | [] => []
  | EvSendall _ text :: r => text :: commands_sent r
  | _ :: r => commands_sent r
  end.

(** A step that keeps the configuration and adds the events [evs] to the
    trace. *)
Definition grows (evs : list event) (st st' : state) : Prop :=
  config (self st') = config (self st) /\ trace st' = (trace st ++ evs)%list.

(** A client whose [connect] has run on socket [s], before any reply is
    read: used for examples. *)
Definition connected (cfg : FTPConfig) (s : sock) (fs : list (option exn))
    (lines : list string) (data : list bytes) : state :=
  mkState (mkClient cfg (Some s) (Some s)) fs lines data [] (S s) [].

Definition default_config (h : string) : FTPConfig :=
  FTPConfig_init h None None None None None None.

(** A step that leaves the client object as it is and adds the events
    [evs] to the trace. *)
Definition emits (evs : list event) (st st' : state) : Prop :=
  self st' = self st /\ trace st' = (trace st ++ evs)%list.

(** The state after the last statement of [close]. *)
Definition after_close (st : state) : state :=
  match _socket (self st) with
  | Some s => log (EvSockClose s) st
  | None => st
  end.

(** [s.close()] has been called. *)
Definition socket_closed (st : state) (s : sock) : Prop :=
  In (EvSockClose s) (trace st).

(** The file objects open on the connection of the socket [s].  The
    client makes one, with [makefile] in [connect], keeps it in [_file]
    and calls [close] on it in no method: the one in [_file] is open. *)
Definition open_files (st : state) (s : sock) : nat :=
  match _file (self st) with
  | Some s' => if (s' =? s)%nat then 1%nat else 0%nat
  | None => 0%nat
  end.

(** The connection of [s] is closed.  [s.close()] marks the socket as
    closed, and the connection itself is closed once the socket is marked
    and no file object made by [s.makefile] is open on it. *)
Definition connection_closed (st : state) (s : sock) : Prop :=
  socket_closed st s /\ open_files st s = 0%nat.

(** A non-empty string of decimal digits. *)
Definition is_number (g : string) : Prop :=
  g <> EmptyString /\ all_decimal g = true.

(** A string of at most [int_max_str_digits] characters: a number that
    short is one [int] converts. *)
Definition short_number (g : string) : bool :=
  (N.of_nat (String.length g) <=? PyStr.int_max_str_digits)%N.

Definition starts_decimal (s : string) : bool :=
  match s with
  | String c _ => PyStr.isdecimal c
  | EmptyString => false
  end.

(** Six numbers between parentheses, separated by commas. *)
Definition group_text (g1 g2 g3 g4 g5 g6 : string) : string :=
  "(" ++ g1 ++ "," ++ g2 ++ "," ++ g3 ++ "," ++ g4 ++ "," ++ g5 ++ "," ++ g6 ++ ")".

(** [msg] holds such a group right after the prefix [pre]. *)
Definition has_group_at (msg pre : string) (gs : list string) : Prop :=
  exists g1 g2 g3 g4 g5 g6 post,
    gs = [g1; g2; g3; g4; g5; g6] /\
    is_number g1 /\ is_number g2 /\ is_number g3 /\
    is_number g4 /\ is_number g5 /\ is_number g6 /\
    msg = pre ++ group_text g1 g2 g3 g4 g5 g6 ++ post.

Definition has_group (msg : string) : Prop :=
  exists pre gs, has_group_at msg pre gs.

(** The group that starts first in [msg]. *)
Definition first_group (msg pre : string) (gs : list string) : Prop :=
  has_group_at msg pre gs /\
  forall pre' gs', has_group_at msg pre' gs' ->
                   (String.length pre <= String.length pre')%nat.

Definition pasv_example : string :=
  "227 Entering Passive Mode (192,168,1,5,200,10).".

(** A number of one digit more than [int()] converts. *)
Definition long_number : string :=
  N.iter (N.succ PyStr.int_max_str_digits) (String "9") EmptyString.

(** A line of a listing whose size field is that long. *)
Definition long_size_line : string :=
  "-rw-r--r-- 1 user group " ++ long_number ++ " Jan 1 00:00 file.txt".

(** A reply to PASV whose sixth number is that long. *)
Definition pasv_long_number : string :=
  "227 Entering Passive Mode (1,2,3,4,5," ++ long_number ++ ").".

(** A terminating line: three characters, a space, and the text. *)
Definition reply_line (a b c : ascii) (text : string) : string :=
  String a (String b (String c (String " " text))).

Definition code_chars (a b c : ascii) : string :=
  String a (String b (String c EmptyString)).

Definition example_config : FTPConfig := default_config "ftp.example.com".

(** A two-line greeting, as [readline] hands it over (text mode turns every
    line ending into a line feed). *)
Definition st_two_lines : state :=
  connected example_config 0 [] ["220-Hi" ++ LF; "220 ok" ++ LF] [].

(** A reply whose first line has two characters. *)
Definition st_short_line : state :=
  connected example_config 0 [] ["ab" ++ LF; "220 ok" ++ LF] [].

Definition st_drained : state := connected example_config 0 [] [] [].

(** A session on socket 0 whose next [sendall] fails. *)
Definition st_quit_fails : state :=
  connected example_config 0 [Some (OSError "Broken pipe")] [] [].

(** A session on socket 0 that is about to read the given replies. *)
Definition st_replies (lines : list string) : state :=
  connected example_config 0 [] lines [].

(** A session over TLS, about to read the reply to PASV. *)
Definition secure_config : FTPConfig :=
  FTPConfig_init "ftp.example.com" None None None None None (Some true).

Definition st_secure : state :=
  connected secure_config 0 [] [pasv_example ++ LF] [].

(** A client that is not connected yet, and the three replies that a
    login reads. *)
Definition st_fresh : state :=
  mkState (FTPClient.__init__ example_config) []
          ["220 Welcome" ++ LF; "331 Password required" ++ LF; "230 Logged in" ++ LF]
          [] [] 0 [].

(** The same client, and the reply to QUIT after the three. *)
Definition st_goodbye : state :=
  mkState (FTPClient.__init__ example_config) []
          ["220 Welcome" ++ LF; "331 Password required" ++ LF; "230 Logged in" ++ LF;
           "221 Goodbye" ++ LF]
          [] [] 0 [].

(** The operation that went from [st] to [st'] opened a data connection
    and its last event is the [close] of that connection. *)
Definition closes_data_connection (st st' : state) : Prop :=
  exists d st1 evs,
    FTPClient._data_connection st = Ok d st1 /\
    trace st' = ((trace st1 ++ evs) ++ [EvSockClose d])%list.

(** A session on socket 0 in which the passive handshake and the LIST
    command go through and the first [recv] on the data connection times
    out (the 7th call that can fail). *)
Definition st_list_recv_fails : state :=
  connected example_config 0
    [None; None; None; None; None; None; Some (OSError "timed out")]
    [pasv_example ++ LF; "150 Here comes the directory listing." ++ LF]
    [].

(** The same for a download: handshake, TYPE I, RETR and [open] go
    through, the first [recv] times out (the 10th call that can fail). *)
Definition st_download_recv_fails : state :=
  connected example_config 0
    [None; None; None; None; None; None; None; None; None;
     Some (OSError "timed out")]
    [pasv_example ++ LF; "200 Switching to Binary mode." ++ LF;
     "150 Opening BINARY mode data connection." ++ LF]
    [].

(** Stand-ins for the decoder and the line splitter in examples where
    the text of the listing plays no part. *)
Definition decode_stub (data : bytes) : string := EmptyString.
Definition splitlines_stub (text : string) : list string := [].

(** A session on socket 0 in which a listing goes through: the replies to
    PASV and LIST, the closing reply, and one chunk of data before the end
    of the data stream. *)
Definition st_list_ok : state :=
  connected example_config 0 []
    [pasv_example ++ LF; "150 Here comes the directory listing." ++ LF;
     "226 Directory send OK." ++ LF]
    [[Byte.x61; Byte.x0a]].

(** A listing line whose size field is the single character U+00B2
    (superscript two). *)
Definition superscript_size_line : string :=
  "-rw-r--r-- 1 user group " ++ String "178"%char " Jan 1 00:00 file.txt".

(** *** Vocabulary of the further properties *)

(** Whatever its outcome, [m] takes a state to one related to it by [R]. *)
Definition respects {A} (R : state -> state -> Prop) (m : M A) : Prop :=
  forall st, R st (outcome_state (m st)).

(** The events on local files. *)
Definition is_file_event (e : event) : bool :=
  match e with
  | EvOpen _ _ _ | EvWrite _ _ | EvFileClose _ => true
  | _ => false
  end.

Definition file_events (evs : list event) : list event :=
  filter is_file_event evs.

(** The pending data and file inputs are as before. *)
Definition same_inputs (st st' : state) : Prop :=
  data_in st' = data_in st /\ file_in st' = file_in st.

(** The trace has grown by events none of which is on a local file. *)
Definition no_file_event (st st' : state) : Prop :=
  exists evs, trace st' = (trace st ++ evs)%list /\ file_events evs = [].

(** A relation between states that every step of the control connection
    and of the socket set-up keeps: it holds from a state to itself, it
    composes, and it holds across the bookkeeping of a run and across any
    event that is not on a local file. *)
Record frame (R : state -> state -> Prop) : Prop := mkFrame {
  fr_refl : forall st, R st st;
  fr_trans : forall st1 st2 st3, R st1 st2 -> R st2 st3 -> R st1 st3;
  fr_faults : forall fs st, R st (set_faults fs st);
  fr_next_id : forall n st, R st (set_next_id n st);
  fr_ctrl_in : forall ls st, R st (set_ctrl_in ls st);
  fr_self : forall c st, R st (set_self c st);
  fr_log : forall e st, is_file_event e = false -> R st (log e st)
}.

(** The double quote, and strings without one. *)
Definition QUOTE : string := String "034"%char EmptyString.

Definition no_quote (s : string) : bool :=
  PyStr.forallb_str (fun c => negb (PyStr.ord c =? 34)%nat) s.

Definition attribute_error : exn :=
  AttributeError "'NoneType' object has no attribute".

Definition value_error : exn :=
  ValueError "invalid literal for int() with base 10".

(** The error of [_command] when the reply code is not the expected one. *)
Definition unexpected (expect code : Z) (message : string) : exn :=
  FTPError ("Expected " ++ PyStr.str_of_int expect ++ ", got "
            ++ PyStr.str_of_int code ++ ": " ++ message).

(** The four operations that send one command and check one code: the
    method, the verb it sends and the code it expects. *)
Inductive simple_op : Type := Cwd | Mkd | Rmd | Delete.

Definition run_simple (op : simple_op) (path : string) : M unit :=
  match op with
  | Cwd => FTPClient.cwd path
  | Mkd => FTPClient.mkd path
  | Rmd => FTPClient.rmd path
  | Delete => FTPClient.delete path
  end.

Definition verb (op : simple_op) : string :=
  match op with
  | Cwd => "CWD "
  | Mkd => "MKD "
  | Rmd => "RMD "
  | Delete => "DELE "
  end.

Definition expected_code (op : simple_op) : Z :=
  match op with
  | Mkd => 257%Z
  | _ => 250%Z
  end.

(** Some character of [s] satisfies [p]. *)
Fixpoint existsb_str (p : ascii -> bool) (s : string) : bool :=
  match s with
  | EmptyString => false
  | String c r => p c || existsb_str p r
  end.

Definition has_decimal (s : string) : bool := existsb_str PyStr.isdecimal s.

Definition has_word (s : string) : bool :=
  existsb_str (fun c => negb (PyStr.isspace c)) s.

(** What a transfer loop took from the scripted chunks [input]: the
    chunks [chunks], none of them empty, up to the end of the stream or
    to the first empty chunk. *)
Definition consumed (input chunks : list bytes) : Prop :=
  exists tail,
    input = (chunks ++ tail)%list /\
    Forall (fun c => c <> []) chunks /\
    hd [] tail = [].

(** The events of a local file opened, written chunk by chunk and
    closed. *)
Definition file_session (f : handle) (path mode : string) (chunks : list bytes)
  : list event :=
  (EvOpen f path mode :: map (EvWrite f) chunks ++ [EvFileClose f])%list.

(** A session on socket 0 in which a download of two chunks goes
    through. *)
Definition st_download_ok : state :=
  connected example_config 0 []
    [pasv_example ++ LF; "200 Switching to Binary mode." ++ LF;
     "150 Opening BINARY mode data connection." ++ LF;
     "226 Transfer complete." ++ LF]
    [[Byte.x68; Byte.x65]; [Byte.x79]].

(** The call ended, by returning or by raising, and added the events
    [evs] to the trace. *)
Definition ended_with {A} (evs : list event) (st : state) (o : outcome A) : Prop :=
  match o with
  | Diverge _ => False
  | _ => trace (outcome_state o) = (trace st ++ evs)%list
  end.

(** Whatever the outcome [o] of a call from [st], the events on local
    files among those it added to the trace satisfy [P]. *)
Definition file_trace {A} (P : list event -> Prop) (st : state) (o : outcome A)
  : Prop :=
  exists evs,
    trace (outcome_state o) = (trace st ++ evs)%list /\ P (file_events evs).

(** The local file is left alone, or opened, written and closed. *)
Definition untouched_or_written (path : string) (fe : list event) : Prop :=
  fe = [] \/ exists f chunks, fe = file_session f path "wb" chunks.

(** The local file is left alone, or opened and closed. *)
Definition untouched_or_read (path : string) (fe : list event) : Prop :=
  fe = [] \/ exists f, fe = [EvOpen f path "rb"; EvFileClose f].

(** A session on socket 0 in which an upload of two chunks goes through. *)
Definition st_upload_ok : state :=
  mkState (mkClient example_config (Some 0%nat) (Some 0%nat)) []
    [pasv_example ++ LF; "200 Switching to Binary mode." ++ LF;
     "150 Ok to send data." ++ LF; "226 Transfer complete." ++ LF]
    [] [[Byte.x68; Byte.x65]; [Byte.x79]] 1 [].

(** The command that [list] sends for a path. *)
Definition list_command (path : string) : string :=
  if PyStr.is_empty path then "LIST" else "LIST " ++ path.

Definition non_empty_line (l : string) : bool := negb (PyStr.is_empty l).

(** What a [connect] that returns has done, in order: [raw] is the socket
    it created and [final] the one the session keeps. *)
Definition login_events (c : FTPConfig) (raw final : sock) : list event :=
  ([EvSocket raw; EvSetTimeout raw (timeout c); EvConnect raw (host c) (port c)]
   ++ (if secure c then [EvWrapSocket raw final (host c)] else [])
   ++ [EvSendall final (("USER " ++ username c) ++ CRLF);
       EvSendall final (("PASS " ++ password c) ++ CRLF)])%list.

(** A client that is not connected yet, facing a server that refuses the
    password. *)
Definition st_login_refused : state :=
  mkState (FTPClient.__init__ example_config) []
          ["220 Welcome" ++ LF; "331 Password required" ++ LF;
           "530 Login incorrect" ++ LF]
          [] [] 0 [].

(** Stand-ins for the decoder and the line splitter on ASCII text whose
    only line break is the line feed: a byte is its character, and the
    text is cut after each line feed. *)
Definition decode_ascii (data : bytes) : string := string_of_list_byte data.

Fixpoint lines_lf_from (cur : string) (text : string) : list string :=
  match text with
  | EmptyString => if PyStr.is_empty cur then [] else [cur]
  | String c r =>
      if (PyStr.ord c =? 10)%nat then cur :: lines_lf_from EmptyString r
      else lines_lf_from (cur ++ String c EmptyString) r
  end.

Definition splitlines_lf (text : string) : list string :=
  lines_lf_from EmptyString text.

(** A session on socket 0 in which a listing of two lines and an empty
    line between them goes through. *)
Definition st_list_two : state :=
  connected example_config 0 []
    [pasv_example ++ LF; "150 Here comes the directory listing." ++ LF;
     "226 Directory send OK." ++ LF]
    [[Byte.x61; Byte.x0a; Byte.x0a]; [Byte.x62; Byte.x20; Byte.x63; Byte.x0a]].

(** Whatever the outcome [o] of a call from [st], the client object is
    as before and the call has added to the trace nothing, or the one
    line [cmd] sent on the control connection. *)
Definition at_most_one_line {A} (cmd : string) (st : state) (o : outcome A) : Prop :=
  emits [] st (outcome_state o) \/
  exists s, _socket (self st) = Some s /\
            emits [EvSendall s (cmd ++ CRLF)] st (outcome_state o).

(** A session on socket 0 facing a server that accepts a rename. *)
Definition st_rename_ok : state :=
  st_replies ["350 Ready for RNTO." ++ LF; "250 Rename successful." ++ LF].

(** A plain session on socket 0, about to read the reply to PASV. *)
Definition st_plain : state := st_replies [pasv_example ++ LF].

(** A session on socket 0 whose stream holds one continuation line and
    then ends. *)
Definition st_unfinished_reply : state :=
  connected example_config 0 [] ["220-Hi" ++ LF] [].

(** * Properties *)

(** ** The string operations *)

Lemma get_rstrip_keep (p : ascii -> bool) (s : string) :
  forall n c, String.get n s = Some c -> p c = false ->
              String.get n (PyStr.rstrip p s) = Some c.
Proof.
  induction s as [|a r IH]; intros n c Hget Hp; [destruct n; discriminate|].
  cbn [PyStr.rstrip]. destruct n as [|m].
  - cbn in Hget. injection Hget as ->. rewrite Hp, andb_false_r. reflexivity.
  - cbn in Hget. specialize (IH m c Hget Hp).
    destruct (PyStr.rstrip p r) as [|b r'] eqn:E; [destruct m; discriminate|].
    cbn. exact IH.
Qed.

Lemma get_rstrip_inv (p : ascii -> bool) (s : string) :
  forall n c, String.get n (PyStr.rstrip p s) = Some c -> String.get n s = Some c.
Proof.
  induction s as [|a r IH]; intros n c Hget; [exact Hget|].
  cbn [PyStr.rstrip] in Hget.
  destruct (PyStr.is_empty (PyStr.rstrip p r) && p a) eqn:E.
  - destruct n; discriminate.
  - destruct n as [|m]; cbn in *; [exact Hget | apply IH; exact Hget].
Qed.

Lemma get_length (s : string) :
  forall n c, String.get n s = Some c -> (n < String.length s)%nat.
Proof.
  induction s as [|a r IH]; intros n c H; [destruct n; discriminate|].
  destruct n as [|m]; cbn in *; [lia|]. apply IH in H. lia.
Qed.

Lemma ends_response_fourth (line : string) :
  FTPClient.ends_response line = fourth_is_space line.
Proof.
  unfold FTPClient.ends_response, fourth_is_space.
  destruct (String.get 3 line) as [c|] eqn:E.
  - apply get_length in E.
    replace (4 <=? String.length line)%nat with true; [reflexivity|].
    symmetry. apply Nat.leb_le. lia.
  - apply andb_false_r.
Qed.

(** Removing the line ending does not change whether the 4th character is
    a space. *)
Lemma fourth_is_space_strip (raw : string) :
  fourth_is_space (strip_eol raw) = fourth_is_space raw.
Proof.
  unfold fourth_is_space, strip_eol.
  destruct (String.get 3 raw) as [c|] eqn:E.
  - destruct (Ascii.eqb c " ") eqn:Ec.
    + apply Ascii.eqb_eq in Ec. subst c.
      rewrite (get_rstrip_keep _ _ _ _ E); reflexivity.
    + destruct (String.get 3 (PyStr.rstrip PyStr.is_cr_or_lf raw)) as [c'|] eqn:E';
        [|reflexivity].
      apply get_rstrip_inv in E'. congruence.
  - destruct (String.get 3 (PyStr.rstrip PyStr.is_cr_or_lf raw)) as [c'|] eqn:E';
      [|reflexivity].
    apply get_rstrip_inv in E'. congruence.
Qed.

Lemma ends_response_strip (raw : string) :
  FTPClient.ends_response (strip_eol raw) = fourth_is_space raw.
Proof. rewrite ends_response_fourth. apply fourth_is_space_strip. Qed.

Lemma rstrip_cons_keep (p : ascii -> bool) (c : ascii) (s : string) :
  p c = false -> PyStr.rstrip p (String c s) = String c (PyStr.rstrip p s).
Proof. intros H. cbn [PyStr.rstrip]. rewrite H, andb_false_r. reflexivity. Qed.

Lemma rstrip_id (p : ascii -> bool) (s : string) :
  PyStr.forallb_str (fun c => negb (p c)) s = true -> PyStr.rstrip p s = s.
Proof.
  induction s as [|a r IH]; intros H; [reflexivity|].
  cbn in H. apply andb_prop in H as [Ha Hr].
  rewrite rstrip_cons_keep by (destruct (p a); [discriminate|reflexivity]).
  rewrite IH by exact Hr. reflexivity.
Qed.

Ltac ascii_cases c :=
  destruct c as [[] [] [] [] [] [] [] []]; try discriminate; try reflexivity.

Lemma decimal_not_int_space (c : ascii) :
  PyStr.isdecimal c = true -> PyStr.int_space c = false.
Proof. ascii_cases c. Qed.

Lemma decimal_not_space (c : ascii) :
  PyStr.isdecimal c = true -> PyStr.isspace c = false.
Proof. ascii_cases c. Qed.

Lemma decimal_not_eol (c : ascii) :
  PyStr.isdecimal c = true -> PyStr.is_cr_or_lf c = false.
Proof. ascii_cases c. Qed.

Lemma decimal_is_digit (c : ascii) :
  PyStr.isdecimal c = true -> PyStr.isdigit_char c = true.
Proof. ascii_cases c. Qed.

Lemma forallb_str_impl (p q : ascii -> bool) (s : string) :
  (forall c, p c = true -> q c = true) ->
  PyStr.forallb_str p s = true -> PyStr.forallb_str q s = true.
Proof.
  intros Hpq. induction s as [|a r IH]; [reflexivity|].
  cbn. intros H. apply andb_prop in H as [Ha Hr].
  rewrite (Hpq _ Ha), (IH Hr). reflexivity.
Qed.

Lemma int_digits_decimal (s : string) :
  forall acc, all_decimal s = true -> PyStr.int_digits acc s = Some (decimal_acc acc s).
Proof.
  induction s as [|c r IH]; intros acc H; [reflexivity|].
  cbn in H. apply andb_prop in H as [Hc Hr].
  cbn [PyStr.int_digits decimal_acc]. rewrite Hc. apply IH. exact Hr.
Qed.

Lemma int_sign_free (c : ascii) (r : string) :
  PyStr.isdecimal c = true ->
  match String c r with
  | String "+" r' => PyStr.int_unsigned r'
  | String "-" r' => option_map Z.opp (PyStr.int_unsigned r')
  | t => PyStr.int_unsigned t
  end = PyStr.int_unsigned (String c r).
Proof. ascii_cases c. Qed.

Lemma count_decimals_all (s : string) :
  all_decimal s = true -> PyStr.count_decimals s = N.of_nat (String.length s).
Proof.
  induction s as [|c r IH]; intros H; [reflexivity|].
  cbn in H. apply andb_prop in H as [Hc Hr].
  cbn [PyStr.count_decimals String.length]. rewrite Hc, (IH Hr).
  rewrite Nat2N.inj_succ. reflexivity.
Qed.

(** A string of decimal digits goes through the limit on digits exactly
    when it is short. *)
Lemma int_unsigned_decimal (s : string) :
  all_decimal s = true ->
  PyStr.int_unsigned s = if short_number s then PyStr.int_literal s else None.
Proof.
  intros H. unfold PyStr.int_unsigned, short_number.
  rewrite (count_decimals_all _ H). reflexivity.
Qed.

Lemma int_literal_decimal (s : string) :
  s <> EmptyString -> all_decimal s = true ->
  PyStr.int_literal s = Some (decimal_value s).
Proof.
  intros Hne Hall. destruct s as [|c r]; [congruence|].
  cbn in Hall. apply andb_prop in Hall as [Hc Hr].
  cbn [PyStr.int_literal]. rewrite Hc.
  rewrite (int_digits_decimal r _ Hr). reflexivity.
Qed.

(** [int] of a non-empty string of decimal digits: the number it denotes
    when it has at most [int_max_str_digits] digits, and [ValueError]
    otherwise. *)
Lemma int_decimal_cases (s : string) :
  s <> EmptyString -> all_decimal s = true ->
  PyStr.int s = if short_number s then Some (decimal_value s) else None.
Proof.
  intros Hne Hall. destruct s as [|c r]; [congruence|].
  pose proof Hall as Hall'. cbn in Hall'. apply andb_prop in Hall' as [Hc Hr].
  unfold PyStr.int.
  assert (Hl : PyStr.lstrip PyStr.int_space (String c r) = String c r).
  { cbn. rewrite (decimal_not_int_space _ Hc). reflexivity. }
  rewrite Hl, rstrip_id.
  - rewrite int_sign_free by exact Hc.
    rewrite (int_unsigned_decimal _ Hall).
    rewrite (int_literal_decimal _ Hne Hall). reflexivity.
  - apply (forallb_str_impl PyStr.isdecimal); [|exact Hall].
    intros a Ha. rewrite (decimal_not_int_space _ Ha). reflexivity.
Qed.

Lemma int_decimal (s : string) :
  s <> EmptyString -> all_decimal s = true -> short_number s = true ->
  PyStr.int s = Some (decimal_value s).
Proof.
  intros Hne Hall Hs. rewrite (int_decimal_cases _ Hne Hall), Hs. reflexivity.
Qed.

Lemma int_decimal_long (s : string) :
  s <> EmptyString -> all_decimal s = true -> short_number s = false ->
  PyStr.int s = None.
Proof.
  intros Hne Hall Hs. rewrite (int_decimal_cases _ Hne Hall), Hs. reflexivity.
Qed.

(** ** The monad *)

Lemma bind_Ok {A B} (m : M A) (k : A -> M B) st a st1 :
  m st = Ok a st1 -> bind m k st = k a st1.
Proof. intros H. unfold bind. rewrite H. reflexivity. Qed.

Lemma bind_Raise {A B} (m : M A) (k : A -> M B) st e st1 :
  m st = Raise e st1 -> bind m k st = Raise e st1.
Proof. intros H. unfold bind. rewrite H. reflexivity. Qed.

Lemma bind_Diverge {A B} (m : M A) (k : A -> M B) st st1 :
  m st = Diverge st1 -> bind m k st = Diverge st1.
Proof. intros H. unfold bind. rewrite H. reflexivity. Qed.

Lemma bind_Ok_inv {A B} (m : M A) (k : A -> M B) st b st' :
  bind m k st = Ok b st' -> exists a st1, m st = Ok a st1 /\ k a st1 = Ok b st'.
Proof.
  unfold bind. destruct (m st) as [a st1|e st1|st1]; intros H; try discriminate.
  exists a, st1. split; [reflexivity | exact H].
Qed.

Lemma fallible_quiet {A} (m : M A) st :
  no_fault 1 (faults st) = true -> fallible m st = m (pop_fault st).
Proof.
  unfold fallible, pop_fault. destruct (faults st) as [|[e|] fs]; cbn; intros H;
    [reflexivity | discriminate | reflexivity].
Qed.

Lemma fallible_fault {A} (m : M A) st e fs :
  faults st = Some e :: fs -> fallible m st = Raise e (set_faults fs st).
Proof. intros H. unfold fallible. rewrite H. reflexivity. Qed.

Lemma pop_fault_reads_only st : reads_only st (pop_fault st).
Proof. unfold pop_fault, reads_only. destruct (faults st); cbn; auto. Qed.

Lemma pop_fault_faults st : faults (pop_fault st) = tl (faults st).
Proof. unfold pop_fault. destruct (faults st) eqn:E; [exact E | reflexivity]. Qed.

Lemma pop_fault_ctrl_in st : ctrl_in (pop_fault st) = ctrl_in st.
Proof. unfold pop_fault. destruct (faults st); reflexivity. Qed.

Lemma reads_only_refl st : reads_only st st.
Proof. unfold reads_only. auto. Qed.

Lemma reads_only_trans st1 st2 st3 :
  reads_only st1 st2 -> reads_only st2 st3 -> reads_only st1 st3.
Proof. unfold reads_only. intuition congruence. Qed.

(** ** The reading loop *)

Lemma the_file_Some st f :
  _file (self st) = Some f -> FTPClient.the_file st = Ok f st.
Proof. intros H. unfold FTPClient.the_file, bind, get. rewrite H. reflexivity. Qed.

Lemma the_file_None st :
  _file (self st) = None ->
  FTPClient.the_file st = Raise (AttributeError "'NoneType' object has no attribute") st.
Proof. intros H. unfold FTPClient.the_file, bind, get. rewrite H. reflexivity. Qed.

(** One turn of the loop on a line that the stream holds. *)
Lemma read_lines_step n acc st f raw rest :
  _file (self st) = Some f ->
  ctrl_in st = raw :: rest ->
  no_fault 1 (faults st) = true ->
  FTPClient.read_lines (S n) acc st =
    if fourth_is_space raw
    then Ok (acc ++ [strip_eol raw])%list (set_ctrl_in rest (pop_fault st))
    else FTPClient.read_lines n (acc ++ [strip_eol raw])%list
                              (set_ctrl_in rest (pop_fault st)).
Proof.
  intros Hf Hin Hq. cbn [FTPClient.read_lines].
  rewrite (bind_Ok _ _ _ _ _ (the_file_Some _ _ Hf)).
  unfold Sys.readline.
  assert (Hr : fallible
                 (fun st0 => match ctrl_in st0 with
                             | [] => Ok EmptyString st0
                             | l :: ls => Ok l (set_ctrl_in ls st0)
                             end) st
               = Ok raw (set_ctrl_in rest (pop_fault st))).
  { rewrite fallible_quiet by exact Hq. rewrite pop_fault_ctrl_in, Hin. reflexivity. }
  rewrite (bind_Ok _ _ _ _ _ Hr).
  fold (strip_eol raw). rewrite ends_response_strip.
  destruct (fourth_is_space raw); reflexivity.
Qed.

Lemma no_fault_S n fs :
  no_fault (S n) fs = true -> no_fault 1 fs = true /\ no_fault n (tl fs) = true.
Proof.
  destruct fs as [|[e|] fs]; cbn; intros H; try discriminate.
  - split; [reflexivity | destruct n; reflexivity].
  - split; [reflexivity | exact H].
Qed.

(** On a stream that holds continuation lines and then a terminating line,
    the loop returns the stripped lines, terminating line included, and
    leaves what follows in the stream. *)
Lemma read_lines_ok (conts : list string) :
  forall n acc st f term rest,
    _file (self st) = Some f ->
    ctrl_in st = (conts ++ term :: rest)%list ->
    no_fault (S (List.length conts)) (faults st) = true ->
    Forall (fun l => fourth_is_space l = false) conts ->
    fourth_is_space term = true ->
    (List.length conts < n)%nat ->
    exists st',
      FTPClient.read_lines n acc st
        = Ok (acc ++ map strip_eol (conts ++ [term]))%list st' /\
      ctrl_in st' = rest /\
      faults st' = skipn (S (List.length conts)) (faults st) /\
      reads_only st st'.
Proof.
  induction conts as [|c conts IH]; intros n acc st f term rest Hf Hin Hq Hc Ht Hn.
  - destruct n as [|n]; [cbn in Hn; lia|].
    rewrite (read_lines_step n acc st f term rest Hf Hin Hq), Ht.
    eexists. split; [reflexivity|]. cbn. split; [reflexivity|]. split.
    + rewrite pop_fault_faults. destruct (faults st); reflexivity.
    + pose proof (pop_fault_reads_only st) as H. unfold reads_only in *. cbn. exact H.
  - destruct n as [|n]; [cbn in Hn; lia|].
    inversion Hc as [|? ? Hc1 Hc2]; subst.
    cbn [List.length] in Hq. apply no_fault_S in Hq as [Hq1 Hq2].
    rewrite (read_lines_step n acc st f c (conts ++ term :: rest)%list Hf Hin Hq1), Hc1.
    destruct (IH n (acc ++ [strip_eol c])%list (set_ctrl_in (conts ++ term :: rest)%list (pop_fault st))
                 f term rest) as (st' & Hrun & Hrest & Hfs & Hro).
    + cbn. destruct (pop_fault_reads_only st) as (Hs & _). rewrite Hs. exact Hf.
    + reflexivity.
    + cbn. rewrite pop_fault_faults. exact Hq2.
    + exact Hc2.
    + exact Ht.
    + cbn in Hn. lia.
    + exists st'. split; [|split; [exact Hrest|split]].
      * rewrite Hrun. cbn [map app]. rewrite <- app_assoc. reflexivity.
      * rewrite Hfs. cbn. rewrite pop_fault_faults.
        destruct (faults st); [destruct conts; reflexivity | reflexivity].
      * eapply reads_only_trans; [|exact Hro].
        pose proof (pop_fault_reads_only st) as H. unfold reads_only in *. cbn. exact H.
Qed.

(** The same for [_read_response]: the code is parsed from the first three
    characters of the stripped terminating line. *)
Lemma read_response_ok st f conts term rest :
  _file (self st) = Some f ->
  ctrl_in st = (conts ++ term :: rest)%list ->
  no_fault (S (List.length conts)) (faults st) = true ->
  Forall (fun l => fourth_is_space l = false) conts ->
  fourth_is_space term = true ->
  exists st',
    FTPClient._read_response st
      = response_of (map strip_eol (conts ++ [term])) st' /\
    ctrl_in st' = rest /\
    faults st' = skipn (S (List.length conts)) (faults st) /\
    reads_only st st'.
Proof.
  intros Hf Hin Hq Hc Ht.
  destruct (read_lines_ok conts (FTPClient.read_fuel st) [] st f term rest Hf Hin Hq Hc Ht)
    as (st' & Hrun & Hrest & Hfs & Hro).
  - unfold FTPClient.read_fuel. rewrite Hin, length_app. cbn. lia.
  - exists st'. split; [|auto].
    unfold FTPClient._read_response. rewrite (bind_Ok _ _ _ _ _ Hrun).
    unfold response_of. cbn [app].
    destruct (PyStr.int _); reflexivity.
Qed.

Lemma get_short (s : string) :
  forall n, (String.length s <= n)%nat -> String.get n s = None.
Proof.
  induction s as [|a r IH]; intros n H; [reflexivity|].
  destruct n as [|m]; cbn in *; [lia | apply IH; lia].
Qed.

Lemma short_line_continues (raw : string) :
  (String.length (strip_eol raw) < 4)%nat -> fourth_is_space raw = false.
Proof.
  intros H. rewrite <- fourth_is_space_strip. unfold fourth_is_space.
  rewrite get_short by lia. reflexivity.
Qed.

Lemma reply_line_terminates a b c text : fourth_is_space (reply_line a b c text) = true.
Proof. reflexivity. Qed.

(** The code of a response that ends with a line of three decimal digits
    and a space. *)
Lemma response_of_reply_line (lines : list string) a b c text st :
  all_decimal (code_chars a b c) = true ->
  response_of (map strip_eol (lines ++ [reply_line a b c text])) st
  = Ok (decimal_value (code_chars a b c),
        PyStr.join LF (map strip_eol (lines ++ [reply_line a b c text]))) st.
Proof.
  intros Hd. unfold response_of.
  rewrite map_app. cbn [map]. rewrite last_last.
  pose proof Hd as Hd'. cbn in Hd'.
  apply andb_prop in Hd' as [Ha Hd']. apply andb_prop in Hd' as [Hb Hd'].
  apply andb_prop in Hd' as [Hc _].
  unfold strip_eol, reply_line.
  rewrite (rstrip_cons_keep _ a) by (apply decimal_not_eol; exact Ha).
  rewrite (rstrip_cons_keep _ b) by (apply decimal_not_eol; exact Hb).
  rewrite (rstrip_cons_keep _ c) by (apply decimal_not_eol; exact Hc).
  rewrite (rstrip_cons_keep _ " "%char) by reflexivity.
  unfold PyStr.slice_to. cbn [substring].
  fold (code_chars a b c).
  rewrite int_decimal; [reflexivity | discriminate | exact Hd | reflexivity].
Qed.

(** ** Reading a response *)

(** C1, as amended.  On a stream that holds any number of lines whose 4th
    character is not a space and then a line made of three decimal digits,
    a space and some text, [_read_response] consumes exactly these lines,
    returns the number written by the three digits of the terminating
    line, and returns as message the consumed lines, each without its line
    ending, joined by a line feed between consecutive lines. *)
Theorem C1_read_response_joins_lines
    (st : state) (f : sock) (conts : list string) (a b c : ascii)
    (text : string) (rest : list string)
    (Hfile : _file (self st) = Some f)
    (Hin : ctrl_in st = (conts ++ reply_line a b c text :: rest)%list)
    (Hquiet : no_fault (S (List.length conts)) (faults st) = true)
    (Hconts : Forall (fun l => fourth_is_space l = false) conts)
    (Hcode : all_decimal (code_chars a b c) = true) :
  exists st',
    FTPClient._read_response st
      = Ok (decimal_value (code_chars a b c),
            PyStr.join LF (map strip_eol (conts ++ [reply_line a b c text]))) st' /\
    ctrl_in st' = rest /\ reads_only st st'.
Proof.
  destruct (read_response_ok st f conts (reply_line a b c text) rest
              Hfile Hin Hquiet Hconts (reply_line_terminates a b c text))
    as (st' & Hrun & Hrest & _ & Hro).
  exists st'. split; [|split; assumption].
  rewrite Hrun. apply response_of_reply_line. exact Hcode.
Qed.

Lemma C1_read_response_joins_lines_witness :
  exists st',
    FTPClient._read_response st_two_lines
      = Ok (220%Z, "220-Hi" ++ LF ++ "220 ok") st' /\
    ctrl_in st' = [] /\ reads_only st_two_lines st'.
Proof.
  apply (C1_read_response_joins_lines st_two_lines 0 ["220-Hi" ++ LF]
           "2" "2" "0" ("ok" ++ LF) []).
  - reflexivity.
  - reflexivity.
  - reflexivity.
  - repeat constructor.
  - reflexivity.
Defined.

(** C1 as stated fails: on a two-line response the message is neither the
    consumed lines put end to end, nor the stripped lines put end to
    end. *)
Lemma C1_message_is_not_the_concatenation :
  FTPClient._read_response st_two_lines
    = Ok (220%Z, "220-Hi" ++ LF ++ "220 ok") st_drained /\
  "220-Hi" ++ LF ++ "220 ok" <> String.concat "" ["220-Hi" ++ LF; "220 ok" ++ LF] /\
  "220-Hi" ++ LF ++ "220 ok" <> String.concat "" ["220-Hi"; "220 ok"].
Proof. split; [reflexivity | split; discriminate]. Qed.

(** C3, as amended.  A line that has fewer than 4 characters once its line
    ending is removed is a continuation line: [_read_response] does not
    fail on it, keeps it in the message and reads on; the code is the
    number written by the first three characters of the terminating line,
    never a value made from the short line. *)
Theorem C3_short_line_is_a_continuation
    (st : state) (f : sock) (before after : list string) (short : string)
    (a b c : ascii) (text : string) (rest : list string)
    (Hfile : _file (self st) = Some f)
    (Hin : ctrl_in st
           = (before ++ short :: after ++ reply_line a b c text :: rest)%list)
    (Hquiet : no_fault (S (List.length (before ++ short :: after))) (faults st) = true)
    (Hshort : (String.length (strip_eol short) < 4)%nat)
    (Hbefore : Forall (fun l => fourth_is_space l = false) before)
    (Hafter : Forall (fun l => fourth_is_space l = false) after)
    (Hcode : all_decimal (code_chars a b c) = true) :
  exists st',
    FTPClient._read_response st
      = Ok (decimal_value (code_chars a b c),
            PyStr.join LF (map strip_eol before ++ strip_eol short
                           :: map strip_eol after
                           ++ [strip_eol (reply_line a b c text)])%list) st' /\
    ctrl_in st' = rest.
Proof.
  destruct (read_response_ok st f (before ++ short :: after)
              (reply_line a b c text) rest) as (st' & Hrun & Hrest & _ & _).
  - exact Hfile.
  - rewrite Hin, <- app_assoc. reflexivity.
  - exact Hquiet.
  - apply Forall_app. split; [exact Hbefore|].
    constructor; [apply short_line_continues; exact Hshort | exact Hafter].
  - apply reply_line_terminates.
  - exists st'. split; [|exact Hrest].
    rewrite Hrun, response_of_reply_line by exact Hcode.
    rewrite !map_app. cbn [map]. rewrite <- app_assoc. reflexivity.
Qed.

Lemma C3_short_line_is_a_continuation_witness :
  exists st',
    FTPClient._read_response st_short_line
      = Ok (220%Z, "ab" ++ LF ++ "220 ok") st' /\
    ctrl_in st' = [].
Proof.
  apply (C3_short_line_is_a_continuation st_short_line 0 [] [] ("ab" ++ LF)
           "2" "2" "0" ("ok" ++ LF) []).
  - reflexivity.
  - reflexivity.
  - reflexivity.
  - apply Nat.ltb_lt. reflexivity.
  - constructor.
  - constructor.
  - reflexivity.
Defined.

(** C3 as stated fails: a two-character line does not make
    [_read_response] fail; the call returns code 220. *)
Lemma C3_short_line_does_not_fail :
  FTPClient._read_response st_short_line
    = Ok (220%Z, "ab" ++ LF ++ "220 ok") st_drained.
Proof. reflexivity. Qed.

(** ** What a read can do *)

Lemma readline_cases (f : sock) (st : state) :
  (exists e fs, faults st = Some e :: fs /\
                Sys.readline f st = Raise e (set_faults fs st)) \/
  (no_fault 1 (faults st) = true /\
   ((exists l ls, ctrl_in st = l :: ls /\
                  Sys.readline f st = Ok l (set_ctrl_in ls (pop_fault st))) \/
    (ctrl_in st = [] /\ Sys.readline f st = Ok EmptyString (pop_fault st)))).
Proof.
  unfold Sys.readline.
  destruct (faults st) as [|[e|] fs] eqn:Ef.
  - right. split; [reflexivity|].
    rewrite fallible_quiet by (rewrite Ef; reflexivity).
    rewrite pop_fault_ctrl_in.
    destruct (ctrl_in st) as [|l ls]; [right | left; exists l, ls]; auto.
  - left. exists e, fs. split; [reflexivity|].
    apply fallible_fault. exact Ef.
  - right. split; [reflexivity|].
    rewrite fallible_quiet by (rewrite Ef; reflexivity).
    rewrite pop_fault_ctrl_in.
    destruct (ctrl_in st) as [|l ls]; [right | left; exists l, ls]; auto.
Qed.

Lemma set_faults_reads_only fs st : reads_only st (set_faults fs st).
Proof. unfold reads_only. cbn. auto. Qed.

Lemma set_ctrl_in_reads_only ls st : reads_only st (set_ctrl_in ls st).
Proof. unfold reads_only. cbn. auto. Qed.

(** Whatever its outcome, the reading loop touches neither the client
    object nor the trace. *)
Lemma read_lines_reads_only (n : nat) :
  forall acc st, reads_only st (outcome_state (FTPClient.read_lines n acc st)).
Proof.
  induction n as [|n IH]; intros acc st; [apply reads_only_refl|].
  cbn [FTPClient.read_lines].
  destruct (_file (self st)) as [f|] eqn:Ef.
  2:{ rewrite (bind_Raise _ _ _ _ _ (the_file_None _ Ef)). apply reads_only_refl. }
  rewrite (bind_Ok _ _ _ _ _ (the_file_Some _ _ Ef)).
  destruct (readline_cases f st) as [(e & fs & _ & Hr)|(_ & [(l & ls & _ & Hr)|(_ & Hr)])];
    [rewrite (bind_Raise _ _ _ _ _ Hr) | rewrite (bind_Ok _ _ _ _ _ Hr) ..].
  - apply set_faults_reads_only.
  - assert (H0 : reads_only st (set_ctrl_in ls (pop_fault st))).
    { eapply reads_only_trans; [apply pop_fault_reads_only | apply set_ctrl_in_reads_only]. }
    destruct (FTPClient.ends_response _); [exact H0|].
    eapply reads_only_trans; [exact H0 | apply IH].
  - destruct (FTPClient.ends_response _); [apply pop_fault_reads_only|].
    eapply reads_only_trans; [apply pop_fault_reads_only | apply IH].
Qed.

Lemma read_response_reads_only (st : state) :
  reads_only st (outcome_state (FTPClient._read_response st)).
Proof.
  unfold FTPClient._read_response, bind.
  pose proof (read_lines_reads_only (FTPClient.read_fuel st) [] st) as H.
  destruct (FTPClient.read_lines _ _ _) as [lines st1|e st1|st1]; cbn in *; try exact H.
  destruct (PyStr.int _); exact H.
Qed.

(** ** The fuel of the reading loop *)

(** At the end of the stream, with no failure left to come, no amount of
    fuel lets the loop return: the source's loop runs for ever there. *)
Lemma read_lines_at_eof (n : nat) :
  forall acc st f,
    _file (self st) = Some f -> ctrl_in st = [] -> faults st = [] ->
    FTPClient.read_lines n acc st = Diverge st.
Proof.
  induction n as [|n IH]; intros acc st f Hf Hc Hq; [reflexivity|].
  cbn [FTPClient.read_lines].
  rewrite (bind_Ok _ _ _ _ _ (the_file_Some _ _ Hf)).
  assert (Hr : Sys.readline f st = Ok EmptyString st).
  { unfold Sys.readline, fallible. rewrite Hq, Hc. reflexivity. }
  rewrite (bind_Ok _ _ _ _ _ Hr). cbn [strip_eol PyStr.rstrip FTPClient.ends_response].
  cbn. apply (IH _ _ f); assumption.
Qed.

(** Any fuel above the number of pending lines and failures gives the same
    outcome: [read_fuel] loses nothing. *)
Lemma read_lines_fuel (n : nat) :
  forall m acc st,
    (List.length (ctrl_in st) + List.length (faults st) < n)%nat ->
    (List.length (ctrl_in st) + List.length (faults st) < m)%nat ->
    FTPClient.read_lines n acc st = FTPClient.read_lines m acc st.
Proof.
  induction n as [|n IH]; intros m acc st Hn Hm; [lia|].
  destruct m as [|m]; [lia|].
  cbn [FTPClient.read_lines].
  destruct (_file (self st)) as [f|] eqn:Ef.
  2:{ rewrite !(bind_Raise _ _ _ _ _ (the_file_None _ Ef)). reflexivity. }
  rewrite !(bind_Ok _ _ _ _ _ (the_file_Some _ _ Ef)).
  destruct (readline_cases f st) as [(e & fs & _ & Hr)|(Hq & [(l & ls & Hc & Hr)|(Hc & Hr)])].
  - rewrite !(bind_Raise _ _ _ _ _ Hr). reflexivity.
  - rewrite !(bind_Ok _ _ _ _ _ Hr).
    destruct (FTPClient.ends_response _); [reflexivity|].
    apply IH; cbn; rewrite pop_fault_faults, Hc in *; cbn in *;
      destruct (faults st); cbn in *; lia.
  - rewrite !(bind_Ok _ _ _ _ _ Hr).
    destruct (FTPClient.ends_response _); [reflexivity|].
    destruct (faults st) as [|x fs] eqn:Eq.
    + assert (Hp : pop_fault st = st) by (unfold pop_fault; rewrite Eq; reflexivity).
      rewrite Hp, !(read_lines_at_eof _ _ _ f) by assumption. reflexivity.
    + apply IH; rewrite pop_fault_faults, pop_fault_ctrl_in, Hc, Eq in *; cbn in *; lia.
Qed.

(** ** Commands *)

Lemma the_socket_Some st s :
  _socket (self st) = Some s -> FTPClient.the_socket st = Ok s st.
Proof. intros H. unfold FTPClient.the_socket, bind, get. rewrite H. reflexivity. Qed.

Lemma the_socket_None st :
  _socket (self st) = None ->
  FTPClient.the_socket st = Raise (AttributeError "'NoneType' object has no attribute") st.
Proof. intros H. unfold FTPClient.the_socket, bind, get. rewrite H. reflexivity. Qed.

(** [_command] unfolded: the send, the read, the check of the code. *)
Lemma command_unfold (cmd : string) (expect : option Z) (st : state) :
  FTPClient._command cmd expect st =
  match _socket (self st) with
  | None => Raise (AttributeError "'NoneType' object has no attribute") st
  | Some s =>
      match faults st with
      | Some e :: fs => Raise e (set_faults fs st)
      | _ =>
          match FTPClient._read_response (log (EvSendall s (cmd ++ CRLF)) (pop_fault st)) with
          | Ok (code, message) st' =>
              if FTPClient.mismatch expect code then
                Raise (FTPError ("Expected " ++ FTPClient.expect_str expect ++ ", got "
                                 ++ PyStr.str_of_int code ++ ": " ++ message)) st'
              else Ok (code, message) st'
          | Raise e st' => Raise e st'
          | Diverge st' => Diverge st'
          end
      end
  end.
Proof.
  unfold FTPClient._command.
  destruct (_socket (self st)) as [s|] eqn:Es.
  2:{ rewrite (bind_Raise _ _ _ _ _ (the_socket_None _ Es)). reflexivity. }
  rewrite (bind_Ok _ _ _ _ _ (the_socket_Some _ _ Es)).
  unfold Sys.sendall.
  destruct (faults st) as [|[e|] fs] eqn:Ef.
  - assert (Hs : fallible (emit (EvSendall s (cmd ++ CRLF))) st
                 = Ok tt (log (EvSendall s (cmd ++ CRLF)) (pop_fault st))).
    { rewrite fallible_quiet by (rewrite Ef; reflexivity). reflexivity. }
    rewrite (bind_Ok _ _ _ _ _ Hs). unfold bind.
    destruct (FTPClient._read_response _) as [[code message] st'|e st'|st'];
      try reflexivity.
    destruct (FTPClient.mismatch expect code); reflexivity.
  - rewrite (bind_Raise _ _ _ _ _ (fallible_fault _ _ _ _ Ef)). reflexivity.
  - assert (Hs : fallible (emit (EvSendall s (cmd ++ CRLF))) st
                 = Ok tt (log (EvSendall s (cmd ++ CRLF)) (pop_fault st))).
    { rewrite fallible_quiet by (rewrite Ef; reflexivity). reflexivity. }
    rewrite (bind_Ok _ _ _ _ _ Hs). unfold bind.
    destruct (FTPClient._read_response _) as [[code message] st'|e st'|st'];
      try reflexivity.
    destruct (FTPClient.mismatch expect code); reflexivity.
Qed.

Lemma pop_fault_emits st : emits [] (pop_fault st) st.
Proof.
  unfold emits, pop_fault. destruct (faults st); cbn; rewrite ?app_nil_r; auto.
Qed.

(** Whatever its outcome, [_command] leaves the client object alone and
    adds to the trace nothing but, at most, the one line it sends. *)
Lemma command_frame (cmd : string) (expect : option Z) (st : state) :
  emits [] st (outcome_state (FTPClient._command cmd expect st)) \/
  exists s, _socket (self st) = Some s /\
            emits [EvSendall s (cmd ++ CRLF)] st
                  (outcome_state (FTPClient._command cmd expect st)).
Proof.
  rewrite command_unfold.
  destruct (_socket (self st)) as [s|] eqn:Es.
  2:{ left. unfold emits. cbn. rewrite app_nil_r. auto. }
  assert (Hsend : forall o : outcome (Z * string),
             reads_only (log (EvSendall s (cmd ++ CRLF)) (pop_fault st)) (outcome_state o) ->
             emits [EvSendall s (cmd ++ CRLF)] st (outcome_state o)).
  { intros o (Hs & Ht & _). destruct (pop_fault_reads_only st) as (Hs' & Ht' & _).
    unfold emits. rewrite Hs, Ht. cbn. rewrite Hs', Ht'. auto. }
  pose proof (read_response_reads_only (log (EvSendall s (cmd ++ CRLF)) (pop_fault st))) as Hr.
  destruct (faults st) as [|[e|] fs] eqn:Ef.
  - right. exists s. split; [reflexivity|].
    destruct (FTPClient._read_response _) as [[code message] st'|e st'|st'];
      try (apply (Hsend (Raise e st')); exact Hr);
      try (apply (Hsend (Diverge st')); exact Hr).
    destruct (FTPClient.mismatch expect code);
      apply (Hsend (Diverge st')); exact Hr.
  - left. unfold emits. cbn. rewrite app_nil_r. auto.
  - right. exists s. split; [reflexivity|].
    destruct (FTPClient._read_response _) as [[code message] st'|e st'|st'];
      try (apply (Hsend (Raise e st')); exact Hr);
      try (apply (Hsend (Diverge st')); exact Hr).
    destruct (FTPClient.mismatch expect code);
      apply (Hsend (Diverge st')); exact Hr.
Qed.

(** When [_command] returns, it has sent its line, and the code passed the
    check. *)
Lemma command_Ok (cmd : string) (expect : option Z) st code msg st' :
  FTPClient._command cmd expect st = Ok (code, msg) st' ->
  exists s, _socket (self st) = Some s /\
            emits [EvSendall s (cmd ++ CRLF)] st st' /\
            FTPClient.mismatch expect code = false /\
            FTPClient._command cmd None st = Ok (code, msg) st'.
Proof.
  intros H.
  destruct (command_frame cmd expect st) as [He|(s & Hs & He)]; rewrite H in He; cbn in He.
  - exfalso. rewrite command_unfold in H.
    destruct (_socket (self st)) as [s|]; [|discriminate].
    destruct (faults st) as [|[e|] fs] eqn:Ef; try discriminate;
      pose proof (read_response_reads_only (log (EvSendall s (cmd ++ CRLF)) (pop_fault st))) as Hr;
      destruct (FTPClient._read_response _) as [[c m] st1|e st1|st1]; try discriminate;
      destruct (FTPClient.mismatch expect c); try discriminate;
      injection H as -> -> ->;
      destruct Hr as (_ & Ht & _); destruct He as (_ & Ht');
      destruct (pop_fault_reads_only st) as (_ & Hp & _);
      cbn in Ht; rewrite Ht, Hp, app_nil_r in Ht';
      apply (f_equal (@List.length event)) in Ht'; rewrite length_app in Ht'; cbn in Ht'; lia.
  - exists s. split; [exact Hs|]. split; [exact He|].
    rewrite command_unfold in H. rewrite command_unfold. rewrite Hs in *.
    destruct (faults st) as [|[e|] fs]; try discriminate;
      destruct (FTPClient._read_response _) as [[c m] st1|e st1|st1]; try discriminate;
      destruct (FTPClient.mismatch expect c) eqn:Em; try discriminate;
      injection H as -> -> ->; auto.
Qed.

(** The check of the code comes after everything else in [_command]. *)
Lemma command_expect (cmd : string) (expect : option Z) (st : state) :
  FTPClient._command cmd expect st =
  match FTPClient._command cmd None st with
  | Ok (code, message) st' =>
      if FTPClient.mismatch expect code then
        Raise (FTPError ("Expected " ++ FTPClient.expect_str expect ++ ", got "
                         ++ PyStr.str_of_int code ++ ": " ++ message)) st'
      else Ok (code, message) st'
  | Raise e st' => Raise e st'
  | Diverge st' => Diverge st'
  end.
Proof.
  rewrite !command_unfold.
  destruct (_socket (self st)) as [s|]; [|reflexivity].
  destruct (faults st) as [|[e|] fs]; try reflexivity;
    destruct (FTPClient._read_response _) as [[c m] st1|e st1|st1]; reflexivity.
Qed.

(** ** rename *)


(** ** close *)

Lemma close_unfold (st : state) :
  FTPClient.close st =
  match FTPClient._command "QUIT" None st with
  | Ok _ st1 => Ok tt (after_close st1)
  | Raise _ st1 => Ok tt (after_close st1)
  | Diverge st1 => Diverge st1
  end.
Proof.
  unfold FTPClient.close, try_except, bind, get, after_close.
  destruct (FTPClient._command "QUIT" None st) as [[c m] st1|e st1|st1];
    cbv beta iota delta [ret]; try reflexivity;
    destruct (_socket (self st1)); reflexivity.
Qed.

Lemma command_self (cmd : string) (expect : option Z) (st : state) :
  self (outcome_state (FTPClient._command cmd expect st)) = self st.
Proof.
  destruct (command_frame cmd expect st) as [(H & _)|(s & _ & H & _)]; exact H.
Qed.

(** C7.  On a client that holds the socket [s] and the file object that
    [connect] made from it, [close] never ends with an exception: whether
    the QUIT command returns or raises, [close] returns and the last thing
    it has done is to call [s.close()].  The control connection is not
    closed by that: the file object in [_file] is still open on it, and
    [close] ends with the connection open whenever it returns.  When the
    QUIT exchange does not end, as when the stream ends before a reply,
    [close] does not end either and calls [close] on no socket. *)
Theorem C7_close_leaves_the_connection_open
    (st : state) (s : sock)
    (Hs : _socket (self st) = Some s) (Hf : _file (self st) = Some s) :
  (forall e st', FTPClient.close st <> Raise e st') /\
  (forall e st1,
      FTPClient._command "QUIT" None st = Raise e st1 ->
      FTPClient.close st = Ok tt (after_close st1) /\
      trace (after_close st1) = (trace st1 ++ [EvSockClose s])%list) /\
  (forall r st1,
      FTPClient._command "QUIT" None st = Ok r st1 ->
      FTPClient.close st = Ok tt (after_close st1) /\
      trace (after_close st1) = (trace st1 ++ [EvSockClose s])%list) /\
  (forall st',
      FTPClient.close st = Ok tt st' ->
      socket_closed st' s /\ open_files st' s = 1%nat /\
      ~ connection_closed st' s) /\
  (forall st1,
      FTPClient._command "QUIT" None st = Diverge st1 ->
      FTPClient.close st = Diverge st1 /\
      forall s', socket_closed st1 s' -> socket_closed st s').
Proof.
  assert (Hafter : forall o : outcome (Z * string),
             FTPClient._command "QUIT" None st = o ->
             self (outcome_state o) = self st).
  { intros o <-. apply command_self. }
  assert (Hlast : forall st1, self st1 = self st ->
             self (after_close st1) = self st /\
             trace (after_close st1) = (trace st1 ++ [EvSockClose s])%list).
  { intros st1 H1. unfold after_close. rewrite H1, Hs. cbn. auto. }
  split; [|split; [|split; [|split]]].
  - intros e st'. rewrite close_unfold.
    destruct (FTPClient._command "QUIT" None st); discriminate.
  - intros e st1 H. split; [rewrite close_unfold, H; reflexivity|].
    apply Hlast. exact (Hafter _ H).
  - intros r st1 H. split; [rewrite close_unfold, H; reflexivity|].
    apply Hlast. exact (Hafter _ H).
  - intros st' H. rewrite close_unfold in H.
    assert (Hst' : exists st1, self st1 = self st /\ st' = after_close st1).
    { pose proof (command_self "QUIT" None st) as Hc.
      destruct (FTPClient._command "QUIT" None st) as [r st1|e st1|st1];
        [| |discriminate]; injection H as <-; exists st1;
        (split; [exact Hc | reflexivity]). }
    destruct Hst' as (st1 & H1 & ->).
    destruct (Hlast st1 H1) as (Hself & Htrace).
    assert (Hopen : open_files (after_close st1) s = 1%nat).
    { unfold open_files. rewrite Hself, Hf, Nat.eqb_refl. reflexivity. }
    split; [|split; [exact Hopen|]].
    + unfold socket_closed. rewrite Htrace. apply in_or_app. right. left. reflexivity.
    + intros (_ & H0). rewrite Hopen in H0. discriminate.
  - intros st1 H. split; [rewrite close_unfold, H; reflexivity|].
    intros s'. unfold socket_closed.
    pose proof (command_frame "QUIT" None st) as F. rewrite H in F.
    cbn [outcome_state] in F.
    destruct F as [(_ & Ht)|(s0 & _ & _ & Ht)]; rewrite Ht; intros Hin;
      apply in_app_or in Hin as [Hin|Hin]; try exact Hin.
    + destruct Hin.
    + destruct Hin as [Hin|[]]. discriminate.
Qed.

Lemma C7_close_leaves_the_connection_open_witness :
  exists st st',
    FTPClient.connect st_goodbye = Ok tt st /\
    FTPClient.close st = Ok tt st' /\
    socket_closed st' 0 /\ open_files st' 0 = 1%nat /\
    ~ connection_closed st' 0.
Proof.
  exists (outcome_state (FTPClient.connect st_goodbye)).
  exists (outcome_state
            (FTPClient.close (outcome_state (FTPClient.connect st_goodbye)))).
  split; [vm_compute; reflexivity|].
  split; [vm_compute; reflexivity|].
  apply (proj1 (proj2 (proj2 (proj2
           (C7_close_leaves_the_connection_open
              (outcome_state (FTPClient.connect st_goodbye)) 0%nat
              eq_refl eq_refl))))).
  vm_compute. reflexivity.
Defined.

(** A session whose QUIT cannot be sent: [close] returns after calling
    [close] on the socket. *)
Lemma close_when_QUIT_fails :
  FTPClient.close st_quit_fails
    = Ok tt (after_close (connected example_config 0 [] [] [])) /\
  trace (after_close (connected example_config 0 [] [] [])) = [EvSockClose 0].
Proof. split; reflexivity. Qed.

(** A session whose stream has ended: QUIT is sent, the reply never comes
    to an end, and [close] gets no further. *)
Lemma close_when_stream_ended :
  exists st1,
    FTPClient.close st_drained = Diverge st1 /\
    trace st1 = [EvSendall 0 ("QUIT" ++ CRLF)].
Proof. eexists. split; reflexivity. Qed.

(** ** size *)

Lemma take_word_whole (s : string) :
  PyStr.forallb_str (fun c => negb (PyStr.isspace c)) s = true ->
  PyStr.take_word s = (s, EmptyString).
Proof.
  induction s as [|c r IH]; intros H; [reflexivity|].
  cbn in H. apply andb_prop in H as [Hc Hr].
  cbn [PyStr.take_word].
  destruct (PyStr.isspace c); [discriminate|].
  rewrite (IH Hr). reflexivity.
Qed.

(** A string without white space is its own single field. *)
Lemma split_ws_one_word (k : nat) (w : string) :
  w <> EmptyString ->
  PyStr.forallb_str (fun c => negb (PyStr.isspace c)) w = true ->
  PyStr.split_ws (S k) w = [w].
Proof.
  intros Hne Hns. destruct w as [|c r]; [congruence|].
  assert (Hc : PyStr.isspace c = false).
  { cbn in Hns. apply andb_prop in Hns as [Hc _].
    destruct (PyStr.isspace c); [discriminate | reflexivity]. }
  assert (Hl : PyStr.lstrip PyStr.isspace (String c r) = String c r).
  { cbn [PyStr.lstrip]. rewrite Hc. reflexivity. }
  change (PyStr.split_ws (S k) (String c r))
    with (let s' := PyStr.lstrip PyStr.isspace (String c r) in
          if PyStr.is_empty s' then []
          else let '(w, rest) := PyStr.take_word s' in w :: PyStr.split_ws k rest).
  cbv zeta. rewrite Hl. cbn [PyStr.is_empty].
  rewrite (take_word_whole _ Hns). destruct k; reflexivity.
Qed.

(** The fields of the usual reply to SIZE. *)
Lemma split_size_reply (digits : string) :
  digits <> EmptyString -> all_decimal digits = true ->
  PyStr.split ("213 " ++ digits) = ["213"; digits].
Proof.
  intros Hne Hd.
  assert (Hns : PyStr.forallb_str (fun c => negb (PyStr.isspace c)) digits = true).
  { apply (forallb_str_impl PyStr.isdecimal); [|exact Hd].
    intros c Hc. rewrite (decimal_not_space _ Hc). reflexivity. }
  unfold PyStr.split.
  change (String.length ("213 " ++ digits))
    with (S (S (S (S (String.length digits))))).
  change (PyStr.split_ws (S (S (S (S (String.length digits)))))
                         ("213 " ++ digits))
    with ("213" :: PyStr.split_ws (S (S (S (String.length digits)))) digits).
  rewrite split_ws_one_word by assumption. reflexivity.
Qed.

(** C8.  Once the server has replied to SIZE: with a code other than 213
    [size] returns 0 and does not raise; with 213 it hands the last
    white-space-separated field of the message to [int], returns the
    integer when [int] accepts the field and raises [ValueError] when it
    does not.  For the usual reply, 213, a space and decimal digits, that
    is the number the digits write when there are at most
    [int_max_str_digits] of them, and [ValueError] when there are more. *)
Theorem C8_size_is_zero_unless_213
    (path : string) (st st1 : state) (code : Z) (msg : string)
    (Hreply : FTPClient._command ("SIZE " ++ path) None st = Ok (code, msg) st1) :
  (code <> 213%Z -> FTPClient.size path st = Ok 0%Z st1) /\
  (code = 213%Z ->
   (forall tok n,
       FTPClient.last_item (PyStr.split msg) = Returns tok ->
       PyStr.int tok = Some n ->
       FTPClient.size path st = Ok n st1) /\
   (forall tok,
       FTPClient.last_item (PyStr.split msg) = Returns tok ->
       PyStr.int tok = None ->
       FTPClient.size path st = Raise value_error st1) /\
   (forall digits,
       digits <> EmptyString -> all_decimal digits = true ->
       msg = "213 " ++ digits ->
       FTPClient.size path st =
       if short_number digits then Ok (decimal_value digits) st1
       else Raise value_error st1)).
Proof.
  assert (Hsize : FTPClient.size path st =
                  if (code =? 213)%Z then
                    (tok <- lift (FTPClient.last_item (PyStr.split msg)) ;;
                     lift (FTPClient.int_of tok)) st1
                  else Ok 0%Z st1).
  { unfold FTPClient.size. rewrite (bind_Ok _ _ _ _ _ Hreply).
    destruct (code =? 213)%Z; reflexivity. }
  assert (Htok : forall tok,
             code = 213%Z ->
             FTPClient.last_item (PyStr.split msg) = Returns tok ->
             FTPClient.size path st =
             match PyStr.int tok with
             | Some n => Ok n st1
             | None => Raise value_error st1
             end).
  { intros tok -> Ht. rewrite Hsize. cbn [Z.eqb Pos.eqb].
    unfold bind. rewrite Ht. cbn [lift ret]. unfold FTPClient.int_of.
    destruct (PyStr.int tok); reflexivity. }
  split.
  - intros Hne. rewrite Hsize.
    destruct (code =? 213)%Z eqn:E; [apply Z.eqb_eq in E; contradiction | reflexivity].
  - intros Hc. split; [|split].
    + intros tok n Ht Hn. rewrite (Htok tok Hc Ht), Hn. reflexivity.
    + intros tok Ht Hn. rewrite (Htok tok Hc Ht), Hn. reflexivity.
    + intros digits Hne Hd ->. rewrite (Htok digits Hc).
      * rewrite (int_decimal_cases _ Hne Hd).
        destruct (short_number digits); reflexivity.
      * rewrite split_size_reply by assumption. reflexivity.
Qed.

Lemma C8_size_is_zero_unless_213_witness :
  FTPClient.size "a.txt" (st_replies ["550 No such file" ++ LF])
    = Ok 0%Z (log (EvSendall 0 ("SIZE a.txt" ++ CRLF))
                   (connected example_config 0 [] [] [])).
Proof.
  apply (C8_size_is_zero_unless_213 "a.txt" (st_replies ["550 No such file" ++ LF])
           _ 550%Z ("550 No such file")).
  - reflexivity.
  - discriminate.
Defined.

(** A 213 reply with text after the number: [size] returns no integer, it
    raises [ValueError], for the last field is not a number. *)
Lemma C8_size_raises_on_trailing_text :
  FTPClient._command "SIZE a.txt" None (st_replies ["213 1024 bytes" ++ LF])
  = Ok (213%Z, "213 1024 bytes")
       (log (EvSendall 0 ("SIZE a.txt" ++ CRLF))
            (connected example_config 0 [] [] [])) /\
  FTPClient.size "a.txt" (st_replies ["213 1024 bytes" ++ LF])
  = Raise value_error
          (log (EvSendall 0 ("SIZE a.txt" ++ CRLF))
               (connected example_config 0 [] [] [])).
Proof. split; reflexivity. Qed.

(** A 213 reply without a number: the last field is the code itself. *)
Lemma size_of_bare_213 :
  FTPClient.size "a.txt" (st_replies ["213 " ++ LF])
  = Ok 213%Z (log (EvSendall 0 ("SIZE a.txt" ++ CRLF))
                  (connected example_config 0 [] [] [])).
Proof. reflexivity. Qed.

(** The usual reply to SIZE, read back as a number. *)
Lemma size_example_213 :
  FTPClient.size "a.txt" (st_replies ["213 1024" ++ LF])
  = Ok 1024%Z (log (EvSendall 0 ("SIZE a.txt" ++ CRLF))
                   (connected example_config 0 [] [] [])).
Proof. reflexivity. Qed.

(** ** The pattern of the PASV reply *)

Lemma re_char_Some (c : ascii) (s s' : string) :
  PyStr.re_char c s = Some s' <-> s = String c s'.
Proof.
  unfold PyStr.re_char. destruct s as [|c' r].
  - split; discriminate.
  - destruct (Ascii.eqb c c') eqn:E.
    + apply Ascii.eqb_eq in E. subst c'. split; intros H; congruence.
    + apply Ascii.eqb_neq in E. split; intros H; [discriminate | congruence].
Qed.

Lemma take_decimals_spec (s : string) :
  forall d rest, PyStr.take_decimals s = (d, rest) ->
                 s = d ++ rest /\ all_decimal d = true /\ starts_decimal rest = false.
Proof.
  induction s as [|c r IH]; intros d rest H.
  - cbn in H. injection H as <- <-. auto.
  - cbn [PyStr.take_decimals] in H. destruct (PyStr.isdecimal c) eqn:Ec.
    + destruct (PyStr.take_decimals r) as [d0 rest0].
      injection H as <- <-.
      destruct (IH d0 rest0 eq_refl) as (-> & Hd & Hr).
      repeat split; [cbn; rewrite Ec; exact Hd | exact Hr].
    + injection H as <- <-. cbn. rewrite Ec. auto.
Qed.

Lemma take_decimals_app (g rest : string) :
  all_decimal g = true -> starts_decimal rest = false ->
  PyStr.take_decimals (g ++ rest) = (g, rest).
Proof.
  intros Hg Hr. induction g as [|c g IH].
  - cbn. destruct rest as [|c r]; [reflexivity|]. cbn in Hr. cbn. rewrite Hr. reflexivity.
  - cbn in Hg. apply andb_prop in Hg as [Hc Hg].
    cbn [append PyStr.take_decimals]. rewrite Hc, (IH Hg). reflexivity.
Qed.

Lemma re_decimals_Some (s d rest : string) :
  PyStr.re_decimals s = Some (d, rest) <->
  s = d ++ rest /\ is_number d /\ starts_decimal rest = false.
Proof.
  unfold PyStr.re_decimals, is_number. split.
  - destruct (PyStr.take_decimals s) as [d0 rest0] eqn:E.
    apply take_decimals_spec in E as (-> & Hd & Hr).
    destruct d0; cbn; [discriminate|]. intros H. injection H as <- <-.
    repeat split; auto. discriminate.
  - intros (-> & (Hne & Hd) & Hr).
    rewrite take_decimals_app by assumption.
    destruct d; [congruence | reflexivity].
Qed.

Lemma re_decimals_sep (g : string) (c : ascii) (rest : string) :
  is_number g -> PyStr.isdecimal c = false ->
  PyStr.re_decimals (g ++ String c rest) = Some (g, String c rest).
Proof.
  intros Hg Hc. apply re_decimals_Some. repeat split; try apply Hg. exact Hc.
Qed.

Lemma app_String_assoc (a : string) (c : ascii) (b : string) :
  (a ++ String c b) = (a ++ String c EmptyString) ++ b.
Proof. induction a as [|x a IH]; cbn; [reflexivity | rewrite IH; reflexivity]. Qed.

Lemma string_app_assoc (a b c : string) : (a ++ b) ++ c = a ++ (b ++ c).
Proof. induction a as [|x a IH]; cbn; [reflexivity | rewrite IH; reflexivity]. Qed.

Lemma group_text_app (g1 g2 g3 g4 g5 g6 post : string) :
  group_text g1 g2 g3 g4 g5 g6 ++ post
  = String "(" (g1 ++ String "," (g2 ++ String "," (g3 ++ String ","
      (g4 ++ String "," (g5 ++ String "," (g6 ++ String ")" post)))))).
Proof.
  unfold group_text. cbn [append]. rewrite !string_app_assoc. cbn [append].
  rewrite !string_app_assoc. cbn [append].
  rewrite !string_app_assoc. cbn [append].
  rewrite !string_app_assoc. cbn [append].
  rewrite !string_app_assoc. cbn [append].
  rewrite !string_app_assoc. cbn [append]. reflexivity.
Qed.

(** The pattern matches at the head of [s] exactly when [s] starts with a
    group, and the groups of the match are its numbers. *)
Lemma pasv_match_here_Some (s : string) (gs : list string) :
  PyStr.pasv_match_here s = Some gs <-> has_group_at s EmptyString gs.
Proof.
  unfold has_group_at. split.
  - unfold PyStr.pasv_match_here. intros H.
    repeat match type of H with
           | match PyStr.re_char ?c ?x with _ => _ end = _ =>
               let E := fresh "E" in
               destruct (PyStr.re_char c x) eqn:E; [|discriminate];
               apply re_char_Some in E
           | match PyStr.re_decimals ?x with _ => _ end = _ =>
               let E := fresh "E" in
               destruct (PyStr.re_decimals x) as [[? ?]|] eqn:E; [|discriminate];
               apply re_decimals_Some in E; destruct E as (? & ? & _)
           end.
    injection H as <-. subst.
    do 7 eexists. split; [reflexivity|].
    repeat (split; [eassumption|]).
    cbn [append]. rewrite group_text_app. reflexivity.
  - intros (g1 & g2 & g3 & g4 & g5 & g6 & post & -> & H1 & H2 & H3 & H4 & H5 & H6 & ->).
    cbn [append]. rewrite group_text_app.
    unfold PyStr.pasv_match_here. cbn [PyStr.re_char Ascii.eqb Bool.eqb].
    rewrite (re_decimals_sep g1 ","%char) by (assumption || reflexivity).
    cbn [PyStr.re_char Ascii.eqb Bool.eqb].
    rewrite (re_decimals_sep g2 ","%char) by (assumption || reflexivity).
    cbn [PyStr.re_char Ascii.eqb Bool.eqb].
    rewrite (re_decimals_sep g3 ","%char) by (assumption || reflexivity).
    cbn [PyStr.re_char Ascii.eqb Bool.eqb].
    rewrite (re_decimals_sep g4 ","%char) by (assumption || reflexivity).
    cbn [PyStr.re_char Ascii.eqb Bool.eqb].
    rewrite (re_decimals_sep g5 ","%char) by (assumption || reflexivity).
    cbn [PyStr.re_char Ascii.eqb Bool.eqb].
    rewrite (re_decimals_sep g6 ")"%char) by (assumption || reflexivity).
    reflexivity.
Qed.

Lemma has_group_at_cons (c : ascii) (r pre : string) (gs : list string) :
  has_group_at (String c r) (String c pre) gs <-> has_group_at r pre gs.
Proof.
  unfold has_group_at. split;
    intros (g1 & g2 & g3 & g4 & g5 & g6 & post & Hgs & H1 & H2 & H3 & H4 & H5 & H6 & Hm);
    exists g1, g2, g3, g4, g5, g6, post; repeat (split; [assumption|]).
  - cbn [append] in Hm. congruence.
  - cbn [append]. congruence.
Qed.

Lemma has_group_at_head (c c' : ascii) (r pre : string) (gs : list string) :
  has_group_at (String c r) (String c' pre) gs -> c' = c.
Proof.
  intros (g1 & g2 & g3 & g4 & g5 & g6 & post & _ & _ & _ & _ & _ & _ & _ & Hm).
  cbn [append] in Hm. congruence.
Qed.

Lemma no_group_in_empty (pre : string) (gs : list string) :
  ~ has_group_at EmptyString pre gs.
Proof.
  intros (g1 & g2 & g3 & g4 & g5 & g6 & post & _ & _ & _ & _ & _ & _ & _ & Hm).
  rewrite group_text_app in Hm. destruct pre; discriminate.
Qed.

Lemma pasv_search_unfold (c : ascii) (r : string) :
  PyStr.pasv_search (String c r) =
  match PyStr.pasv_match_here (String c r) with
  | Some gs => Some gs
  | None => PyStr.pasv_search r
  end.
Proof. reflexivity. Qed.

(** [pasv_search] finds the group that starts first. *)
Lemma pasv_search_Some (s : string) :
  forall gs, PyStr.pasv_search s = Some gs -> exists pre, first_group s pre gs.
Proof.
  induction s as [|c r IH]; intros gs H; [discriminate|].
  rewrite pasv_search_unfold in H.
  destruct (PyStr.pasv_match_here (String c r)) as [gs0|] eqn:E.
  - injection H as <-. exists EmptyString. split.
    + apply pasv_match_here_Some. exact E.
    + intros pre' gs' _. cbn. lia.
  - destruct (IH gs H) as (pre & Hat & Hmin).
    exists (String c pre). split.
    + apply has_group_at_cons. exact Hat.
    + intros pre' gs' H'. destruct pre' as [|c' p'].
      * apply pasv_match_here_Some in H'. congruence.
      * pose proof (has_group_at_head _ _ _ _ _ H') as ->.
        apply has_group_at_cons in H'. apply Hmin in H'. cbn. lia.
Qed.

Lemma pasv_search_None (s : string) :
  PyStr.pasv_search s = None -> ~ has_group s.
Proof.
  induction s as [|c r IH]; intros H (pre & gs & Hg).
  - exact (no_group_in_empty _ _ Hg).
  - rewrite pasv_search_unfold in H.
    destruct (PyStr.pasv_match_here (String c r)) as [gs0|] eqn:E; [discriminate|].
    destruct pre as [|c' p'].
    + apply pasv_match_here_Some in Hg. congruence.
    + pose proof (has_group_at_head _ _ _ _ _ Hg) as ->.
      apply has_group_at_cons in Hg. apply (IH H). exists p', gs. exact Hg.
Qed.

(** The six numbers of a group convert when each has at most
    [int_max_str_digits] digits; one that is longer makes the conversion
    raise [ValueError]. *)
Lemma ints_numbers (g1 g2 g3 g4 g5 g6 : string) :
  is_number g1 -> is_number g2 -> is_number g3 ->
  is_number g4 -> is_number g5 -> is_number g6 ->
  FTPClient.ints [g1; g2; g3; g4; g5; g6]
  = if forallb short_number [g1; g2; g3; g4; g5; g6]
    then Returns [decimal_value g1; decimal_value g2; decimal_value g3;
                  decimal_value g4; decimal_value g5; decimal_value g6]
    else Raises value_error.
Proof.
  intros [? ?] [? ?] [? ?] [? ?] [? ?] [? ?].
  cbn [FTPClient.ints forallb]. rewrite !int_decimal_cases by assumption.
  destruct (short_number g1); [|reflexivity].
  destruct (short_number g2); [|reflexivity].
  destruct (short_number g3); [|reflexivity].
  destruct (short_number g4); [|reflexivity].
  destruct (short_number g5); [|reflexivity].
  destruct (short_number g6); reflexivity.
Qed.

(** ** The passive handshake *)

Lemma pasv_unfold (st st1 : state) (code : Z) (msg : string) :
  FTPClient._command "PASV" None st = Ok (code, msg) st1 ->
  FTPClient._pasv st =
  if negb (code =? 227)%Z then Raise (FTPError ("PASV failed: " ++ msg)) st1
  else
    match PyStr.pasv_search msg with
    | None => Raise (FTPError "Invalid PASV response") st1
    | Some groups =>
        match FTPClient.ints groups with
        | Returns parts =>
            Ok (PyStr.join "." (map PyStr.str_of_int (firstn 4 parts)),
                (nth 4 parts 0 * 256 + nth 5 parts 0)%Z) st1
        | Raises e => Raise e st1
        end
    end.
Proof.
  intros H. unfold FTPClient._pasv. rewrite (bind_Ok _ _ _ _ _ H).
  destruct (negb (code =? 227)%Z); [reflexivity|].
  destruct (PyStr.pasv_search msg) as [groups|]; [|reflexivity].
  unfold bind, lift. destruct (FTPClient.ints groups); reflexivity.
Qed.

Lemma pasv_long_number_search :
  PyStr.pasv_search pasv_long_number
  = Some ["1"; "2"; "3"; "4"; "5"; long_number].
Proof. vm_compute. reflexivity. Qed.

Lemma pasv_long_number_ints :
  FTPClient.ints ["1"; "2"; "3"; "4"; "5"; long_number] = Raises value_error.
Proof. vm_compute. reflexivity. Qed.

(** C4.  Once the server has replied to PASV: a code other than 227 makes
    [_pasv] raise [FTPError], the one error class of the client; so does a
    227 message that holds no group of six numbers between parentheses.
    When the message holds such a group, [_pasv] takes the one that starts
    first: if each of its numbers has at most [int_max_str_digits] digits
    it returns the first four numbers written in decimal and joined by
    dots, and the fifth number times 256 plus the sixth; if one of them is
    longer it returns no address and raises, and what it raises is
    [ValueError], not [FTPError].  The example message of the
    specification gives 192.168.1.5 and 51210; the message
    [pasv_long_number], whose sixth number has one digit more than
    [int_max_str_digits], holds a group and gives [ValueError]. *)
Theorem C4_pasv_outcomes
    (st st1 : state) (code : Z) (msg : string)
    (Hreply : FTPClient._command "PASV" None st = Ok (code, msg) st1) :
  (code <> 227%Z ->
   FTPClient._pasv st = Raise (FTPError ("PASV failed: " ++ msg)) st1) /\
  (code = 227%Z -> ~ has_group msg ->
   FTPClient._pasv st = Raise (FTPError "Invalid PASV response") st1) /\
  (code = 227%Z -> has_group msg ->
   exists pre g1 g2 g3 g4 g5 g6,
     first_group msg pre [g1; g2; g3; g4; g5; g6] /\
     FTPClient._pasv st
     = if forallb short_number [g1; g2; g3; g4; g5; g6]
       then Ok (PyStr.join "." (map PyStr.str_of_int
                                    [decimal_value g1; decimal_value g2;
                                     decimal_value g3; decimal_value g4]),
                (decimal_value g5 * 256 + decimal_value g6)%Z) st1
       else Raise value_error st1) /\
  (code = 227%Z -> msg = pasv_example ->
   FTPClient._pasv st = Ok ("192.168.1.5", 51210%Z) st1) /\
  (code = 227%Z -> msg = pasv_long_number ->
   has_group msg /\ FTPClient._pasv st = Raise value_error st1).
Proof.
  rewrite (pasv_unfold _ _ _ _ Hreply).
  split; [|split; [|split; [|split]]].
  - intros Hne. destruct (code =? 227)%Z eqn:E; [apply Z.eqb_eq in E; contradiction|].
    reflexivity.
  - intros -> Hno. cbn [Z.eqb Pos.eqb negb].
    destruct (PyStr.pasv_search msg) as [groups|] eqn:E; [|reflexivity].
    exfalso. apply Hno. apply pasv_search_Some in E as (pre & Hat & _).
    exists pre, groups. exact Hat.
  - intros -> Hg. cbn [Z.eqb Pos.eqb negb].
    destruct (PyStr.pasv_search msg) as [groups|] eqn:E.
    + apply pasv_search_Some in E as (pre & Hfirst).
      pose proof Hfirst as (Hat & _).
      destruct Hat as (g1 & g2 & g3 & g4 & g5 & g6 & post & -> & H1 & H2 & H3 & H4 & H5 & H6 & _).
      exists pre, g1, g2, g3, g4, g5, g6. split; [exact Hfirst|].
      rewrite ints_numbers by assumption.
      destruct (forallb short_number _); reflexivity.
    + exfalso. exact (pasv_search_None _ E Hg).
  - intros -> ->. reflexivity.
  - intros -> ->. cbn [Z.eqb Pos.eqb negb].
    rewrite pasv_long_number_search, pasv_long_number_ints. split; [|reflexivity].
    destruct (pasv_search_Some _ _ pasv_long_number_search) as (pre & Hat & _).
    exists pre, ["1"; "2"; "3"; "4"; "5"; long_number]. exact Hat.
Qed.

Lemma C4_pasv_outcomes_witness :
  FTPClient._pasv (st_replies [pasv_long_number ++ LF])
  = Raise value_error
          (log (EvSendall 0 ("PASV" ++ CRLF)) (connected example_config 0 [] [] [])).
Proof.
  apply (C4_pasv_outcomes (st_replies [pasv_long_number ++ LF]) _
           227%Z pasv_long_number).
  - vm_compute. reflexivity.
  - reflexivity.
  - reflexivity.
Defined.

(** The example of the specification, run from the reply on. *)
Lemma pasv_example_address :
  FTPClient._pasv (st_replies [pasv_example ++ LF])
  = Ok ("192.168.1.5", 51210%Z)
       (log (EvSendall 0 ("PASV" ++ CRLF)) (connected example_config 0 [] [] [])).
Proof. reflexivity. Qed.

(** ** The calls to the outside, when they return *)

Lemma fallible_Ok {A} (m : M A) st a st1 :
  fallible m st = Ok a st1 -> m (pop_fault st) = Ok a st1.
Proof.
  unfold fallible, pop_fault. destruct (faults st) as [|[e|] fs]; intros H;
    [exact H | discriminate | exact H].
Qed.

Lemma emits_log (e : event) (st : state) : emits [e] (pop_fault st) (log e (pop_fault st)).
Proof. unfold emits. cbn. auto. Qed.

Lemma emits_after_pop (evs : list event) (st st1 : state) :
  emits evs (pop_fault st) st1 -> emits evs st st1.
Proof.
  destruct (pop_fault_reads_only st) as (Hs & Ht & _).
  unfold emits. rewrite Hs, Ht. auto.
Qed.

Lemma emits_trans (e1 e2 : list event) (st1 st2 st3 : state) :
  emits e1 st1 st2 -> emits e2 st2 st3 -> emits (e1 ++ e2) st1 st3.
Proof.
  unfold emits. intros (Hs1 & Ht1) (Hs2 & Ht2).
  rewrite Hs2, Hs1, Ht2, Ht1, app_assoc. auto.
Qed.

Lemma socket_new_Ok st s st1 :
  Sys.socket_new st = Ok s st1 -> emits [EvSocket s] st st1.
Proof.
  intros H. apply fallible_Ok in H.
  unfold bind, fresh, emit, modify, ret in H. injection H as <- <-.
  apply emits_after_pop. unfold emits. cbn. auto.
Qed.

Lemma settimeout_Ok st s t u st1 :
  Sys.settimeout s t st = Ok u st1 -> emits [EvSetTimeout s t] st st1.
Proof.
  intros H. unfold Sys.settimeout, Sys.close, emit, modify in H.
  injection H as <- <-. unfold emits. cbn. auto.
Qed.

Lemma connect_Ok st s h p u st1 :
  Sys.connect s h p st = Ok u st1 -> emits [EvConnect s h p] st st1.
Proof.
  intros H. apply fallible_Ok in H.
  unfold emit, modify in H. injection H as <- <-.
  apply emits_after_pop. unfold emits. cbn. auto.
Qed.

Lemma wrap_socket_Ok st s h s' st1 :
  Sys.wrap_socket s h st = Ok s' st1 -> emits [EvWrapSocket s s' h] st st1.
Proof.
  intros H. apply fallible_Ok in H.
  unfold bind, fresh, emit, modify, ret in H. injection H as <- <-.
  apply emits_after_pop. unfold emits. cbn. auto.
Qed.

Lemma close_Ok st s u st1 :
  Sys.close s st = Ok u st1 -> emits [EvSockClose s] st st1.
Proof.
  intros H. unfold Sys.settimeout, Sys.close, emit, modify in H.
  injection H as <- <-. unfold emits. cbn. auto.
Qed.

Lemma cfg_Ok st c st1 :
  FTPClient.cfg st = Ok c st1 -> c = config (self st) /\ st1 = st.
Proof. intros H. unfold FTPClient.cfg, get in H. injection H as <- <-. auto. Qed.

Lemma read_response_Ok st r st1 :
  FTPClient._read_response st = Ok r st1 -> emits [] st st1.
Proof.
  intros H. pose proof (read_response_reads_only st) as Hr. rewrite H in Hr.
  destruct Hr as (Hs & Ht & _). unfold emits. rewrite app_nil_r. auto.
Qed.

Lemma pasv_Ok st r st1 :
  FTPClient._pasv st = Ok r st1 ->
  exists s, _socket (self st) = Some s /\ emits [EvSendall s ("PASV" ++ CRLF)] st st1.
Proof.
  intros H. unfold FTPClient._pasv in H.
  apply bind_Ok_inv in H as ([code msg] & st0 & Hc & Hk).
  destruct (command_Ok _ _ _ _ _ _ Hc) as (s & Hs & He & _).
  exists s. split; [exact Hs|].
  destruct (negb (code =? 227)%Z); [discriminate|].
  destruct (PyStr.pasv_search msg); [|discriminate].
  apply bind_Ok_inv in Hk as (parts & st2 & Hl & Hk).
  unfold lift in Hl. destruct (FTPClient.ints l); [|discriminate].
  cbv [ret] in Hl, Hk. injection Hl as <- <-. injection Hk as <- <-. exact He.
Qed.

(** ** The data connection *)

(** When [_data_connection] returns, it has connected a new socket to the
    address of the PASV reply and, over TLS, wrapped it for the configured
    host. *)
Lemma data_connection_Ok (st st' : state) (d : sock) :
  FTPClient._data_connection st = Ok d st' ->
  exists st0 pasv_host pasv_port raw,
    FTPClient._pasv st = Ok (pasv_host, pasv_port) st0 /\
    emits ([EvSocket raw; EvSetTimeout raw (timeout (config (self st)));
            EvConnect raw pasv_host pasv_port]
           ++ (if secure (config (self st))
               then [EvWrapSocket raw d (host (config (self st)))]
               else []))%list st0 st' /\
    (secure (config (self st)) = false -> d = raw).
Proof.
  intros H. unfold FTPClient._data_connection in H.
  apply bind_Ok_inv in H as ([ph pp] & st0 & Hp & H).
  apply bind_Ok_inv in H as (raw & st1 & Hsock & H).
  apply bind_Ok_inv in H as (c & st2 & Hcfg & H).
  apply bind_Ok_inv in H as (u1 & st3 & Hto & H).
  apply bind_Ok_inv in H as (u2 & st4 & Hco & H).
  destruct (pasv_Ok _ _ _ Hp) as (s & _ & (Hself0 & _)).
  apply socket_new_Ok in Hsock. apply cfg_Ok in Hcfg as (-> & ->).
  apply settimeout_Ok in Hto. apply connect_Ok in Hco.
  assert (Hself1 : self st1 = self st) by (destruct Hsock as (Hs1 & _); congruence).
  rewrite Hself1 in Hto, H.
  exists st0, ph, pp, raw. split; [exact Hp|].
  pose proof (emits_trans _ _ _ _ _ Hsock (emits_trans _ _ _ _ _ Hto Hco)) as E.
  destruct (secure (config (self st))).
  - apply wrap_socket_Ok in H. split; [|discriminate].
    exact (emits_trans _ _ _ _ _ E H).
  - cbv [ret] in H. injection H as <- <-. split; [|reflexivity].
    rewrite app_nil_r. exact E.
Qed.

(** C9.  Over TLS, the data connection that [_data_connection] returns is
    the result of wrapping the socket just connected to the PASV address,
    with the configured host as the name to check; the handshake emits no
    other event after the PASV exchange, so the PASV address only goes to
    the TCP connect. *)
Theorem C9_data_connection_checks_configured_host
    (st st' : state) (d : sock)
    (Hsecure : secure (config (self st)) = true)
    (Hconn : FTPClient._data_connection st = Ok d st') :
  exists st0 pasv_host pasv_port raw,
    FTPClient._pasv st = Ok (pasv_host, pasv_port) st0 /\
    emits [EvSocket raw; EvSetTimeout raw (timeout (config (self st)));
           EvConnect raw pasv_host pasv_port;
           EvWrapSocket raw d (host (config (self st)))] st0 st'.
Proof.
  destruct (data_connection_Ok _ _ _ Hconn) as (st0 & ph & pp & raw & Hp & He & _).
  rewrite Hsecure in He. exists st0, ph, pp, raw. split; [exact Hp | exact He].
Qed.

Lemma C9_data_connection_checks_configured_host_witness :
  exists st0 pasv_host pasv_port raw,
    FTPClient._pasv st_secure = Ok (pasv_host, pasv_port) st0 /\
    emits [EvSocket raw; EvSetTimeout raw 30%Q;
           EvConnect raw pasv_host pasv_port;
           EvWrapSocket raw 2%nat "ftp.example.com"] st0
          (outcome_state (FTPClient._data_connection st_secure)).
Proof.
  apply (C9_data_connection_checks_configured_host st_secure _ 2%nat).
  - reflexivity.
  - reflexivity.
Defined.

(** ** connect *)

Lemma emits_grows (evs : list event) (st st' : state) :
  emits evs st st' -> grows evs st st'.
Proof. intros (Hs & Ht). unfold grows. rewrite Hs. auto. Qed.

Lemma grows_trans (e1 e2 : list event) (st1 st2 st3 : state) :
  grows e1 st1 st2 -> grows e2 st2 st3 -> grows (e1 ++ e2) st1 st3.
Proof.
  unfold grows. intros (Hs1 & Ht1) (Hs2 & Ht2).
  rewrite Hs2, Hs1, Ht2, Ht1, app_assoc. auto.
Qed.

Lemma set__socket_Ok st s u st1 :
  FTPClient.set__socket s st = Ok u st1 -> grows [] st st1.
Proof.
  intros H. unfold FTPClient.set__socket, modify in H. injection H as <- <-.
  unfold grows. cbn. rewrite app_nil_r. auto.
Qed.

Lemma set__file_Ok st f u st1 :
  FTPClient.set__file f st = Ok u st1 -> grows [] st st1.
Proof.
  intros H. unfold FTPClient.set__file, modify in H. injection H as <- <-.
  unfold grows. cbn. rewrite app_nil_r. auto.
Qed.

Lemma the_socket_Ok st s st1 :
  FTPClient.the_socket st = Ok s st1 -> st1 = st.
Proof.
  unfold FTPClient.the_socket, bind, get.
  destruct (_socket (self st)); intros H; [injection H as <- <-; reflexivity | discriminate].
Qed.

(** When [connect] returns, the only lines it has sent are USER with the
    configured user name and PASS with the configured password. *)
Lemma login_Ok (st st' : state) (u : unit) :
  FTPClient.connect st = Ok u st' ->
  exists evs,
    grows evs st st' /\
    commands_sent evs
    = [("USER " ++ username (config (self st))) ++ CRLF;
       ("PASS " ++ password (config (self st))) ++ CRLF].
Proof.
  intros H. unfold FTPClient.connect in H.
  apply bind_Ok_inv in H as (s & st1 & H1 & H).
  apply bind_Ok_inv in H as (u2 & st2 & H2 & H).
  apply bind_Ok_inv in H as (c & st3 & H3 & H).
  apply bind_Ok_inv in H as (u4 & st4 & H4 & H).
  apply bind_Ok_inv in H as (u5 & st5 & H5 & H).
  apply bind_Ok_inv in H as (u6 & st6 & H6 & H).
  apply bind_Ok_inv in H as (f & st7 & H7 & H).
  apply bind_Ok_inv in H as (u8 & st8 & H8 & H).
  apply bind_Ok_inv in H as (r9 & st9 & H9 & H).
  apply bind_Ok_inv in H as ([c10 m10] & st10 & H10 & H).
  apply bind_Ok_inv in H as ([c11 m11] & st11 & H11 & H).
  unfold ret in H. injection H as _ <-.
  apply socket_new_Ok, emits_grows in H1.
  apply set__socket_Ok in H2.
  apply cfg_Ok in H3 as (-> & ->).
  apply settimeout_Ok, emits_grows in H4.
  apply connect_Ok, emits_grows in H5.
  apply the_socket_Ok in H7 as ->.
  apply set__file_Ok in H8.
  apply read_response_Ok, emits_grows in H9.
  destruct (command_Ok _ _ _ _ _ _ H10) as (s10 & _ & E10 & _).
  destruct (command_Ok _ _ _ _ _ _ H11) as (s11 & _ & E11 & _).
  apply emits_grows in E10, E11.
  assert (Hc : config (self st2) = config (self st)).
  { destruct H1 as (A & _), H2 as (B & _). congruence. }
  assert (H6' : exists e6, grows e6 st5 st6 /\ commands_sent e6 = []).
  { destruct (secure (config (self st2))).
    - apply bind_Ok_inv in H6 as (s' & st5' & Hw & Hs).
      apply wrap_socket_Ok, emits_grows in Hw. apply set__socket_Ok in Hs.
      eexists. split; [exact (grows_trans _ _ _ _ _ Hw Hs) | reflexivity].
    - unfold ret in H6. injection H6 as _ <-.
      exists []. split; [|reflexivity]. unfold grows. rewrite app_nil_r. auto. }
  destruct H6' as (e6 & G6 & S6).
  rewrite Hc in *.
  exists ([EvSocket s] ++ [] ++ [EvSetTimeout s (timeout (config (self st)))]
          ++ [EvConnect s (host (config (self st))) (port (config (self st)))]
          ++ e6 ++ [] ++ []
          ++ [EvSendall s10 (("USER " ++ username (config (self st))) ++ CRLF)]
          ++ [EvSendall s11 (("PASS " ++ password (config (self st))) ++ CRLF)])%list.
  split.
  - exact (grows_trans _ _ _ _ _ H1
          (grows_trans _ _ _ _ _ H2
          (grows_trans _ _ _ _ _ H4
          (grows_trans _ _ _ _ _ H5
          (grows_trans _ _ _ _ _ G6
          (grows_trans _ _ _ _ _ H8
          (grows_trans _ _ _ _ _ H9
          (grows_trans _ _ _ _ _ E10 E11)))))))).
  - assert (Happ : forall a b, commands_sent (a ++ b) = (commands_sent a ++ commands_sent b)%list).
    { induction a as [|[] a IH]; intros b; cbn; rewrite ?IH; reflexivity. }
    cbn [app commands_sent]. rewrite Happ, S6. reflexivity.
Qed.

(** C10.  A session built without credentials logs in as anonymous: when
    the module-level [connect] is called with neither user name nor
    password, or when [FTPClient.connect] runs on a configuration built by
    [FTPConfig] without them, and the call returns, the lines sent on the
    control connection are USER anonymous and then PASS anonymous@. *)
Theorem C10_default_credentials_are_anonymous (st st' : state) :
  (forall h kw,
      connect h None None kw st = Ok tt st' ->
      exists evs,
        trace st' = (trace st ++ evs)%list /\
        commands_sent evs = ["USER anonymous" ++ CRLF; "PASS anonymous@" ++ CRLF]) /\
  (forall h p t m s,
      config (self st) = FTPConfig_init h p None None t m s ->
      FTPClient.connect st = Ok tt st' ->
      exists evs,
        trace st' = (trace st ++ evs)%list /\
        commands_sent evs = ["USER anonymous" ++ CRLF; "PASS anonymous@" ++ CRLF]).
Proof.
  split.
  - intros h kw H. unfold connect in H.
    apply bind_Ok_inv in H as (u & st0 & Hm & H).
    unfold modify in Hm. injection Hm as _ <-.
    apply login_Ok in H as (evs & (_ & Ht) & Hs).
    exists evs. split; [exact Ht | exact Hs].
  - intros h p t m s Hcfg H.
    apply login_Ok in H as (evs & (_ & Ht) & Hs).
    exists evs. split; [exact Ht|]. rewrite Hs, Hcfg. reflexivity.
Qed.

Lemma C10_default_credentials_are_anonymous_witness :
  exists evs,
    trace (outcome_state (connect "ftp.example.com" None None no_kwargs st_fresh))
    = (trace st_fresh ++ evs)%list /\
    commands_sent evs = ["USER anonymous" ++ CRLF; "PASS anonymous@" ++ CRLF].
Proof.
  apply (proj1 (C10_default_credentials_are_anonymous st_fresh _) "ftp.example.com" no_kwargs).
  vm_compute. reflexivity.
Defined.

(** ** The data operations *)

Lemma emits_refl (st : state) : emits [] st st.
Proof. unfold emits. rewrite app_nil_r. auto. Qed.

Lemma finally_Ok_inv {A} (m : M A) (c : M unit) st a st' :
  finally m c st = Ok a st' ->
  exists st1 u, m st = Ok a st1 /\ c st1 = Ok u st'.
Proof.
  unfold finally, bind, ret, raise.
  destruct (m st) as [a0 st1|e st1|st1]; try discriminate.
  - destruct (c st1) as [u st2|e st2|st2] eqn:E; try discriminate.
    intros H. injection H as <- <-. exists st1, u. auto.
  - destruct (c st1); discriminate.
Qed.

Lemma recv_Ok (s : sock) st chunk st1 :
  Sys.recv s st = Ok chunk st1 -> emits [] st st1.
Proof.
  intros H. apply fallible_Ok in H. apply emits_after_pop.
  destruct (data_in (pop_fault st)); injection H as <- <-;
    unfold emits; cbn; rewrite app_nil_r; auto.
Qed.

Lemma read_Ok (f : handle) st chunk st1 :
  Sys.read f st = Ok chunk st1 -> emits [] st st1.
Proof.
  intros H. apply fallible_Ok in H. apply emits_after_pop.
  destruct (file_in (pop_fault st)); injection H as <- <-;
    unfold emits; cbn; rewrite app_nil_r; auto.
Qed.

Lemma write_Ok (f : handle) data st u st1 :
  Sys.write f data st = Ok u st1 -> emits [EvWrite f data] st st1.
Proof.
  intros H. apply fallible_Ok in H.
  unfold emit, modify in H. injection H as <- <-.
  apply emits_after_pop. unfold emits. cbn. auto.
Qed.

Lemma sendall_bytes_Ok (s : sock) data st u st1 :
  Sys.sendall_bytes s data st = Ok u st1 -> emits [EvSendBytes s data] st st1.
Proof.
  intros H. apply fallible_Ok in H.
  unfold emit, modify in H. injection H as <- <-.
  apply emits_after_pop. unfold emits. cbn. auto.
Qed.

Lemma open_Ok path mode st f st1 :
  Sys.open path mode st = Ok f st1 -> emits [EvOpen f path mode] st st1.
Proof.
  intros H. apply fallible_Ok in H.
  unfold bind, fresh, emit, modify, ret in H. injection H as <- <-.
  apply emits_after_pop. unfold emits. cbn. auto.
Qed.

Lemma fclose_Ok f st u st1 :
  Sys.fclose f st = Ok u st1 -> emits [EvFileClose f] st st1.
Proof.
  intros H. unfold Sys.fclose, emit, modify in H.
  injection H as <- <-. unfold emits. cbn. auto.
Qed.

Lemma recv_all_Ok (n : nat) :
  forall s data st r st', FTPClient.recv_all n s data st = Ok r st' -> emits [] st st'.
Proof.
  induction n as [|n IH]; intros s data st r st' H; [discriminate|].
  cbn [FTPClient.recv_all] in H.
  apply bind_Ok_inv in H as (chunk & st1 & Hr & H). apply recv_Ok in Hr.
  destruct (FTPClient.is_nil chunk).
  - unfold ret in H. injection H as <- <-. exact Hr.
  - apply IH in H. exact (emits_trans _ _ _ _ _ Hr H).
Qed.

Lemma recv_to_file_Ok (n : nat) :
  forall s f total st r st',
    FTPClient.recv_to_file n s f total st = Ok r st' -> exists evs, emits evs st st'.
Proof.
  induction n as [|n IH]; intros s f total st r st' H; [discriminate|].
  cbn [FTPClient.recv_to_file] in H.
  apply bind_Ok_inv in H as (chunk & st1 & Hr & H). apply recv_Ok in Hr.
  destruct (FTPClient.is_nil chunk).
  - unfold ret in H. injection H as <- <-. exists []. exact Hr.
  - apply bind_Ok_inv in H as (u & st2 & Hw & H). apply write_Ok in Hw.
    apply IH in H as (evs & H). eexists.
    exact (emits_trans _ _ _ _ _ Hr (emits_trans _ _ _ _ _ Hw H)).
Qed.

Lemma send_from_file_Ok (n : nat) :
  forall s f total st r st',
    FTPClient.send_from_file n s f total st = Ok r st' -> exists evs, emits evs st st'.
Proof.
  induction n as [|n IH]; intros s f total st r st' H; [discriminate|].
  cbn [FTPClient.send_from_file] in H.
  apply bind_Ok_inv in H as (chunk & st1 & Hr & H). apply read_Ok in Hr.
  destruct (FTPClient.is_nil chunk).
  - unfold ret in H. injection H as <- <-. exists []. exact Hr.
  - apply bind_Ok_inv in H as (u & st2 & Hw & H). apply sendall_bytes_Ok in Hw.
    apply IH in H as (evs & H). eexists.
    exact (emits_trans _ _ _ _ _ Hr (emits_trans _ _ _ _ _ Hw H)).
Qed.

(** *** The fuel of the transfer loops *)

Lemma recv_cases (s : sock) (st : state) :
  (exists e st1, Sys.recv s st = Raise e st1) \/
  (exists d ds, data_in st = d :: ds /\
                Sys.recv s st = Ok d (set_data_in ds (pop_fault st))) \/
  (data_in st = [] /\ Sys.recv s st = Ok [] (pop_fault st)).
Proof.
  destruct (pop_fault_reads_only st) as (_ & _ & _ & Hd & _).
  unfold Sys.recv. destruct (faults st) as [|[e|] fs] eqn:Ef.
  - right. rewrite fallible_quiet by (rewrite Ef; reflexivity). rewrite Hd.
    destruct (data_in st) as [|d ds]; [right | left; exists d, ds]; auto.
  - left. exists e, (set_faults fs st). apply fallible_fault. exact Ef.
  - right. rewrite fallible_quiet by (rewrite Ef; reflexivity). rewrite Hd.
    destruct (data_in st) as [|d ds]; [right | left; exists d, ds]; auto.
Qed.

Lemma read_cases (f : handle) (st : state) :
  (exists e st1, Sys.read f st = Raise e st1) \/
  (exists d ds, file_in st = d :: ds /\
                Sys.read f st = Ok d (set_file_in ds (pop_fault st))) \/
  (file_in st = [] /\ Sys.read f st = Ok [] (pop_fault st)).
Proof.
  destruct (pop_fault_reads_only st) as (_ & _ & _ & _ & Hd).
  unfold Sys.read. destruct (faults st) as [|[e|] fs] eqn:Ef.
  - right. rewrite fallible_quiet by (rewrite Ef; reflexivity). rewrite Hd.
    destruct (file_in st) as [|d ds]; [right | left; exists d, ds]; auto.
  - left. exists e, (set_faults fs st). apply fallible_fault. exact Ef.
  - right. rewrite fallible_quiet by (rewrite Ef; reflexivity). rewrite Hd.
    destruct (file_in st) as [|d ds]; [right | left; exists d, ds]; auto.
Qed.

(** An output call raises or returns; the pending inputs stay. *)
Lemma emit_cases (e : event) (st : state) :
  (exists x st1, fallible (emit e) st = Raise x st1) \/
  (exists st1, fallible (emit e) st = Ok tt st1 /\
               data_in st1 = data_in st /\ file_in st1 = file_in st).
Proof.
  unfold fallible, emit, modify. destruct (faults st) as [|[x|] fs].
  - right. eexists. split; [reflexivity|]. cbn. auto.
  - left. eauto.
  - right. eexists. split; [reflexivity|]. cbn. auto.
Qed.

(** No transfer loop uses up its fuel: it ends at the latest on the empty
    chunk that follows the last scripted one. *)
Lemma recv_all_ends (n : nat) :
  forall s data st st',
    (List.length (data_in st) < n)%nat ->
    FTPClient.recv_all n s data st <> Diverge st'.
Proof.
  induction n as [|n IH]; intros s data st st' Hn; [lia|].
  cbn [FTPClient.recv_all].
  destruct (recv_cases s st) as [(e & st1 & Hr)|[(d & ds & Hd & Hr)|(Hd & Hr)]].
  - rewrite (bind_Raise _ _ _ _ _ Hr). discriminate.
  - rewrite (bind_Ok _ _ _ _ _ Hr). destruct (FTPClient.is_nil d); [discriminate|].
    apply IH. cbn. rewrite Hd in Hn. cbn in Hn. lia.
  - rewrite (bind_Ok _ _ _ _ _ Hr). discriminate.
Qed.

Lemma recv_to_file_ends (n : nat) :
  forall s f total st st',
    (List.length (data_in st) < n)%nat ->
    FTPClient.recv_to_file n s f total st <> Diverge st'.
Proof.
  induction n as [|n IH]; intros s f total st st' Hn; [lia|].
  cbn [FTPClient.recv_to_file].
  destruct (recv_cases s st) as [(e & st1 & Hr)|[(d & ds & Hd & Hr)|(Hd & Hr)]].
  - rewrite (bind_Raise _ _ _ _ _ Hr). discriminate.
  - rewrite (bind_Ok _ _ _ _ _ Hr). destruct (FTPClient.is_nil d); [discriminate|].
    unfold Sys.write.
    destruct (emit_cases (EvWrite f d) (set_data_in ds (pop_fault st)))
      as [(x & st1 & Hw)|(st1 & Hw & Hd1 & _)].
    + rewrite (bind_Raise _ _ _ _ _ Hw). discriminate.
    + rewrite (bind_Ok _ _ _ _ _ Hw). apply IH. rewrite Hd1. cbn.
      rewrite Hd in Hn. cbn in Hn. lia.
  - rewrite (bind_Ok _ _ _ _ _ Hr). discriminate.
Qed.

Lemma send_from_file_ends (n : nat) :
  forall s f total st st',
    (List.length (file_in st) < n)%nat ->
    FTPClient.send_from_file n s f total st <> Diverge st'.
Proof.
  induction n as [|n IH]; intros s f total st st' Hn; [lia|].
  cbn [FTPClient.send_from_file].
  destruct (read_cases f st) as [(e & st1 & Hr)|[(d & ds & Hd & Hr)|(Hd & Hr)]].
  - rewrite (bind_Raise _ _ _ _ _ Hr). discriminate.
  - rewrite (bind_Ok _ _ _ _ _ Hr). destruct (FTPClient.is_nil d); [discriminate|].
    unfold Sys.sendall_bytes.
    destruct (emit_cases (EvSendBytes s d) (set_file_in ds (pop_fault st)))
      as [(x & st1 & Hw)|(st1 & Hw & _ & Hd1)].
    + rewrite (bind_Raise _ _ _ _ _ Hw). discriminate.
    + rewrite (bind_Ok _ _ _ _ _ Hw). apply IH. rewrite Hd1. cbn.
      rewrite Hd in Hn. cbn in Hn. lia.
  - rewrite (bind_Ok _ _ _ _ _ Hr). discriminate.
Qed.

Lemma with_open_Ok {A} path mode (body : handle -> M A) st a st' :
  (forall f st0 st1, body f st0 = Ok a st1 -> exists evs, emits evs st0 st1) ->
  Sys.with_open path mode body st = Ok a st' -> exists evs, emits evs st st'.
Proof.
  intros Hbody H. unfold Sys.with_open in H.
  apply bind_Ok_inv in H as (f & st1 & Ho & H). apply open_Ok in Ho.
  apply finally_Ok_inv in H as (st2 & u & Hb & Hc).
  apply Hbody in Hb as (evs & Hb). apply fclose_Ok in Hc.
  eexists. exact (emits_trans _ _ _ _ _ Ho (emits_trans _ _ _ _ _ Hb Hc)).
Qed.

Lemma command_Ok_emits cmd expect st r st' :
  FTPClient._command cmd expect st = Ok r st' -> exists evs, emits evs st st'.
Proof.
  destruct r as [code msg]. intros H.
  destruct (command_Ok _ _ _ _ _ _ H) as (s & _ & He & _). eexists. exact He.
Qed.

Lemma lift_Ok {A} (r : result A) st a st' : lift r st = Ok a st' -> st' = st.
Proof.
  destruct r; cbn; unfold ret, raise; intros H; [injection H as _ <-; reflexivity | discriminate].
Qed.

Lemma closes_intro (st st1 st2 st3 st' : state) (d : sock) (evs : list event) :
  FTPClient._data_connection st = Ok d st1 ->
  emits evs st1 st2 -> emits [EvSockClose d] st2 st3 -> emits [] st3 st' ->
  closes_data_connection st st'.
Proof.
  intros Hd (_ & H1) (_ & H2) (_ & H3). exists d, st1, evs. split; [exact Hd|].
  rewrite H3, H2, H1, app_nil_r. reflexivity.
Qed.

(** C2, as amended.  When [list], [download] or [upload] returns, the data
    connection that the operation opened has been closed by it, and that
    [close] is the last event of the operation. *)
Theorem C2_data_connection_closed_on_return (st st' : state) :
  (forall decode splitlines path entries,
      FTPClient.list decode splitlines path st = Ok entries st' ->
      closes_data_connection st st') /\
  (forall remote local total,
      FTPClient.download remote local st = Ok total st' ->
      closes_data_connection st st') /\
  (forall local remote total,
      FTPClient.upload local remote st = Ok total st' ->
      closes_data_connection st st').
Proof.
  split; [|split].
  - intros decode splitlines path entries H. unfold FTPClient.list in H.
    apply bind_Ok_inv in H as (d & st1 & Hd & H).
    apply bind_Ok_inv in H as (r2 & st2 & H2 & H).
    apply bind_Ok_inv in H as (fuel & st3 & H3 & H).
    apply bind_Ok_inv in H as (data & st4 & H4 & H).
    apply bind_Ok_inv in H as (u5 & st5 & H5 & H).
    apply bind_Ok_inv in H as (r6 & st6 & H6 & H).
    apply lift_Ok in H. subst st'.
    apply command_Ok_emits in H2 as (e2 & H2).
    unfold get in H3. injection H3 as _ <-.
    apply recv_all_Ok in H4. apply close_Ok in H5. apply read_response_Ok in H6.
    exact (closes_intro _ _ _ _ _ _ _ Hd (emits_trans _ _ _ _ _ H2 H4) H5 H6).
  - intros remote local total H. unfold FTPClient.download in H.
    apply bind_Ok_inv in H as (d & st1 & Hd & H).
    apply bind_Ok_inv in H as (r2 & st2 & H2 & H).
    apply bind_Ok_inv in H as (r3 & st3 & H3 & H).
    apply bind_Ok_inv in H as (fuel & st4 & H4 & H).
    apply bind_Ok_inv in H as (tot & st5 & H5 & H).
    apply bind_Ok_inv in H as (u6 & st6 & H6 & H).
    apply bind_Ok_inv in H as (r7 & st7 & H7 & H).
    unfold ret in H. injection H as _ <-.
    apply command_Ok_emits in H2 as (e2 & H2).
    apply command_Ok_emits in H3 as (e3 & H3).
    unfold get in H4. injection H4 as _ <-.
    apply with_open_Ok in H5 as (e5 & H5);
      [|intros f st0 st1' Hb; exact (recv_to_file_Ok _ _ _ _ _ _ _ Hb)].
    apply close_Ok in H6. apply read_response_Ok in H7.
    exact (closes_intro _ _ _ _ _ _ _ Hd
             (emits_trans _ _ _ _ _ H2 (emits_trans _ _ _ _ _ H3 H5)) H6 H7).
  - intros local remote total H. unfold FTPClient.upload in H.
    apply bind_Ok_inv in H as (d & st1 & Hd & H).
    apply bind_Ok_inv in H as (r2 & st2 & H2 & H).
    apply bind_Ok_inv in H as (r3 & st3 & H3 & H).
    apply bind_Ok_inv in H as (fuel & st4 & H4 & H).
    apply bind_Ok_inv in H as (tot & st5 & H5 & H).
    apply bind_Ok_inv in H as (u6 & st6 & H6 & H).
    apply bind_Ok_inv in H as (r7 & st7 & H7 & H).
    unfold ret in H. injection H as _ <-.
    apply command_Ok_emits in H2 as (e2 & H2).
    apply command_Ok_emits in H3 as (e3 & H3).
    unfold get in H4. injection H4 as _ <-.
    apply with_open_Ok in H5 as (e5 & H5);
      [|intros f st0 st1' Hb; exact (send_from_file_Ok _ _ _ _ _ _ _ Hb)].
    apply close_Ok in H6. apply read_response_Ok in H7.
    exact (closes_intro _ _ _ _ _ _ _ Hd
             (emits_trans _ _ _ _ _ H2 (emits_trans _ _ _ _ _ H3 H5)) H6 H7).
Qed.

Lemma C2_data_connection_closed_on_return_witness :
  closes_data_connection st_list_ok
    (outcome_state (FTPClient.list decode_stub splitlines_stub "" st_list_ok)).
Proof.
  apply (proj1 (C2_data_connection_closed_on_return st_list_ok _)
           decode_stub splitlines_stub "" []).
  vm_compute. reflexivity.
Defined.

(** C2 as stated fails: when [recv] raises in the receiving loop, [list]
    and [download] end with that exception and the data connection,
    socket 1, has not been closed; [download] has closed the local file
    only. *)
Lemma C2_data_connection_left_open_when_recv_raises :
  (exists st',
      FTPClient.list decode_stub splitlines_stub "" st_list_recv_fails
      = Raise (OSError "timed out") st' /\
      trace st' = [EvSendall 0 ("PASV" ++ CRLF); EvSocket 1; EvSetTimeout 1 30%Q;
                   EvConnect 1 "192.168.1.5" 51210%Z;
                   EvSendall 0 ("LIST" ++ CRLF)] /\
      ~ In (EvSockClose 1) (trace st')) /\
  (exists st',
      FTPClient.download "remote.bin" "local.bin" st_download_recv_fails
      = Raise (OSError "timed out") st' /\
      trace st' = [EvSendall 0 ("PASV" ++ CRLF); EvSocket 1; EvSetTimeout 1 30%Q;
                   EvConnect 1 "192.168.1.5" 51210%Z;
                   EvSendall 0 ("TYPE I" ++ CRLF);
                   EvSendall 0 ("RETR remote.bin" ++ CRLF);
                   EvOpen 2 "local.bin" "wb"; EvFileClose 2] /\
      ~ In (EvSockClose 1) (trace st')).
Proof.
  split; eexists; (split; [vm_compute; reflexivity|]);
    (split; [reflexivity|]); cbn; intuition discriminate.
Qed.

(** ** Listing lines *)

Lemma split_ws_length (n : nat) :
  forall s, (List.length (PyStr.split_ws n s) <= S n)%nat.
Proof.
  induction n as [|n IH]; intros s; cbn [PyStr.split_ws];
    destruct (PyStr.is_empty (PyStr.lstrip PyStr.isspace s)); cbn; try lia.
  destruct (PyStr.take_word (PyStr.lstrip PyStr.isspace s)) as [w rest].
  cbn. specialize (IH rest). lia.
Qed.

Lemma isdigit_decimal (s : string) :
  s <> EmptyString -> all_decimal s = true -> PyStr.isdigit s = true.
Proof.
  intros Hne Hd. unfold PyStr.isdigit. destruct s; [congruence|]. cbn [PyStr.is_empty negb andb].
  apply (forallb_str_impl PyStr.isdecimal); [apply decimal_is_digit | exact Hd].
Qed.

(** What [_parse_list_line] returns, field by field: nothing for the
    empty line; the whole line as name when the split gives fewer than 9
    fields; otherwise permissions, directory flag and name from fields 0
    and 8, and as size the number that field 4 writes when it is made of
    at most [int_max_str_digits] digits 0 to 9, or 0 when [isdigit]
    rejects it. *)
Lemma parse_list_line_fields (line : string) :
  (List.length (PyStr.split_ws 8 line) <= 9)%nat /\
  (line = EmptyString -> FTPClient._parse_list_line line = Returns None) /\
  (line <> EmptyString ->
   (List.length (PyStr.split_ws 8 line) < 9)%nat ->
   FTPClient._parse_list_line line
   = Returns (Some (mkFTPEntry line 0 None false EmptyString line))) /\
  (forall p0 p1 p2 p3 p4 p5 p6 p7 p8,
      line <> EmptyString ->
      PyStr.split_ws 8 line = [p0; p1; p2; p3; p4; p5; p6; p7; p8] ->
      (PyStr.isdigit p4 = false ->
       FTPClient._parse_list_line line
       = Returns (Some (mkFTPEntry p8 0 None (PyStr.startswith "d" p0) p0 line))) /\
      (p4 <> EmptyString -> all_decimal p4 = true -> short_number p4 = true ->
       FTPClient._parse_list_line line
       = Returns (Some (mkFTPEntry p8 (decimal_value p4) None
                                   (PyStr.startswith "d" p0) p0 line)))).
Proof.
  split; [apply split_ws_length|]. split; [intros ->; reflexivity|]. split.
  - intros Hne Hlen. unfold FTPClient._parse_list_line.
    destruct line; [congruence|]. cbn [PyStr.is_empty].
    apply Nat.ltb_lt in Hlen. rewrite Hlen. reflexivity.
  - intros p0 p1 p2 p3 p4 p5 p6 p7 p8 Hne Hs. unfold FTPClient._parse_list_line.
    destruct line as [|c r]; [congruence|]. cbn [PyStr.is_empty].
    rewrite Hs. cbn [List.length Nat.ltb Nat.leb nth]. split.
    + intros Hd. rewrite Hd. reflexivity.
    + intros Hne4 Hd Hs4. rewrite (isdigit_decimal _ Hne4 Hd).
      unfold FTPClient.int_of. rewrite (int_decimal _ Hne4 Hd Hs4). reflexivity.
Qed.

(** The two lines of the specification's examples. *)
Lemma parse_list_line_examples :
  FTPClient._parse_list_line "-rw-r--r-- 1 user group 1234 Jan 1 00:00 file.txt"
  = Returns (Some (mkFTPEntry "file.txt" 1234 None false "-rw-r--r--"
                     "-rw-r--r-- 1 user group 1234 Jan 1 00:00 file.txt")) /\
  FTPClient._parse_list_line "drwxr-xr-x 2 user group 4096 Jan 1 00:00 subdir"
  = Returns (Some (mkFTPEntry "subdir" 4096 None true "drwxr-xr-x"
                     "drwxr-xr-x 2 user group 4096 Jan 1 00:00 subdir")).
Proof. split; reflexivity. Qed.

(** C6 fails on the code.  The line below splits into 9 fields and its
    field 4, the character U+00B2, passes [isdigit]; [int] rejects it, so
    [_parse_list_line] raises [ValueError] instead of yielding an entry
    (with the parsed size or with 0). *)
Theorem C6_parse_list_line_raises_on_superscript_size :
  List.length (PyStr.split_ws 8 superscript_size_line) = 9%nat /\
  nth 4 (PyStr.split_ws 8 superscript_size_line) EmptyString
  = String "178"%char EmptyString /\
  PyStr.isdigit (String "178"%char EmptyString) = true /\
  PyStr.int (String "178"%char EmptyString) = None /\
  FTPClient._parse_list_line superscript_size_line
  = Raises (ValueError "invalid literal for int() with base 10").
Proof. repeat split; reflexivity. Qed.

(** * Further properties of the client *)

(** ** Steps that keep a relation between states *)

Section Frames.

Variable R : state -> state -> Prop.
Hypothesis HR : frame R.

Lemma respects_ret {A} (a : A) : respects R (ret a).
Proof. intros st. apply (fr_refl R HR). Qed.

Lemma respects_raise {A} (e : exn) : respects R (@raise A e).
Proof. intros st. apply (fr_refl R HR). Qed.

Lemma respects_get {A} (f : state -> A) : respects R (get f).
Proof. intros st. apply (fr_refl R HR). Qed.

Lemma respects_lift {A} (r : result A) : respects R (lift r).
Proof. destruct r; [apply respects_ret | apply respects_raise]. Qed.

Lemma respects_bind {A B} (m : M A) (k : A -> M B) :
  respects R m -> (forall a, respects R (k a)) -> respects R (bind m k).
Proof.
  intros Hm Hk st. unfold bind. specialize (Hm st).
  destruct (m st) as [a st1|e st1|st1]; cbn in *; try exact Hm.
  exact (fr_trans R HR _ _ _ Hm (Hk a st1)).
Qed.

Lemma respects_try_except {A} (m : M A) (h : exn -> M A) :
  respects R m -> (forall e, respects R (h e)) -> respects R (try_except m h).
Proof.
  intros Hm Hh st. unfold try_except. specialize (Hm st).
  destruct (m st) as [a st1|e st1|st1]; cbn in *; try exact Hm.
  exact (fr_trans R HR _ _ _ Hm (Hh e st1)).
Qed.

Lemma respects_fallible {A} (m : M A) : respects R m -> respects R (fallible m).
Proof.
  intros Hm st. unfold fallible. destruct (faults st) as [|[e|] fs].
  - apply Hm.
  - apply (fr_faults R HR).
  - exact (fr_trans R HR _ _ _ (fr_faults R HR fs st) (Hm _)).
Qed.

Lemma respects_emit (e : event) : is_file_event e = false -> respects R (emit e).
Proof. intros He st. apply (fr_log R HR). exact He. Qed.

Lemma respects_fresh : respects R fresh.
Proof. intros st. apply (fr_next_id R HR). Qed.

Lemma respects_socket_new : respects R Sys.socket_new.
Proof.
  apply respects_fallible, respects_bind; [apply respects_fresh|].
  intros s. apply respects_bind; [apply respects_emit; reflexivity|].
  intros _. apply respects_ret.
Qed.

Lemma respects_settimeout s t : respects R (Sys.settimeout s t).
Proof. apply respects_emit. reflexivity. Qed.

Lemma respects_sys_connect s h p : respects R (Sys.connect s h p).
Proof. apply respects_fallible, respects_emit. reflexivity. Qed.

Lemma respects_wrap_socket s h : respects R (Sys.wrap_socket s h).
Proof.
  apply respects_fallible, respects_bind; [apply respects_fresh|].
  intros s'. apply respects_bind; [apply respects_emit; reflexivity|].
  intros _. apply respects_ret.
Qed.

Lemma respects_sendall s text : respects R (Sys.sendall s text).
Proof. apply respects_fallible, respects_emit. reflexivity. Qed.

Lemma respects_sys_close s : respects R (Sys.close s).
Proof. apply respects_emit. reflexivity. Qed.

Lemma respects_readline f : respects R (Sys.readline f).
Proof.
  apply respects_fallible. intros st.
  destruct (ctrl_in st); cbn; [apply (fr_refl R HR) | apply (fr_ctrl_in R HR)].
Qed.

Lemma respects_the_socket : respects R FTPClient.the_socket.
Proof.
  apply respects_bind; [apply respects_get|].
  intros [s|]; [apply respects_ret | apply respects_raise].
Qed.

Lemma respects_the_file : respects R FTPClient.the_file.
Proof.
  apply respects_bind; [apply respects_get|].
  intros [s|]; [apply respects_ret | apply respects_raise].
Qed.

Lemma respects_set__socket s : respects R (FTPClient.set__socket s).
Proof. intros st. apply (fr_self R HR). Qed.

Lemma respects_set__file f : respects R (FTPClient.set__file f).
Proof. intros st. apply (fr_self R HR). Qed.

Lemma respects_read_lines (n : nat) :
  forall acc, respects R (FTPClient.read_lines n acc).
Proof.
  induction n as [|n IH]; intros acc; [intros st; apply (fr_refl R HR)|].
  cbn [FTPClient.read_lines].
  apply respects_bind; [apply respects_the_file|]. intros f.
  apply respects_bind; [apply respects_readline|]. intros raw.
  destruct (FTPClient.ends_response _); [apply respects_ret | apply IH].
Qed.

Lemma respects_read_response : respects R FTPClient._read_response.
Proof.
  intros st. unfold FTPClient._read_response.
  apply (respects_bind (FTPClient.read_lines (FTPClient.read_fuel st) [])).
  - apply respects_read_lines.
  - intros lines. destruct (PyStr.int _); [apply respects_ret | apply respects_raise].
Qed.

Lemma respects_command cmd expect : respects R (FTPClient._command cmd expect).
Proof.
  unfold FTPClient._command.
  apply respects_bind; [apply respects_the_socket|]. intros s.
  apply respects_bind; [apply respects_sendall|]. intros _.
  apply respects_bind; [apply respects_read_response|]. intros [code message].
  destruct (FTPClient.mismatch expect code); [apply respects_raise | apply respects_ret].
Qed.

Lemma respects_pasv : respects R FTPClient._pasv.
Proof.
  unfold FTPClient._pasv.
  apply respects_bind; [apply respects_command|]. intros [code msg].
  destruct (negb (code =? 227)%Z); [apply respects_raise|].
  destruct (PyStr.pasv_search msg); [|apply respects_raise].
  apply respects_bind; [apply respects_lift|]. intros parts. apply respects_ret.
Qed.

Lemma respects_data_connection : respects R FTPClient._data_connection.
Proof.
  unfold FTPClient._data_connection.
  apply respects_bind; [apply respects_pasv|]. intros [h p].
  apply respects_bind; [apply respects_socket_new|]. intros s.
  apply respects_bind; [apply respects_get|]. intros c.
  apply respects_bind; [apply respects_settimeout|]. intros _.
  apply respects_bind; [apply respects_sys_connect|]. intros _.
  destruct (secure c); [apply respects_wrap_socket | apply respects_ret].
Qed.

Lemma respects_connect : respects R FTPClient.connect.
Proof.
  unfold FTPClient.connect.
  apply respects_bind; [apply respects_socket_new|]. intros s.
  apply respects_bind; [apply respects_set__socket|]. intros _.
  apply respects_bind; [apply respects_get|]. intros c.
  apply respects_bind; [apply respects_settimeout|]. intros _.
  apply respects_bind; [apply respects_sys_connect|]. intros _.
  apply respects_bind.
  { destruct (secure c); [|apply respects_ret].
    apply respects_bind; [apply respects_wrap_socket|]. intros s'.
    apply respects_set__socket. }
  intros _.
  apply respects_bind; [apply respects_the_socket|]. intros f.
  apply respects_bind; [apply respects_set__file|]. intros _.
  apply respects_bind; [apply respects_read_response|]. intros _.
  apply respects_bind; [apply respects_command|]. intros _.
  apply respects_bind; [apply respects_command|]. intros _.
  apply respects_ret.
Qed.

End Frames.

Lemma same_inputs_frame : frame same_inputs.
Proof.
  constructor; unfold same_inputs; cbn; auto.
  intros st1 st2 st3 (A1 & A2) (B1 & B2). split; congruence.
Qed.

Lemma file_events_app (a b : list event) :
  file_events (a ++ b) = (file_events a ++ file_events b)%list.
Proof. apply filter_app. Qed.

Lemma no_file_event_frame : frame no_file_event.
Proof.
  constructor; unfold no_file_event.
  - intros st. exists []. rewrite app_nil_r. auto.
  - intros st1 st2 st3 (e1 & T1 & F1) (e2 & T2 & F2). exists (e1 ++ e2)%list.
    rewrite T2, T1, app_assoc, file_events_app, F1, F2. auto.
  - intros fs st. exists []. cbn. rewrite app_nil_r. auto.
  - intros n st. exists []. cbn. rewrite app_nil_r. auto.
  - intros ls st. exists []. cbn. rewrite app_nil_r. auto.
  - intros c st. exists []. cbn. rewrite app_nil_r. auto.
  - intros e st He. exists [e]. cbn. rewrite He. auto.
Qed.

(** ** A response that never ends *)

(** X1.  When the control stream holds only lines whose 4th character is
    not a space and no call is going to fail, the reading loop does not
    end: whatever the fuel it is run with, it neither returns nor raises,
    and so [_read_response] never returns, in particular at the end of
    the stream. *)
Theorem X1_read_response_never_ends_without_terminator
    (st : state) (f : sock)
    (Hfile : _file (self st) = Some f)
    (Hlines : Forall (fun l => fourth_is_space l = false) (ctrl_in st))
    (Hquiet : Forall (fun x => x = None) (faults st)) :
  (forall n acc, exists st', FTPClient.read_lines n acc st = Diverge st') /\
  (exists st', FTPClient._read_response st = Diverge st').
Proof.
  assert (Hloop : forall n acc st0,
             _file (self st0) = Some f ->
             Forall (fun l => fourth_is_space l = false) (ctrl_in st0) ->
             Forall (fun x => x = None) (faults st0) ->
             exists st', FTPClient.read_lines n acc st0 = Diverge st').
  { clear. induction n as [|n IH]; intros acc st Hf Hl Hq; [exists st; reflexivity|].
    cbn [FTPClient.read_lines].
    rewrite (bind_Ok _ _ _ _ _ (the_file_Some _ _ Hf)).
    assert (Hq' : Forall (fun x => x = None) (faults (pop_fault st))).
    { rewrite pop_fault_faults. destruct (faults st); [constructor|].
      inversion Hq; assumption. }
    assert (Hf' : forall ls, _file (self (set_ctrl_in ls (pop_fault st))) = Some f).
    { intros ls. cbn. destruct (pop_fault_reads_only st) as (Hs & _). rewrite Hs. exact Hf. }
    destruct (readline_cases f st) as [(e & fs & Hfs & _)|(_ & [(l & ls & Hc & Hr)|(Hc & Hr)])].
    - rewrite Hfs in Hq. inversion Hq; discriminate.
    - rewrite (bind_Ok _ _ _ _ _ Hr). fold (strip_eol l). rewrite ends_response_strip.
      rewrite Hc in Hl. inversion Hl as [|? ? Hl1 Hl2]; subst. rewrite Hl1.
      apply IH; [apply Hf' | exact Hl2 | exact Hq'].
    - rewrite (bind_Ok _ _ _ _ _ Hr). cbn [PyStr.rstrip FTPClient.ends_response].
      cbn [String.length Nat.leb andb].
      apply IH; [|rewrite pop_fault_ctrl_in, Hc; constructor | exact Hq'].
      destruct (pop_fault_reads_only st) as (Hs & _). rewrite Hs. exact Hf. }
  split.
  - intros n acc. apply Hloop; assumption.
  - destruct (Hloop (FTPClient.read_fuel st) [] st Hfile Hlines Hquiet) as (st' & H).
    exists st'. unfold FTPClient._read_response. apply bind_Diverge. exact H.
Qed.

Lemma X1_read_response_never_ends_without_terminator_witness :
  exists st', FTPClient._read_response st_unfinished_reply = Diverge st'.
Proof.
  apply (X1_read_response_never_ends_without_terminator st_unfinished_reply 0%nat).
  - reflexivity.
  - repeat constructor.
  - constructor.
Defined.

(** ** A client that was never connected *)

Lemma command_unconnected cmd expect st :
  _socket (self st) = None ->
  FTPClient._command cmd expect st = Raise attribute_error st.
Proof. intros H. rewrite command_unfold, H. reflexivity. Qed.

Lemma data_connection_unconnected st :
  _socket (self st) = None ->
  FTPClient._data_connection st = Raise attribute_error st.
Proof.
  intros H. unfold FTPClient._data_connection, FTPClient._pasv.
  apply bind_Raise, bind_Raise, command_unconnected. exact H.
Qed.

(** X2.  On a client whose [connect] has not run, every operation raises
    [AttributeError] (not [FTPError]) before doing anything: the state and
    the trace are untouched; [close] alone returns normally, also without
    doing anything. *)
Theorem X2_operations_before_connect
    (st : state) (Hnone : _socket (self st) = None) :
  FTPClient.pwd st = Raise attribute_error st /\
  (forall path, FTPClient.cwd path st = Raise attribute_error st) /\
  (forall path, FTPClient.mkd path st = Raise attribute_error st) /\
  (forall path, FTPClient.rmd path st = Raise attribute_error st) /\
  (forall path, FTPClient.delete path st = Raise attribute_error st) /\
  (forall old new, FTPClient.rename old new st = Raise attribute_error st) /\
  (forall path, FTPClient.size path st = Raise attribute_error st) /\
  (forall decode splitlines path,
      FTPClient.list decode splitlines path st = Raise attribute_error st) /\
  (forall remote local, FTPClient.download remote local st = Raise attribute_error st) /\
  (forall local remote, FTPClient.upload local remote st = Raise attribute_error st) /\
  FTPClient.close st = Ok tt st.
Proof.
  repeat split; intros;
    try (apply bind_Raise; first [apply command_unconnected
                                 | apply data_connection_unconnected]; exact Hnone).
  rewrite close_unfold, (command_unconnected _ _ _ Hnone).
  unfold after_close. rewrite Hnone. reflexivity.
Qed.

Lemma X2_operations_before_connect_witness :
  FTPClient.pwd st_fresh = Raise attribute_error st_fresh /\
  FTPClient.close st_fresh = Ok tt st_fresh.
Proof.
  pose proof (X2_operations_before_connect st_fresh eq_refl) as H.
  split; [exact (proj1 H) | exact (proj2 (proj2 (proj2 (proj2 (proj2
            (proj2 (proj2 (proj2 (proj2 (proj2 H))))))))))].
Defined.

(** ** The operations of one command *)

(** X3.  [cwd], [rmd] and [delete] return exactly when the reply to their
    one command carries code 250, [mkd] when it carries 257; any other
    code raises [FTPError] with the expected code, the code received and
    the whole message; an exception or a reply that never ends comes out
    as it is.  In every case the state is the one the exchange of that
    single command left. *)
Theorem X3_simple_operations_check_one_code
    (op : simple_op) (path : string) (st : state) :
  match FTPClient._command (verb op ++ path) None st with
  | Ok (code, msg) st1 =>
      if (code =? expected_code op)%Z
      then run_simple op path st = Ok tt st1
      else run_simple op path st = Raise (unexpected (expected_code op) code msg) st1
  | Raise e st1 => run_simple op path st = Raise e st1
  | Diverge st1 => run_simple op path st = Diverge st1
  end.
Proof.
  assert (H : run_simple op path st =
              match FTPClient._command (verb op ++ path) (Some (expected_code op)) st with
              | Ok _ st1 => Ok tt st1
              | Raise e st1 => Raise e st1
              | Diverge st1 => Diverge st1
              end) by (destruct op; reflexivity).
  rewrite H, (command_expect _ (Some (expected_code op))). clear H.
  destruct (FTPClient._command (verb op ++ path) None st) as [[code msg] st1|e st1|st1];
    try reflexivity.
  unfold FTPClient.mismatch, unexpected, FTPClient.expect_str.
  replace (expected_code op =? 0)%Z with false by (destruct op; reflexivity).
  cbn [negb andb]. destruct (code =? expected_code op)%Z; reflexivity.
Qed.

(** ** pwd *)

Lemma take_until_quote_app (path post : string) :
  no_quote path = true ->
  PyStr.take_until_quote (path ++ QUOTE ++ post) = Some path.
Proof.
  induction path as [|c r IH]; intros H; [reflexivity|].
  cbn in H. apply andb_prop in H as [Hc Hr].
  cbn [append PyStr.take_until_quote].
  destruct (PyStr.ord c =? 34)%nat; [discriminate|].
  rewrite (IH Hr). reflexivity.
Qed.

Lemma take_until_quote_Some (s path : string) :
  PyStr.take_until_quote s = Some path ->
  exists post, no_quote path = true /\ s = path ++ QUOTE ++ post.
Proof.
  revert path. induction s as [|c r IH]; intros path H; [discriminate|].
  cbn [PyStr.take_until_quote] in H.
  destruct (PyStr.ord c =? 34)%nat eqn:Ec.
  - injection H as <-. exists r. split; [reflexivity|].
    apply Nat.eqb_eq in Ec. cbn.
    f_equal. rewrite <- (ascii_nat_embedding c). unfold PyStr.ord in Ec. rewrite Ec.
    reflexivity.
  - destruct (PyStr.take_until_quote r) as [p|]; [|discriminate].
    injection H as <-. destruct (IH p eq_refl) as (post & Hn & ->).
    exists post. split; [|reflexivity]. cbn. unfold no_quote in Hn.
    rewrite Ec, Hn. reflexivity.
Qed.

Lemma quoted_search_app (pre path post : string) :
  no_quote pre = true -> no_quote path = true ->
  PyStr.quoted_search (pre ++ QUOTE ++ path ++ QUOTE ++ post) = Some path.
Proof.
  intros Hpre Hpath. induction pre as [|c r IH].
  - cbn [append QUOTE PyStr.quoted_search]. cbn.
    apply take_until_quote_app. exact Hpath.
  - cbn in Hpre. apply andb_prop in Hpre as [Hc Hr].
    cbn [append PyStr.quoted_search].
    destruct (PyStr.ord c =? 34)%nat; [discriminate|]. apply IH. exact Hr.
Qed.

Lemma quoted_search_Some (s path : string) :
  PyStr.quoted_search s = Some path ->
  exists pre post, s = pre ++ QUOTE ++ path ++ QUOTE ++ post.
Proof.
  induction s as [|c r IH]; intros H; [discriminate|].
  cbn [PyStr.quoted_search] in H.
  destruct (PyStr.ord c =? 34)%nat eqn:Ec.
  - apply take_until_quote_Some in H as (post & _ & ->).
    exists EmptyString, post. apply Nat.eqb_eq in Ec. cbn. f_equal.
    rewrite <- (ascii_nat_embedding c). unfold PyStr.ord in Ec. rewrite Ec. reflexivity.
  - destruct (IH H) as (pre & post & ->). exists (String c pre), post. reflexivity.
Qed.

(** X4.  Once the server has replied to PWD, [pwd] returns whatever the
    code of the reply: the text between the first double quote of the
    message and the next one when the message holds two double quotes,
    and the empty string when it does not; it never raises on a reply
    without a quoted path. *)
Theorem X4_pwd_returns_first_quoted_text
    (st st1 : state) (code : Z) (msg : string)
    (Hreply : FTPClient._command "PWD" None st = Ok (code, msg) st1) :
  (forall pre path post,
      no_quote pre = true -> no_quote path = true ->
      msg = pre ++ QUOTE ++ path ++ QUOTE ++ post ->
      FTPClient.pwd st = Ok path st1) /\
  ((forall pre path post, msg <> pre ++ QUOTE ++ path ++ QUOTE ++ post) ->
   FTPClient.pwd st = Ok EmptyString st1) /\
  (exists path, FTPClient.pwd st = Ok path st1).
Proof.
  assert (H : FTPClient.pwd st =
              match PyStr.quoted_search msg with
              | Some path => Ok path st1
              | None => Ok EmptyString st1
              end).
  { unfold FTPClient.pwd. rewrite (bind_Ok _ _ _ _ _ Hreply).
    destruct (PyStr.quoted_search msg); reflexivity. }
  rewrite H. split; [|split].
  - intros pre path post Hpre Hpath ->. rewrite quoted_search_app by assumption.
    reflexivity.
  - intros Hno. destruct (PyStr.quoted_search msg) as [p|] eqn:E; [|reflexivity].
    apply quoted_search_Some in E as (pre & post & E). exfalso. exact (Hno _ _ _ E).
  - destruct (PyStr.quoted_search msg) as [p|]; eexists; reflexivity.
Qed.

Lemma X4_pwd_returns_first_quoted_text_witness :
  FTPClient.pwd (st_replies [("257 " ++ QUOTE ++ "/home/user" ++ QUOTE ++ " is current") ++ LF])
  = Ok "/home/user"
       (log (EvSendall 0 ("PWD" ++ CRLF)) (connected example_config 0 [] [] [])).
Proof.
  apply (proj1 (X4_pwd_returns_first_quoted_text
                  (st_replies [("257 " ++ QUOTE ++ "/home/user" ++ QUOTE ++ " is current") ++ LF])
                  _ 257%Z ("257 " ++ QUOTE ++ "/home/user" ++ QUOTE ++ " is current") eq_refl)
           "257 " "/home/user" " is current").
  - reflexivity.
  - reflexivity.
  - reflexivity.
Defined.

(** ** What [int] needs *)

Lemma int_unfold (s : string) :
  PyStr.int s =
  match PyStr.rstrip PyStr.int_space (PyStr.lstrip PyStr.int_space s) with
  | EmptyString => None
  | String c r =>
      if Ascii.eqb c "+" then PyStr.int_unsigned r
      else if Ascii.eqb c "-" then option_map Z.opp (PyStr.int_unsigned r)
      else PyStr.int_unsigned (String c r)
  end.
Proof.
  unfold PyStr.int.
  destruct (PyStr.rstrip PyStr.int_space (PyStr.lstrip PyStr.int_space s)) as [|c r];
    [reflexivity|].
  destruct c as [[] [] [] [] [] [] [] []]; reflexivity.
Qed.

Lemma existsb_lstrip (p q : ascii -> bool) (s : string) :
  existsb_str q (PyStr.lstrip p s) = true -> existsb_str q s = true.
Proof.
  induction s as [|c r IH]; intros H; [exact H|].
  cbn [PyStr.lstrip] in H. destruct (p c); [|exact H].
  cbn. rewrite (IH H). apply orb_true_r.
Qed.

Lemma existsb_rstrip (p q : ascii -> bool) (s : string) :
  existsb_str q (PyStr.rstrip p s) = true -> existsb_str q s = true.
Proof.
  induction s as [|c r IH]; intros H; [exact H|].
  cbn [PyStr.rstrip] in H.
  destruct (PyStr.is_empty (PyStr.rstrip p r) && p c); [discriminate|].
  cbn in *. destruct (q c); [reflexivity|]. apply IH. exact H.
Qed.

Lemma int_unsigned_has_decimal (s : string) (n : Z) :
  PyStr.int_unsigned s = Some n -> has_decimal s = true.
Proof.
  unfold PyStr.int_unsigned.
  destruct (PyStr.count_decimals s <=? PyStr.int_max_str_digits)%N; [|discriminate].
  destruct s as [|c r]; [discriminate|]. cbn.
  destruct (PyStr.isdecimal c); [reflexivity | discriminate].
Qed.

(** A string that [int] accepts holds a decimal digit. *)
Lemma int_has_decimal (s : string) (n : Z) :
  PyStr.int s = Some n -> has_decimal s = true.
Proof.
  rewrite int_unfold. intros H.
  apply (existsb_lstrip PyStr.int_space), (existsb_rstrip PyStr.int_space).
  destruct (PyStr.rstrip _ _) as [|c r]; [discriminate|].
  destruct (Ascii.eqb c "+").
  { apply int_unsigned_has_decimal in H. cbn. unfold has_decimal in H. rewrite H.
    apply orb_true_r. }
  destruct (Ascii.eqb c "-").
  { destruct (PyStr.int_unsigned r) as [m|] eqn:E; [|discriminate].
    apply int_unsigned_has_decimal in E. cbn. unfold has_decimal in E. rewrite E.
    apply orb_true_r. }
  exact (int_unsigned_has_decimal _ _ H).
Qed.

Lemma slice_strip_terminator (term : string) :
  fourth_is_space term = true ->
  PyStr.slice_to 3 (strip_eol term) = PyStr.slice_to 3 term.
Proof.
  unfold fourth_is_space. intros H.
  destruct term as [|a [|b [|c [|d t]]]]; try discriminate.
  cbn in H. apply Ascii.eqb_eq in H. subst d.
  unfold strip_eol.
  assert (Hsp : PyStr.rstrip PyStr.is_cr_or_lf (String " " t)
                = String " " (PyStr.rstrip PyStr.is_cr_or_lf t))
    by (apply rstrip_cons_keep; reflexivity).
  cbn [PyStr.rstrip] in *. rewrite Hsp. reflexivity.
Qed.

(** ** A reply without a number *)

(** X5.  When the line that ends a response has no decimal digit among its
    first three characters, [_read_response] raises [ValueError], after
    consuming the response up to and including that line: a reply without
    a numeric code is not reported as an [FTPError]. *)
Theorem X5_read_response_raises_ValueError_without_code
    (st : state) (f : sock) (conts : list string) (term : string)
    (rest : list string)
    (Hfile : _file (self st) = Some f)
    (Hin : ctrl_in st = (conts ++ term :: rest)%list)
    (Hquiet : no_fault (S (List.length conts)) (faults st) = true)
    (Hconts : Forall (fun l => fourth_is_space l = false) conts)
    (Hterm : fourth_is_space term = true)
    (Hcode : has_decimal (PyStr.slice_to 3 term) = false) :
  exists st',
    FTPClient._read_response st = Raise value_error st' /\
    ctrl_in st' = rest /\ reads_only st st'.
Proof.
  destruct (read_response_ok st f conts term rest Hfile Hin Hquiet Hconts Hterm)
    as (st' & Hrun & Hrest & _ & Hro).
  exists st'. split; [|split; assumption].
  rewrite Hrun. unfold response_of.
  rewrite map_app. cbn [map]. rewrite last_last, slice_strip_terminator by exact Hterm.
  destruct (PyStr.int (PyStr.slice_to 3 term)) as [n|] eqn:E; [|reflexivity].
  apply int_has_decimal in E. congruence.
Qed.

Lemma X5_read_response_raises_ValueError_without_code_witness :
  exists st',
    FTPClient._read_response (st_replies ["OK. ready" ++ LF]) = Raise value_error st' /\
    ctrl_in st' = [] /\ reads_only (st_replies ["OK. ready" ++ LF]) st'.
Proof.
  apply (X5_read_response_raises_ValueError_without_code
           (st_replies ["OK. ready" ++ LF]) 0%nat [] ("OK. ready" ++ LF) []).
  - reflexivity.
  - reflexivity.
  - reflexivity.
  - constructor.
  - reflexivity.
  - reflexivity.
Defined.

(** ** The fields of a reply *)

Lemma existsb_app_l (q : ascii -> bool) (a b : string) :
  existsb_str q a = true -> existsb_str q (a ++ b) = true.
Proof.
  induction a as [|c r IH]; intros H; [discriminate|].
  cbn in *. destruct (q c); [reflexivity | apply IH; exact H].
Qed.

Lemma existsb_app_r (q : ascii -> bool) (a b : string) :
  existsb_str q b = true -> existsb_str q (a ++ b) = true.
Proof.
  intros H. induction a as [|c r IH]; [exact H|].
  cbn. rewrite IH. apply orb_true_r.
Qed.

Lemma existsb_slice (q : ascii -> bool) (n : nat) :
  forall s, existsb_str q (PyStr.slice_to n s) = true -> existsb_str q s = true.
Proof.
  unfold PyStr.slice_to.
  induction n as [|n IH]; intros s H; destruct s as [|c r]; try discriminate.
  cbn in *. destruct (q c); [reflexivity | apply IH; exact H].
Qed.

Lemma existsb_join_last (q : ascii -> bool) (sep : string) (lines : list string) :
  existsb_str q (last lines EmptyString) = true ->
  existsb_str q (PyStr.join sep lines) = true.
Proof.
  unfold PyStr.join.
  induction lines as [|x [|y r] IH]; intros H; [discriminate | exact H |].
  change (String.concat sep (x :: y :: r))
    with (x ++ sep ++ String.concat sep (y :: r)).
  apply existsb_app_r, existsb_app_r, IH. exact H.
Qed.

Lemma existsb_impl (p q : ascii -> bool) (s : string) :
  (forall c, p c = true -> q c = true) ->
  existsb_str p s = true -> existsb_str q s = true.
Proof.
  intros Hpq. induction s as [|c r IH]; intros H; [discriminate|].
  cbn in *. destruct (p c) eqn:E; [rewrite (Hpq _ E); reflexivity|].
  rewrite (IH H). apply orb_true_r.
Qed.

Lemma lstrip_word (s : string) :
  has_word s = true -> PyStr.is_empty (PyStr.lstrip PyStr.isspace s) = false.
Proof.
  unfold has_word. induction s as [|c r IH]; intros H; [discriminate|].
  cbn in *. destruct (PyStr.isspace c); [apply IH; exact H | reflexivity].
Qed.

(** A string with a character that is not white space has a field. *)
Lemma split_word (s : string) : has_word s = true -> PyStr.split s <> [].
Proof.
  intros H. unfold PyStr.split.
  assert (G : forall n, PyStr.split_ws n s <> []).
  { intros n. destruct n; cbn [PyStr.split_ws]; rewrite (lstrip_word _ H);
      [discriminate|].
    destruct (PyStr.take_word _). discriminate. }
  apply G.
Qed.

Lemma read_response_Ok_inv (st st' : state) (code : Z) (msg : string) :
  FTPClient._read_response st = Ok (code, msg) st' ->
  exists lines,
    msg = PyStr.join LF lines /\
    PyStr.int (PyStr.slice_to 3 (last lines EmptyString)) = Some code.
Proof.
  unfold FTPClient._read_response. intros H.
  apply bind_Ok_inv in H as (lines & st1 & _ & H).
  exists lines. destruct (PyStr.int _) as [n|]; [|discriminate].
  unfold ret in H. injection H as -> -> _. auto.
Qed.

(** The message of a reply always has a field: its last line starts with
    what [int] read the code from. *)
Lemma command_message_has_word cmd expect st code msg st' :
  FTPClient._command cmd expect st = Ok (code, msg) st' -> has_word msg = true.
Proof.
  intros H. rewrite command_unfold in H.
  destruct (_socket (self st)) as [s|]; [|discriminate].
  assert (G : forall st0, match FTPClient._read_response st0 with
                          | Ok (c, m) st1 =>
                              if FTPClient.mismatch expect c
                              then Raise (FTPError ("Expected " ++ FTPClient.expect_str expect
                                                    ++ ", got " ++ PyStr.str_of_int c ++ ": " ++ m)) st1
                              else Ok (c, m) st1
                          | Raise e st1 => Raise e st1
                          | Diverge st1 => Diverge st1
                          end = Ok (code, msg) st' -> has_word msg = true).
  { intros st0 H0.
    destruct (FTPClient._read_response st0) as [[c m] st1|e st1|st1] eqn:E; try discriminate.
    destruct (FTPClient.mismatch expect c); [discriminate|].
    injection H0 as -> -> _.
    apply read_response_Ok_inv in E as (lines & -> & Hint).
    apply int_has_decimal in Hint. unfold has_word.
    apply existsb_join_last.
    apply (existsb_impl PyStr.isdecimal).
    - intros a Ha. rewrite (decimal_not_space _ Ha). reflexivity.
    - apply (existsb_slice _ 3). exact Hint. }
  destruct (faults st) as [|[e|] fs]; [apply (G _ H) | discriminate | apply (G _ H)].
Qed.

(** ** size, when the reply is 213 *)

(** X6.  After a 213 reply [size] never raises [IndexError]: the message
    always has a last field; [size] returns what [int] reads in that field
    and raises [ValueError] when [int] rejects it. *)
Theorem X6_size_raises_only_ValueError
    (path : string) (st st1 : state) (msg : string)
    (Hreply : FTPClient._command ("SIZE " ++ path) None st = Ok (213%Z, msg) st1) :
  exists tok,
    FTPClient.last_item (PyStr.split msg) = Returns tok /\
    FTPClient.size path st =
    match PyStr.int tok with
    | Some n => Ok n st1
    | None => Raise value_error st1
    end.
Proof.
  pose proof (split_word _ (command_message_has_word _ _ _ _ _ _ Hreply)) as Hne.
  assert (Hlast : exists tok, FTPClient.last_item (PyStr.split msg) = Returns tok).
  { unfold FTPClient.last_item. destruct (rev (PyStr.split msg)) as [|x r] eqn:E.
    - exfalso. apply Hne. rewrite <- (rev_involutive (PyStr.split msg)), E. reflexivity.
    - exists x. reflexivity. }
  destruct Hlast as (tok & Htok). exists tok. split; [exact Htok|].
  unfold FTPClient.size. rewrite (bind_Ok _ _ _ _ _ Hreply). cbn [Z.eqb Pos.eqb].
  unfold bind. rewrite Htok. cbn [lift ret]. unfold FTPClient.int_of, value_error.
  destruct (PyStr.int tok); reflexivity.
Qed.

Lemma X6_size_raises_only_ValueError_witness :
  exists tok,
    FTPClient.last_item (PyStr.split "213 1024 bytes") = Returns tok /\
    FTPClient.size "a.txt" (st_replies ["213 1024 bytes" ++ LF]) =
    match PyStr.int tok with
    | Some n => Ok n (log (EvSendall 0 ("SIZE a.txt" ++ CRLF))
                          (connected example_config 0 [] [] []))
    | None => Raise value_error (log (EvSendall 0 ("SIZE a.txt" ++ CRLF))
                                     (connected example_config 0 [] [] []))
    end.
Proof.
  apply (X6_size_raises_only_ValueError "a.txt" (st_replies ["213 1024 bytes" ++ LF])).
  reflexivity.
Defined.

(** ** The size field of a listing line *)

Lemma digit_not_int_space (c : ascii) :
  PyStr.isdigit_char c = true -> PyStr.int_space c = false.
Proof. ascii_cases c. Qed.

Lemma digit_not_sign (c : ascii) :
  PyStr.isdigit_char c = true -> Ascii.eqb c "+" = false /\ Ascii.eqb c "-" = false.
Proof. destruct c as [[] [] [] [] [] [] [] []]; try discriminate; split; reflexivity. Qed.

Lemma digit_not_underscore (c : ascii) :
  PyStr.isdigit_char c = true -> (PyStr.ord c =? 95)%nat = false.
Proof. ascii_cases c. Qed.

Lemma int_digits_isdigit (s : string) :
  forall acc,
    PyStr.forallb_str PyStr.isdigit_char s = true ->
    PyStr.int_digits acc s
    = if all_decimal s then Some (decimal_acc acc s) else None.
Proof.
  induction s as [|c r IH]; intros acc H; [reflexivity|].
  cbn in H. apply andb_prop in H as [Hc Hr].
  cbn [PyStr.int_digits all_decimal PyStr.forallb_str decimal_acc].
  destruct (PyStr.isdecimal c); cbn [andb].
  - apply IH. exact Hr.
  - rewrite (digit_not_underscore _ Hc). reflexivity.
Qed.

Lemma digit_val_nonneg (c : ascii) : PyStr.isdecimal c = true -> (0 <= PyStr.digit_val c)%Z.
Proof.
  unfold PyStr.isdecimal, PyStr.between, PyStr.digit_val. intros H.
  apply andb_prop in H as [H _]. apply Nat.leb_le in H. lia.
Qed.

Lemma decimal_acc_nonneg (s : string) :
  forall acc, (0 <= acc)%Z -> all_decimal s = true -> (0 <= decimal_acc acc s)%Z.
Proof.
  induction s as [|c r IH]; intros acc Hacc H; [exact Hacc|].
  cbn in H. apply andb_prop in H as [Hc Hr]. cbn [decimal_acc].
  apply IH; [|exact Hr]. pose proof (digit_val_nonneg _ Hc). lia.
Qed.

Lemma int_literal_isdigit (s : string) :
  PyStr.isdigit s = true ->
  PyStr.int_literal s = if all_decimal s then Some (decimal_value s) else None.
Proof.
  unfold PyStr.isdigit. intros H. apply andb_prop in H as [Hne Hall].
  destruct s as [|c r]; [discriminate|].
  cbn in Hall. apply andb_prop in Hall as [Hc Hr].
  cbn [PyStr.int_literal all_decimal PyStr.forallb_str].
  destruct (PyStr.isdecimal c); cbn [andb]; [|reflexivity].
  rewrite (int_digits_isdigit r _ Hr). unfold decimal_value. cbn [decimal_acc].
  reflexivity.
Qed.

(** On a string that passes [isdigit], [int] returns the number written
    when all characters are decimal digits and there are at most
    [int_max_str_digits] of them, and fails otherwise. *)
Lemma int_isdigit (s : string) :
  PyStr.isdigit s = true ->
  PyStr.int s = if all_decimal s && short_number s
                then Some (decimal_value s) else None.
Proof.
  intros Hd. pose proof Hd as H.
  unfold PyStr.isdigit in H. apply andb_prop in H as [Hne Hall].
  destruct s as [|c r]; [discriminate|].
  pose proof Hall as Hall'. cbn in Hall'. apply andb_prop in Hall' as [Hc Hr].
  rewrite int_unfold.
  assert (Hl : PyStr.lstrip PyStr.int_space (String c r) = String c r).
  { cbn. rewrite (digit_not_int_space _ Hc). reflexivity. }
  rewrite Hl, rstrip_id.
  2:{ apply (forallb_str_impl PyStr.isdigit_char); [|exact Hall].
      intros a Ha. rewrite (digit_not_int_space _ Ha). reflexivity. }
  destruct (digit_not_sign _ Hc) as [H1 H2]. rewrite H1, H2.
  destruct (all_decimal (String c r)) eqn:Ea; cbn [andb].
  - rewrite (int_unsigned_decimal _ Ea), (int_literal_isdigit _ Hd), Ea.
    reflexivity.
  - unfold PyStr.int_unsigned. rewrite (int_literal_isdigit _ Hd), Ea.
    destruct (_ <=? _)%N; reflexivity.
Qed.

(** A string that passes [isdigit] has no sign: what [int] makes of it is
    not negative. *)
Lemma int_isdigit_nonneg (s : string) (n : Z) :
  PyStr.isdigit s = true -> PyStr.int s = Some n -> (0 <= n)%Z.
Proof.
  intros Hd. rewrite (int_isdigit _ Hd).
  destruct (all_decimal s) eqn:Ea; [|discriminate].
  destruct (short_number s); [|discriminate].
  cbn [andb]. intros H. injection H as <-.
  apply decimal_acc_nonneg; [lia | exact Ea].
Qed.

Lemma parse_list_line_unfold (line : string) :
  FTPClient._parse_list_line line =
  let parts := PyStr.split_ws 8 line in
  let p0 := nth 0 parts EmptyString in
  let p4 := nth 4 parts EmptyString in
  let entry sz := mkFTPEntry (nth 8 parts EmptyString) sz None
                             (PyStr.startswith "d" p0) p0 line in
  if PyStr.is_empty line then Returns None
  else if (List.length parts <? 9)%nat then
    Returns (Some (mkFTPEntry line 0 None false EmptyString line))
  else if PyStr.isdigit p4 then
    match PyStr.int p4 with
    | Some n => Returns (Some (entry n))
    | None => Raises value_error
    end
  else Returns (Some (entry 0%Z)).
Proof.
  unfold FTPClient._parse_list_line. cbv zeta.
  destruct (PyStr.is_empty line); [reflexivity|].
  destruct (List.length (PyStr.split_ws 8 line) <? 9)%nat; [reflexivity|].
  destruct (PyStr.isdigit (nth 4 (PyStr.split_ws 8 line) EmptyString)) eqn:E;
    [|reflexivity].
  unfold FTPClient.int_of. destruct (PyStr.int _); reflexivity.
Qed.

(** X7.  [_parse_list_line] returns no entry exactly for the empty line.
    An entry it returns carries the line as [raw], a size that is not
    negative and no modification time.  It raises exactly when the line
    has 9 fields and field 4 passes [isdigit] and is refused by [int], and
    the exception is then [ValueError]. *)
Theorem X7_parse_list_line_outcomes (line : string) :
  (FTPClient._parse_list_line line = Returns None <-> line = EmptyString) /\
  (forall e,
      FTPClient._parse_list_line line = Returns (Some e) ->
      raw e = line /\ (0 <= size e)%Z /\ modified e = None /\ line <> EmptyString) /\
  (forall x,
      FTPClient._parse_list_line line = Raises x <->
      x = value_error /\
      List.length (PyStr.split_ws 8 line) = 9%nat /\
      PyStr.isdigit (nth 4 (PyStr.split_ws 8 line) EmptyString) = true /\
      PyStr.int (nth 4 (PyStr.split_ws 8 line) EmptyString) = None).
Proof.
  rewrite parse_list_line_unfold. cbv zeta.
  pose proof (split_ws_length 8 line) as Hle.
  destruct line as [|c r].
  { split; [split; reflexivity|]. split; [discriminate|].
    intros x. split; [discriminate|]. intros (_ & H & _). discriminate. }
  cbn [PyStr.is_empty].
  set (parts := PyStr.split_ws 8 (String c r)) in *.
  destruct (List.length parts <? 9)%nat eqn:El.
  { apply Nat.ltb_lt in El.
    split; [split; discriminate|]. split.
    - intros e H. injection H as <-. cbn. repeat split; try lia; discriminate.
    - intros x. split; [discriminate|]. intros (_ & H & _). lia. }
  apply Nat.ltb_ge in El.
  destruct (PyStr.isdigit (nth 4 parts EmptyString)) eqn:Ed.
  - destruct (PyStr.int (nth 4 parts EmptyString)) as [n|] eqn:Ei.
    + split; [split; discriminate|]. split.
      * intros e H. injection H as <-. cbn. repeat split; try discriminate.
        exact (int_isdigit_nonneg _ _ Ed Ei).
      * intros x. split; [discriminate|]. intros (_ & _ & _ & H). discriminate.
    + split; [split; discriminate|]. split; [discriminate|].
      intros x. split.
      * intros H. injection H as <-. repeat split. lia.
      * intros (-> & _). reflexivity.
  - split; [split; discriminate|]. split.
    + intros e H. injection H as <-. cbn. repeat split; try lia; discriminate.
    + intros x. split; [discriminate|]. intros (_ & _ & H & _). discriminate.
Qed.

(** ** The transfer loops, chunk by chunk *)

Lemma is_nil_true {A} (xs : list A) : FTPClient.is_nil xs = true -> xs = [].
Proof. destruct xs; [reflexivity | discriminate]. Qed.

Lemma is_nil_false {A} (xs : list A) : FTPClient.is_nil xs = false -> xs <> [].
Proof. destruct xs; [discriminate | discriminate]. Qed.

Lemma pop_fault_inputs st : same_inputs st (pop_fault st).
Proof. destruct (pop_fault_reads_only st) as (_ & _ & _ & H1 & H2). split; assumption. Qed.

(** An output call that returns has logged its event after taking its
    entry of [faults]. *)
Lemma emit_Ok (e : event) st u st1 :
  fallible (emit e) st = Ok u st1 -> st1 = log e (pop_fault st).
Proof.
  intros H. apply fallible_Ok in H. unfold emit, modify in H.
  injection H as _ <-. reflexivity.
Qed.

(** A [recv] that returns has taken the next chunk, or found the end of
    the stream. *)
Lemma recv_Ok_cases (s : sock) st chunk st1 :
  Sys.recv s st = Ok chunk st1 ->
  emits [] st st1 /\ file_in st1 = file_in st /\
  ((exists ds, data_in st = chunk :: ds /\ data_in st1 = ds) \/
   (data_in st = [] /\ chunk = [] /\ data_in st1 = [])).
Proof.
  intros H. pose proof (recv_Ok _ _ _ _ H) as He.
  destruct (pop_fault_inputs st) as (Hd & Hf).
  destruct (recv_cases s st) as [(e & st2 & Hr)|[(d & ds & Hin & Hr)|(Hin & Hr)]];
    rewrite Hr in H; try discriminate; injection H as <- <-.
  - split; [exact He|]. split; [cbn; exact Hf|]. left. exists ds. auto.
  - split; [exact He|]. split; [exact Hf|]. right. rewrite Hd. auto.
Qed.

Lemma read_Ok_cases (f : handle) st chunk st1 :
  Sys.read f st = Ok chunk st1 ->
  emits [] st st1 /\ data_in st1 = data_in st /\
  ((exists ds, file_in st = chunk :: ds /\ file_in st1 = ds) \/
   (file_in st = [] /\ chunk = [] /\ file_in st1 = [])).
Proof.
  intros H. pose proof (read_Ok _ _ _ _ H) as He.
  destruct (pop_fault_inputs st) as (Hd & Hf).
  destruct (read_cases f st) as [(e & st2 & Hr)|[(d & ds & Hin & Hr)|(Hin & Hr)]];
    rewrite Hr in H; try discriminate; injection H as <- <-.
  - split; [exact He|]. split; [cbn; exact Hd|]. left. exists ds. auto.
  - split; [exact He|]. split; [exact Hd|]. right. rewrite Hf. auto.
Qed.

Lemma consumed_nil_eof : consumed [] [].
Proof. exists []. repeat split. constructor. Qed.

Lemma consumed_nil_marker (ds : list bytes) : consumed ([] :: ds) [].
Proof. exists ([] :: ds). repeat split. constructor. Qed.

Lemma consumed_cons (d : bytes) (ds chunks : list bytes) :
  d <> [] -> consumed ds chunks -> consumed (d :: ds) (d :: chunks).
Proof.
  intros Hd (tail & -> & Hall & Hhd). exists tail. repeat split; auto.
Qed.

(** When the receiving loop of [download] returns, it has written to the
    file the chunks it took from the data connection, in order, and added
    their lengths to the count. *)
Lemma recv_to_file_Ok_exact (n : nat) :
  forall s f total st r st',
    FTPClient.recv_to_file n s f total st = Ok r st' ->
    exists chunks,
      emits (map (EvWrite f) chunks) st st' /\
      r = (total + Z.of_nat (List.length (concat chunks)))%Z /\
      consumed (data_in st) chunks.
Proof.
  induction n as [|n IH]; intros s f total st r st' H; [discriminate|].
  cbn [FTPClient.recv_to_file] in H.
  apply bind_Ok_inv in H as (chunk & st1 & Hr & H).
  apply recv_Ok_cases in Hr as (He & _ & Hcases).
  destruct (FTPClient.is_nil chunk) eqn:En.
  - apply is_nil_true in En. subst chunk. unfold ret in H. injection H as <- <-.
    exists []. split; [exact He|]. split; [cbn; lia|].
    destruct Hcases as [(ds & Hin & _)|(Hin & _)]; rewrite Hin;
      [apply consumed_nil_marker | apply consumed_nil_eof].
  - apply is_nil_false in En.
    destruct Hcases as [(ds & Hin & Hin1)|(_ & Hc & _)]; [|contradiction].
    apply bind_Ok_inv in H as (u & st2 & Hw & H).
    pose proof (write_Ok _ _ _ _ _ Hw) as Hew.
    unfold Sys.write in Hw. apply emit_Ok in Hw.
    assert (Hd2 : data_in st2 = ds).
    { subst st2. cbn. destruct (pop_fault_inputs st1) as (A & _). congruence. }
    apply IH in H as (chunks & Hrest & -> & Hcons).
    exists (chunk :: chunks). split; [|split].
    + exact (emits_trans _ _ _ _ _ He (emits_trans _ _ _ _ _ Hew Hrest)).
    + cbn [concat]. rewrite length_app. lia.
    + rewrite Hin. apply consumed_cons; [exact En|]. rewrite <- Hd2. exact Hcons.
Qed.

(** The same for the sending loop of [upload], from the local file to the
    data connection. *)
Lemma send_from_file_Ok_exact (n : nat) :
  forall s f total st r st',
    FTPClient.send_from_file n s f total st = Ok r st' ->
    exists chunks,
      emits (map (EvSendBytes s) chunks) st st' /\
      r = (total + Z.of_nat (List.length (concat chunks)))%Z /\
      consumed (file_in st) chunks.
Proof.
  induction n as [|n IH]; intros s f total st r st' H; [discriminate|].
  cbn [FTPClient.send_from_file] in H.
  apply bind_Ok_inv in H as (chunk & st1 & Hr & H).
  apply read_Ok_cases in Hr as (He & _ & Hcases).
  destruct (FTPClient.is_nil chunk) eqn:En.
  - apply is_nil_true in En. subst chunk. unfold ret in H. injection H as <- <-.
    exists []. split; [exact He|]. split; [cbn; lia|].
    destruct Hcases as [(ds & Hin & _)|(Hin & _)]; rewrite Hin;
      [apply consumed_nil_marker | apply consumed_nil_eof].
  - apply is_nil_false in En.
    destruct Hcases as [(ds & Hin & Hin1)|(_ & Hc & _)]; [|contradiction].
    apply bind_Ok_inv in H as (u & st2 & Hw & H).
    pose proof (sendall_bytes_Ok _ _ _ _ _ Hw) as Hew.
    unfold Sys.sendall_bytes in Hw. apply emit_Ok in Hw.
    assert (Hd2 : file_in st2 = ds).
    { subst st2. cbn. destruct (pop_fault_inputs st1) as (_ & A). congruence. }
    apply IH in H as (chunks & Hrest & -> & Hcons).
    exists (chunk :: chunks). split; [|split].
    + exact (emits_trans _ _ _ _ _ He (emits_trans _ _ _ _ _ Hew Hrest)).
    + cbn [concat]. rewrite length_app. lia.
    + rewrite Hin. apply consumed_cons; [exact En|]. rewrite <- Hd2. exact Hcons.
Qed.

(** The receiving loop of [list] returns the chunks it took, put end to
    end after what it was given. *)
Lemma recv_all_Ok_exact (n : nat) :
  forall s data st r st',
    FTPClient.recv_all n s data st = Ok r st' ->
    exists chunks,
      emits [] st st' /\ r = (data ++ concat chunks)%list /\
      consumed (data_in st) chunks.
Proof.
  induction n as [|n IH]; intros s data st r st' H; [discriminate|].
  cbn [FTPClient.recv_all] in H.
  apply bind_Ok_inv in H as (chunk & st1 & Hr & H).
  apply recv_Ok_cases in Hr as (He & _ & Hcases).
  destruct (FTPClient.is_nil chunk) eqn:En.
  - apply is_nil_true in En. subst chunk. unfold ret in H. injection H as <- <-.
    exists []. split; [exact He|]. split; [cbn; rewrite app_nil_r; reflexivity|].
    destruct Hcases as [(ds & Hin & _)|(Hin & _)]; rewrite Hin;
      [apply consumed_nil_marker | apply consumed_nil_eof].
  - apply is_nil_false in En.
    destruct Hcases as [(ds & Hin & Hin1)|(_ & Hc & _)]; [|contradiction].
    apply IH in H as (chunks & Hrest & -> & Hcons).
    exists (chunk :: chunks). split; [|split].
    + exact (emits_trans _ _ _ _ _ He Hrest).
    + cbn [concat]. rewrite app_assoc. reflexivity.
    + rewrite Hin. apply consumed_cons; [exact En|]. rewrite <- Hin1. exact Hcons.
Qed.

(** ** download, upload and list, when they return *)

Lemma same_inputs_Ok {A} (m : M A) st a st1 :
  respects same_inputs m -> m st = Ok a st1 -> same_inputs st st1.
Proof. intros Hm H. specialize (Hm st). rewrite H in Hm. exact Hm. Qed.

Lemma same_inputs_trans st1 st2 st3 :
  same_inputs st1 st2 -> same_inputs st2 st3 -> same_inputs st1 st3.
Proof. apply (fr_trans _ same_inputs_frame). Qed.

Lemma with_open_Ok_inv {A} path mode (body : handle -> M A) st a st' :
  Sys.with_open path mode body st = Ok a st' ->
  exists f st1 st2,
    emits [EvOpen f path mode] st st1 /\ same_inputs st st1 /\
    body f st1 = Ok a st2 /\ emits [EvFileClose f] st2 st'.
Proof.
  intros H. unfold Sys.with_open in H.
  apply bind_Ok_inv in H as (f & st1 & Ho & H).
  apply finally_Ok_inv in H as (st2 & u & Hb & Hc).
  exists f, st1, st2. split; [exact (open_Ok _ _ _ _ _ Ho)|].
  split; [|split; [exact Hb | exact (fclose_Ok _ _ _ _ Hc)]].
  unfold Sys.open in Ho. apply fallible_Ok in Ho.
  unfold bind, fresh, emit, modify, ret in Ho. injection Ho as _ <-.
  destruct (pop_fault_inputs st) as (A1 & A2). split; cbn; assumption.
Qed.

Lemma command_Ok_step cmd expect st r st' :
  FTPClient._command cmd expect st = Ok r st' ->
  exists s, _socket (self st) = Some s /\
            emits [EvSendall s (cmd ++ CRLF)] st st' /\ same_inputs st st'.
Proof.
  destruct r as [code msg]. intros H.
  destruct (command_Ok _ _ _ _ _ _ H) as (s & Hs & He & _).
  exists s. split; [exact Hs|]. split; [exact He|].
  exact (same_inputs_Ok _ _ _ _ (respects_command _ same_inputs_frame cmd expect) H).
Qed.

Lemma data_connection_Ok_step st d st1 :
  FTPClient._data_connection st = Ok d st1 ->
  self st1 = self st /\ same_inputs st st1.
Proof.
  intros H. split.
  - destruct (data_connection_Ok _ _ _ H) as (st0 & ph & pp & raw & Hp & (Hs & _) & _).
    destruct (pasv_Ok _ _ _ Hp) as (s & _ & (Hs0 & _)). congruence.
  - exact (same_inputs_Ok _ _ _ _ (respects_data_connection _ same_inputs_frame) H).
Qed.

(** X8.  When [download] returns, what it did after opening the data
    connection is exactly: send TYPE I, send RETR with the remote path,
    open the local path for binary writing, write to it the chunks
    received on the data connection up to its end, in order, close the
    file, close the data connection.  The value returned is the number of
    bytes written. *)
Theorem X8_download_writes_what_it_receives
    (remote local : string) (st st' : state) (total : Z)
    (Hrun : FTPClient.download remote local st = Ok total st') :
  exists d st1 ctl f chunks,
    FTPClient._data_connection st = Ok d st1 /\
    _socket (self st) = Some ctl /\
    trace st' = (trace st1
                 ++ [EvSendall ctl ("TYPE I" ++ CRLF);
                     EvSendall ctl (("RETR " ++ remote) ++ CRLF)]
                 ++ file_session f local "wb" chunks
                 ++ [EvSockClose d])%list /\
    total = Z.of_nat (List.length (concat chunks)) /\
    consumed (data_in st) chunks.
Proof.
  unfold FTPClient.download in Hrun.
  apply bind_Ok_inv in Hrun as (d & st1 & Hd & H).
  apply bind_Ok_inv in H as (r2 & st2 & H2 & H).
  apply bind_Ok_inv in H as (r3 & st3 & H3 & H).
  apply bind_Ok_inv in H as (fuel & st4 & H4 & H).
  apply bind_Ok_inv in H as (tot & st5 & H5 & H).
  apply bind_Ok_inv in H as (u6 & st6 & H6 & H).
  apply bind_Ok_inv in H as (r7 & st7 & H7 & H).
  unfold ret in H. injection H as <- <-.
  unfold get in H4. injection H4 as _ <-.
  destruct (data_connection_Ok_step _ _ _ Hd) as (Hs1 & Hi1).
  apply command_Ok_step in H2 as (ctl & Hctl & (Hs2 & Ht2) & Hi2).
  apply command_Ok_step in H3 as (ctl' & Hctl' & (Hs3 & Ht3) & Hi3).
  apply with_open_Ok_inv in H5 as (f & sa & sb & (_ & Hta) & Hia & Hbody & (_ & Htb)).
  apply recv_to_file_Ok_exact in Hbody as (chunks & (_ & Htw) & -> & Hcons).
  apply close_Ok in H6 as (_ & Ht6). apply read_response_Ok in H7 as (_ & Ht7).
  assert (ctl' = ctl) by congruence. subst ctl'.
  exists d, st1, ctl, f, chunks. split; [exact Hd|].
  split; [congruence|]. split; [|split; [lia|]].
  - rewrite Ht7, Ht6, Htb, Htw, Hta, Ht3, Ht2, app_nil_r. unfold file_session.
    cbn [app]. rewrite <- !app_assoc. cbn [app]. reflexivity.
  - destruct Hi1 as (A1 & _), Hi2 as (A2 & _), Hi3 as (A3 & _), Hia as (A4 & _).
    replace (data_in st) with (data_in sa) by congruence. exact Hcons.
Qed.

Lemma X8_download_writes_what_it_receives_witness :
  exists d st1 ctl f chunks,
    FTPClient._data_connection st_download_ok = Ok d st1 /\
    _socket (self st_download_ok) = Some ctl /\
    trace (outcome_state (FTPClient.download "remote.bin" "local.bin" st_download_ok))
    = (trace st1
       ++ [EvSendall ctl ("TYPE I" ++ CRLF);
           EvSendall ctl (("RETR " ++ "remote.bin") ++ CRLF)]
       ++ file_session f "local.bin" "wb" chunks
       ++ [EvSockClose d])%list /\
    3%Z = Z.of_nat (List.length (concat chunks)) /\
    consumed (data_in st_download_ok) chunks.
Proof.
  apply (X8_download_writes_what_it_receives "remote.bin" "local.bin" st_download_ok).
  vm_compute. reflexivity.
Defined.

(** X9.  When [upload] returns, what it did after opening the data
    connection is exactly: send TYPE I, send STOR with the remote path,
    open the local path for binary reading, send on the data connection
    the chunks read from the file up to its end, in order, close the
    file, close the data connection.  The value returned is the number of
    bytes sent. *)
Theorem X9_upload_sends_what_it_reads
    (local remote : string) (st st' : state) (total : Z)
    (Hrun : FTPClient.upload local remote st = Ok total st') :
  exists d st1 ctl f chunks,
    FTPClient._data_connection st = Ok d st1 /\
    _socket (self st) = Some ctl /\
    trace st' = (trace st1
                 ++ [EvSendall ctl ("TYPE I" ++ CRLF);
                     EvSendall ctl (("STOR " ++ remote) ++ CRLF);
                     EvOpen f local "rb"]
                 ++ map (EvSendBytes d) chunks
                 ++ [EvFileClose f; EvSockClose d])%list /\
    total = Z.of_nat (List.length (concat chunks)) /\
    consumed (file_in st) chunks.
Proof.
  unfold FTPClient.upload in Hrun.
  apply bind_Ok_inv in Hrun as (d & st1 & Hd & H).
  apply bind_Ok_inv in H as (r2 & st2 & H2 & H).
  apply bind_Ok_inv in H as (r3 & st3 & H3 & H).
  apply bind_Ok_inv in H as (fuel & st4 & H4 & H).
  apply bind_Ok_inv in H as (tot & st5 & H5 & H).
  apply bind_Ok_inv in H as (u6 & st6 & H6 & H).
  apply bind_Ok_inv in H as (r7 & st7 & H7 & H).
  unfold ret in H. injection H as <- <-.
  unfold get in H4. injection H4 as _ <-.
  destruct (data_connection_Ok_step _ _ _ Hd) as (Hs1 & Hi1).
  apply command_Ok_step in H2 as (ctl & Hctl & (Hs2 & Ht2) & Hi2).
  apply command_Ok_step in H3 as (ctl' & Hctl' & (Hs3 & Ht3) & Hi3).
  apply with_open_Ok_inv in H5 as (f & sa & sb & (_ & Hta) & Hia & Hbody & (_ & Htb)).
  apply send_from_file_Ok_exact in Hbody as (chunks & (_ & Htw) & -> & Hcons).
  apply close_Ok in H6 as (_ & Ht6). apply read_response_Ok in H7 as (_ & Ht7).
  assert (ctl' = ctl) by congruence. subst ctl'.
  exists d, st1, ctl, f, chunks. split; [exact Hd|].
  split; [congruence|]. split; [|split; [lia|]].
  - rewrite Ht7, Ht6, Htb, Htw, Hta, Ht3, Ht2, app_nil_r.
    cbn [app]. rewrite <- !app_assoc. cbn [app]. reflexivity.
  - destruct Hi1 as (_ & A1), Hi2 as (_ & A2), Hi3 as (_ & A3), Hia as (_ & A4).
    replace (file_in st) with (file_in sa) by congruence. exact Hcons.
Qed.

Lemma X9_upload_sends_what_it_reads_witness :
  exists d st1 ctl f chunks,
    FTPClient._data_connection st_upload_ok = Ok d st1 /\
    _socket (self st_upload_ok) = Some ctl /\
    trace (outcome_state (FTPClient.upload "local.bin" "remote.bin" st_upload_ok))
    = (trace st1
       ++ [EvSendall ctl ("TYPE I" ++ CRLF);
           EvSendall ctl (("STOR " ++ "remote.bin") ++ CRLF);
           EvOpen f "local.bin" "rb"]
       ++ map (EvSendBytes d) chunks
       ++ [EvFileClose f; EvSockClose d])%list /\
    3%Z = Z.of_nat (List.length (concat chunks)) /\
    consumed (file_in st_upload_ok) chunks.
Proof.
  apply (X9_upload_sends_what_it_reads "local.bin" "remote.bin" st_upload_ok).
  vm_compute. reflexivity.
Defined.

(** ** The local file on every way out *)

Lemma recv_trace (s : sock) (st : state) :
  trace (outcome_state (Sys.recv s st)) = trace st.
Proof.
  unfold Sys.recv, fallible.
  destruct (faults st) as [|[e|] fs]; cbn; destruct (data_in st); reflexivity.
Qed.

Lemma read_trace (f : handle) (st : state) :
  trace (outcome_state (Sys.read f st)) = trace st.
Proof.
  unfold Sys.read, fallible.
  destruct (faults st) as [|[e|] fs]; cbn; destruct (file_in st); reflexivity.
Qed.

(** An output call ends: it returns with its event logged, or raises with
    the trace as it was. *)
Lemma emit_trace (e : event) (st : state) :
  match fallible (emit e) st with
  | Ok _ st1 => trace st1 = (trace st ++ [e])%list /\ same_inputs st st1
  | Raise _ st1 => trace st1 = trace st
  | Diverge _ => False
  end.
Proof.
  unfold fallible, emit, modify, same_inputs.
  destruct (faults st) as [|[x|] fs]; cbn; auto.
Qed.

Lemma ended_with_nil {A} (st : state) (o : outcome A) :
  trace (outcome_state o) = trace st ->
  match o with Diverge _ => False | _ => True end ->
  ended_with [] st o.
Proof. unfold ended_with. destruct o; cbn; rewrite ?app_nil_r; tauto. Qed.

Lemma recv_to_file_outcome (n : nat) :
  forall s f total st,
    (List.length (data_in st) < n)%nat ->
    exists chunks,
      ended_with (map (EvWrite f) chunks) st (FTPClient.recv_to_file n s f total st).
Proof.
  induction n as [|n IH]; intros s f total st Hn; [lia|].
  cbn [FTPClient.recv_to_file].
  pose proof (recv_trace s st) as Tr.
  destruct (recv_cases s st) as [(e & st1 & Hr)|[(d & ds & Hd & Hr)|(Hd & Hr)]];
    rewrite Hr in Tr; cbn in Tr.
  - rewrite (bind_Raise _ _ _ _ _ Hr). exists []. cbn. rewrite app_nil_r. exact Tr.
  - rewrite (bind_Ok _ _ _ _ _ Hr). destruct (FTPClient.is_nil d).
    { exists []. cbn. rewrite app_nil_r. exact Tr. }
    unfold Sys.write.
    pose proof (emit_trace (EvWrite f d) (set_data_in ds (pop_fault st))) as Tw.
    destruct (fallible (emit (EvWrite f d)) (set_data_in ds (pop_fault st)))
      as [u st2|x st2|st2] eqn:Ew; [| |contradiction].
    + rewrite (bind_Ok _ _ _ _ _ Ew). destruct Tw as (Tw & (Hi & _)).
      destruct (IH s f (total + Z.of_nat (List.length d))%Z st2) as (chunks & Hc).
      { rewrite Hi. cbn. rewrite Hd in Hn. cbn in Hn. lia. }
      exists (d :: chunks). unfold ended_with in *.
      destruct (FTPClient.recv_to_file n s f _ st2); try contradiction;
        cbn in *; rewrite Hc, Tw; cbn; rewrite Tr, <- app_assoc; reflexivity.
    + rewrite (bind_Raise _ _ _ _ _ Ew). exists []. cbn. rewrite app_nil_r.
      cbn in Tr, Tw. congruence.
  - rewrite (bind_Ok _ _ _ _ _ Hr). exists []. cbn. rewrite app_nil_r. exact Tr.
Qed.

Lemma send_from_file_outcome (n : nat) :
  forall s f total st,
    (List.length (file_in st) < n)%nat ->
    exists evs,
      ended_with evs st (FTPClient.send_from_file n s f total st) /\
      file_events evs = [].
Proof.
  induction n as [|n IH]; intros s f total st Hn; [lia|].
  cbn [FTPClient.send_from_file].
  pose proof (read_trace f st) as Tr.
  destruct (read_cases f st) as [(e & st1 & Hr)|[(d & ds & Hd & Hr)|(Hd & Hr)]];
    rewrite Hr in Tr; cbn in Tr.
  - rewrite (bind_Raise _ _ _ _ _ Hr). exists []. cbn. rewrite app_nil_r. auto.
  - rewrite (bind_Ok _ _ _ _ _ Hr). destruct (FTPClient.is_nil d).
    { exists []. cbn. rewrite app_nil_r. auto. }
    unfold Sys.sendall_bytes.
    pose proof (emit_trace (EvSendBytes s d) (set_file_in ds (pop_fault st))) as Tw.
    destruct (fallible (emit (EvSendBytes s d)) (set_file_in ds (pop_fault st)))
      as [u st2|x st2|st2] eqn:Ew; [| |contradiction].
    + rewrite (bind_Ok _ _ _ _ _ Ew). destruct Tw as (Tw & (_ & Hi)).
      destruct (IH s f (total + Z.of_nat (List.length d))%Z st2) as (evs & Hc & Hf).
      { rewrite Hi. cbn. rewrite Hd in Hn. cbn in Hn. lia. }
      exists (EvSendBytes s d :: evs). split; [|cbn; exact Hf].
      unfold ended_with in *.
      destruct (FTPClient.send_from_file n s f _ st2); try contradiction;
        cbn in *; rewrite Hc, Tw; cbn; rewrite Tr, <- app_assoc; reflexivity.
    + rewrite (bind_Raise _ _ _ _ _ Ew). exists []. cbn. rewrite app_nil_r.
      cbn in Tr, Tw. split; [congruence | reflexivity].
  - rewrite (bind_Ok _ _ _ _ _ Hr). exists []. cbn. rewrite app_nil_r. auto.
Qed.

(** A [with open] block whose body ends does end, and when the file was
    opened its [close] is the last event of the block. *)
Lemma with_open_outcome {A} path mode (body : handle -> M A)
    (Q : handle -> list event -> Prop) (st : state) :
  (forall f st1,
      same_inputs st st1 ->
      exists evs, ended_with evs st1 (body f st1) /\ Q f evs) ->
  exists evs,
    ended_with evs st (Sys.with_open path mode body st) /\
    (evs = [] \/
     exists f body_evs,
       Q f body_evs /\
       evs = (EvOpen f path mode :: body_evs ++ [EvFileClose f])%list).
Proof.
  intros Hbody. unfold Sys.with_open, Sys.open.
  destruct (faults st) as [|[x|] fs] eqn:Ef.
  2:{ exists []. split; [|left; reflexivity].
      rewrite (bind_Raise _ _ _ _ _ (fallible_fault _ _ _ _ Ef)). cbn.
      rewrite app_nil_r. reflexivity. }
  all: set (f := next_id (pop_fault st));
    set (st1 := log (EvOpen f path mode) (set_next_id (S f) (pop_fault st)));
    assert (Ho : fallible (h <- fresh ;; emit (EvOpen h path mode) ;; ret h) st = Ok f st1)
      by (rewrite fallible_quiet by (rewrite Ef; reflexivity); reflexivity);
    rewrite (bind_Ok _ _ _ _ _ Ho);
    assert (Hi : same_inputs st st1)
      by (destruct (pop_fault_inputs st) as (A1 & A2); split; cbn; assumption);
    assert (Ht : trace st1 = (trace st ++ [EvOpen f path mode])%list)
      by (cbn; destruct (pop_fault_reads_only st) as (_ & T & _); rewrite T; reflexivity);
    destruct (Hbody f st1 Hi) as (evs & He & HQ);
    exists (EvOpen f path mode :: evs ++ [EvFileClose f])%list;
    (split; [|right; exists f, evs; auto]);
    unfold finally, ended_with in *;
    destruct (body f st1) as [a st2|e st2|st2]; try contradiction;
    cbn in *; rewrite He, Ht, <- !app_assoc; reflexivity.
Qed.

Lemma file_trace_bind_quiet {A B} (m : M A) (k : A -> M B)
    (P : list event -> Prop) (st : state) :
  respects no_file_event m -> P [] ->
  (forall a st1, m st = Ok a st1 -> file_trace P st1 (k a st1)) ->
  file_trace P st (bind m k st).
Proof.
  intros Hm HP Hk. destruct (Hm st) as (e1 & T1 & F1). unfold bind.
  destruct (m st) as [a st1|e st1|st1] eqn:E; cbn in T1.
  - destruct (Hk a st1 eq_refl) as (e2 & T2 & P2). exists (e1 ++ e2)%list.
    rewrite T2, T1, app_assoc, file_events_app, F1. auto.
  - exists e1. rewrite F1. auto.
  - exists e1. rewrite F1. auto.
Qed.

Lemma file_trace_then_quiet {A B} (m : M A) (k : A -> M B)
    (P : list event -> Prop) (st : state) :
  file_trace P st (m st) -> (forall a, respects no_file_event (k a)) ->
  file_trace P st (bind m k st).
Proof.
  intros (e1 & T1 & P1) Hk. unfold bind.
  destruct (m st) as [a st1|e st1|st1] eqn:E; cbn in T1.
  - destruct (Hk a st1) as (e2 & T2 & F2). exists (e1 ++ e2)%list.
    rewrite T2, T1, app_assoc, file_events_app, F2, app_nil_r. auto.
  - exists e1. auto.
  - exists e1. auto.
Qed.

Lemma file_events_session f path mode chunks :
  file_events (file_session f path mode chunks) = file_session f path mode chunks.
Proof.
  unfold file_session, file_events. cbn. f_equal.
  rewrite filter_app. cbn. f_equal.
  induction chunks as [|c r IH]; cbn; [reflexivity | rewrite IH; reflexivity].
Qed.

Lemma respects_transfer_end {A} (d : sock) (total : A) :
  respects no_file_event
    (Sys.close d ;; FTPClient._read_response ;; ret total).
Proof.
  apply respects_bind; [exact no_file_event_frame | apply respects_sys_close, no_file_event_frame|].
  intros _. apply respects_bind;
    [exact no_file_event_frame | apply respects_read_response, no_file_event_frame|].
  intros _. apply respects_ret, no_file_event_frame.
Qed.

(** X10.  Whatever way [download] ends, by returning, by raising at any
    step or never, the local file is either not opened at all or opened
    for writing, written and closed: among the events the call adds to
    the trace, those on local files are none, or one open, the writes and
    one close.  For [upload] they are none, or one open for reading and
    one close. *)
Theorem X10_transfers_release_the_local_file (st : state) :
  (forall remote local,
      file_trace (untouched_or_written local) st (FTPClient.download remote local st)) /\
  (forall local remote,
      file_trace (untouched_or_read local) st (FTPClient.upload local remote st)).
Proof.
  split.
  - intros remote local. unfold FTPClient.download.
    apply file_trace_bind_quiet;
      [apply respects_data_connection, no_file_event_frame | left; reflexivity|].
    intros d st1 _.
    apply file_trace_bind_quiet;
      [apply respects_command, no_file_event_frame | left; reflexivity|].
    intros r2 st2 _.
    apply file_trace_bind_quiet;
      [apply respects_command, no_file_event_frame | left; reflexivity|].
    intros r3 st3 _.
    apply file_trace_bind_quiet;
      [apply respects_get, no_file_event_frame | left; reflexivity|].
    intros fuel st4 Hg. unfold get in Hg. injection Hg as <- <-.
    apply file_trace_then_quiet; [|intros total; apply respects_transfer_end].
    destruct (with_open_outcome local "wb"
                (fun f => FTPClient.recv_to_file (S (List.length (data_in st3))) d f 0%Z)
                (fun f evs => exists chunks, evs = map (EvWrite f) chunks) st3)
      as (evs & He & Hshape).
    { intros f sa (Hi & _).
      destruct (recv_to_file_outcome (S (List.length (data_in st3))) d f 0%Z sa)
        as (chunks & Hc); [rewrite Hi; lia|].
      exists (map (EvWrite f) chunks). split; [exact Hc | exists chunks; reflexivity]. }
    exists evs. split.
    + unfold ended_with in He. destruct (Sys.with_open _ _ _ st3); tauto.
    + destruct Hshape as [->|(f & be & (chunks & ->) & ->)]; [left; reflexivity|].
      right. exists f, chunks. apply (file_events_session f local "wb" chunks).
  - intros local remote. unfold FTPClient.upload.
    apply file_trace_bind_quiet;
      [apply respects_data_connection, no_file_event_frame | left; reflexivity|].
    intros d st1 _.
    apply file_trace_bind_quiet;
      [apply respects_command, no_file_event_frame | left; reflexivity|].
    intros r2 st2 _.
    apply file_trace_bind_quiet;
      [apply respects_command, no_file_event_frame | left; reflexivity|].
    intros r3 st3 _.
    apply file_trace_bind_quiet;
      [apply respects_get, no_file_event_frame | left; reflexivity|].
    intros fuel st4 Hg. unfold get in Hg. injection Hg as <- <-.
    apply file_trace_then_quiet; [|intros total; apply respects_transfer_end].
    destruct (with_open_outcome local "rb"
                (fun f => FTPClient.send_from_file (S (List.length (file_in st3))) d f 0%Z)
                (fun f evs => file_events evs = []) st3)
      as (evs & He & Hshape).
    { intros f sa (_ & Hi).
      destruct (send_from_file_outcome (S (List.length (file_in st3))) d f 0%Z sa)
        as (be & Hc & Hf); [rewrite Hi; lia|].
      exists be. auto. }
    exists evs. split.
    + unfold ended_with in He. destruct (Sys.with_open _ _ _ st3); tauto.
    + destruct Hshape as [->|(f & be & Hbe & ->)]; [left; reflexivity|].
      right. exists f. unfold file_events in *. cbn. rewrite filter_app, Hbe.
      reflexivity.
Qed.

(** ** list, when it returns *)

Lemma parse_list_line_line (line : string) :
  match FTPClient._parse_list_line line with
  | Returns None => non_empty_line line = false
  | Returns (Some e) => non_empty_line line = true
  | Raises _ => True
  end.
Proof.
  rewrite parse_list_line_unfold. cbv zeta. unfold non_empty_line.
  destruct (PyStr.is_empty line); [reflexivity|].
  destruct (_ <? _)%nat; [reflexivity|].
  destruct (PyStr.isdigit _); [|reflexivity].
  destruct (PyStr.int _); [reflexivity | exact I].
Qed.

(** The [for] loop of [list] adds, in order, the entry of every line that
    is not empty. *)
Lemma parse_entries_Returns (lines : list string) :
  forall acc es,
    FTPClient.parse_entries lines acc = Returns es ->
    exists new,
      es = (acc ++ new)%list /\
      Forall2 (fun e l => FTPClient._parse_list_line l = Returns (Some e))
              new (filter non_empty_line lines).
Proof.
  induction lines as [|l r IH]; intros acc es H.
  - cbn in H. injection H as <-. exists []. rewrite app_nil_r. split; constructor.
  - cbn [FTPClient.parse_entries] in H.
    pose proof (parse_list_line_line l) as Hl.
    destruct (FTPClient._parse_list_line l) as [[e|]|x] eqn:E; [| |discriminate].
    + apply IH in H as (new & -> & Hall). exists (e :: new).
      split; [rewrite <- app_assoc; reflexivity|].
      cbn [filter]. rewrite Hl. constructor; assumption.
    + apply IH in H as (new & -> & Hall). exists new. split; [reflexivity|].
      cbn [filter]. rewrite Hl. exact Hall.
Qed.

(** X11.  When [list] returns, what it did after opening the data
    connection is exactly: send LIST (followed by a space and the path
    when a path is given) and close the data connection.  The entries
    returned are, in order, the parses of the lines that are not empty in
    the decoded text of the chunks received up to the end of the data
    stream. *)
Theorem X11_list_parses_what_it_receives
    (decode : bytes -> string) (splitlines : string -> list string)
    (path : string) (st st' : state) (entries : list FTPEntry)
    (Hrun : FTPClient.list decode splitlines path st = Ok entries st') :
  exists d st1 ctl chunks,
    FTPClient._data_connection st = Ok d st1 /\
    _socket (self st) = Some ctl /\
    trace st' = (trace st1 ++ [EvSendall ctl (list_command path ++ CRLF);
                               EvSockClose d])%list /\
    consumed (data_in st) chunks /\
    Forall2 (fun e l => FTPClient._parse_list_line l = Returns (Some e))
            entries
            (filter non_empty_line (splitlines (decode (concat chunks)))).
Proof.
  unfold FTPClient.list in Hrun.
  apply bind_Ok_inv in Hrun as (d & st1 & Hd & H).
  apply bind_Ok_inv in H as (r2 & st2 & H2 & H).
  apply bind_Ok_inv in H as (fuel & st3 & H3 & H).
  apply bind_Ok_inv in H as (data & st4 & H4 & H).
  apply bind_Ok_inv in H as (u5 & st5 & H5 & H).
  apply bind_Ok_inv in H as (r6 & st6 & H6 & H).
  pose proof (lift_Ok _ _ _ _ H) as ->.
  unfold get in H3. injection H3 as _ <-.
  destruct (data_connection_Ok_step _ _ _ Hd) as (Hs1 & (Hi1 & _)).
  apply command_Ok_step in H2 as (ctl & Hctl & (Hs2 & Ht2) & (Hi2 & _)).
  apply recv_all_Ok_exact in H4 as (chunks & (_ & Ht4) & -> & Hcons).
  apply close_Ok in H5 as (_ & Ht5). apply read_response_Ok in H6 as (_ & Ht6).
  exists d, st1, ctl, chunks. split; [exact Hd|]. split; [congruence|].
  split; [|split].
  - rewrite Ht6, Ht5, Ht4, Ht2, !app_nil_r, <- app_assoc. reflexivity.
  - replace (data_in st) with (data_in st2) by congruence. exact Hcons.
  - cbn [app] in H. unfold lift in H.
    destruct (FTPClient.parse_entries _ []) as [es|x] eqn:E; [|discriminate].
    unfold ret in H. injection H as <-.
    apply parse_entries_Returns in E as (new & -> & Hall). exact Hall.
Qed.

Lemma X11_list_parses_what_it_receives_witness :
  exists d st1 ctl chunks,
    FTPClient._data_connection st_list_two = Ok d st1 /\
    _socket (self st_list_two) = Some ctl /\
    trace (outcome_state (FTPClient.list decode_ascii splitlines_lf "pub" st_list_two))
    = (trace st1 ++ [EvSendall ctl (list_command "pub" ++ CRLF); EvSockClose d])%list /\
    consumed (data_in st_list_two) chunks /\
    Forall2 (fun e l => FTPClient._parse_list_line l = Returns (Some e))
            [mkFTPEntry "a" 0 None false EmptyString "a";
             mkFTPEntry "b c" 0 None false EmptyString "b c"]
            (filter non_empty_line (splitlines_lf (decode_ascii (concat chunks)))).
Proof.
  apply (X11_list_parses_what_it_receives decode_ascii splitlines_lf "pub" st_list_two).
  vm_compute. reflexivity.
Defined.

(** ** connect, step by step *)

(** The events of a [connect] that returns, and the client it leaves. *)
Lemma connect_sequence_Ok
    (st st' : state) (u : unit)
    (Hrun : FTPClient.connect st = Ok u st') :
  exists raw final,
    trace st' = (trace st ++ login_events (config (self st)) raw final)%list /\
    self st' = mkClient (config (self st)) (Some final) (Some final) /\
    (secure (config (self st)) = false -> final = raw).
Proof.
  unfold FTPClient.connect in Hrun.
  apply bind_Ok_inv in Hrun as (raw & st1 & H1 & H).
  apply bind_Ok_inv in H as (u2 & st2 & H2 & H).
  apply bind_Ok_inv in H as (c & st3 & H3 & H).
  apply bind_Ok_inv in H as (u4 & st4 & H4 & H).
  apply bind_Ok_inv in H as (u5 & st5 & H5 & H).
  apply bind_Ok_inv in H as (u6 & st6 & H6 & H).
  apply bind_Ok_inv in H as (f & st7 & H7 & H).
  apply bind_Ok_inv in H as (u8 & st8 & H8 & H).
  apply bind_Ok_inv in H as (r9 & st9 & H9 & H).
  apply bind_Ok_inv in H as ([c10 m10] & st10 & H10 & H).
  apply bind_Ok_inv in H as ([c11 m11] & st11 & H11 & H).
  unfold ret in H. injection H as _ <-.
  apply socket_new_Ok in H1 as (S1 & T1).
  unfold FTPClient.set__socket, modify in H2. injection H2 as _ <-.
  apply cfg_Ok in H3 as (-> & ->).
  apply settimeout_Ok in H4 as (S4 & T4).
  apply connect_Ok in H5 as (S5 & T5).
  cbn [self set_self config] in *.
  assert (H6' : exists final,
             self st6 = mkClient (config (self st)) (Some final) (_file (self st)) /\
             trace st6 = (trace st5
                          ++ (if secure (config (self st))
                              then [EvWrapSocket raw final (host (config (self st)))]
                              else []))%list /\
             (secure (config (self st)) = false -> final = raw)).
  { rewrite S1 in *. destruct (secure (config (self st))).
    - apply bind_Ok_inv in H6 as (tls & sw & Hw & Hs).
      apply wrap_socket_Ok in Hw as (Sw & Tw).
      unfold FTPClient.set__socket, modify in Hs. injection Hs as _ <-.
      exists tls. cbn. rewrite Sw, S5, S4. cbn. rewrite Tw. split; [reflexivity|].
      split; [reflexivity | discriminate].
    - unfold ret in H6. injection H6 as _ <-. exists raw.
      rewrite S5, S4. cbn. rewrite app_nil_r. auto. }
  destruct H6' as (final & S6 & T6 & Hplain).
  assert (Hf : f = final /\ st7 = st6).
  { unfold FTPClient.the_socket, bind, get in H7. rewrite S6 in H7. cbn in H7.
    unfold ret in H7. injection H7 as <- <-. auto. }
  destruct Hf as (-> & ->).
  unfold FTPClient.set__file, modify in H8. injection H8 as _ <-.
  apply read_response_Ok in H9 as (S9 & T9).
  destruct (command_Ok _ _ _ _ _ _ H10) as (s10 & Hs10 & (S10 & T10) & _).
  destruct (command_Ok _ _ _ _ _ _ H11) as (s11 & Hs11 & (S11 & T11) & _).
  rewrite S9 in Hs10. cbn in Hs10. rewrite S6 in Hs10. cbn in Hs10.
  rewrite S10, S9 in Hs11. cbn in Hs11. rewrite S6 in Hs11. cbn in Hs11.
  injection Hs10 as <-. injection Hs11 as <-.
  exists raw, final. split; [|split; [|exact Hplain]].
  - rewrite T11, T10, T9. cbn [trace set_self]. rewrite T6, T5, T4. cbn [trace set_self].
    rewrite T1, S1. unfold login_events. rewrite app_nil_r, <- !app_assoc.
    cbn [app]. reflexivity.
  - rewrite S11, S10, S9. cbn. rewrite S6. cbn. rewrite ?S1. reflexivity.
Qed.

(** X12.  When [connect] returns, what it has done is exactly: create a
    socket, set the configured timeout on it, connect it to the configured
    host and port, over TLS wrap it for the configured host, then send
    USER and PASS; over TLS both lines go on the wrapped socket, after
    the upgrade.  The client then holds that last socket both as
    [_socket] and as [_file], and its configuration is unchanged. *)
Theorem X12_connect_sequence
    (st st' : state) (u : unit)
    (Hrun : FTPClient.connect st = Ok u st') :
  exists raw final,
    trace st' = (trace st ++ login_events (config (self st)) raw final)%list /\
    self st' = mkClient (config (self st)) (Some final) (Some final) /\
    (secure (config (self st)) = false -> final = raw).
Proof. exact (connect_sequence_Ok st st' u Hrun). Qed.

Lemma X12_connect_sequence_witness :
  exists raw final,
    trace (outcome_state (FTPClient.connect st_fresh))
    = (trace st_fresh ++ login_events (config (self st_fresh)) raw final)%list /\
    self (outcome_state (FTPClient.connect st_fresh))
    = mkClient (config (self st_fresh)) (Some final) (Some final) /\
    (secure (config (self st_fresh)) = false -> final = raw).
Proof.
  apply (X12_connect_sequence st_fresh _ tt). vm_compute. reflexivity.
Defined.

(** ** Exchanges that go through *)

Lemma pop_fault_none st : faults st = [] -> pop_fault st = st.
Proof. intros H. unfold pop_fault. rewrite H. reflexivity. Qed.

Lemma fallible_none {A} (m : M A) st : faults st = [] -> fallible m st = m st.
Proof. intros H. unfold fallible. rewrite H. reflexivity. Qed.

(** Reading a reply of one line, with no failure pending. *)
Lemma read_response_reply st f a b c text rest :
  _file (self st) = Some f ->
  faults st = [] ->
  ctrl_in st = reply_line a b c text :: rest ->
  all_decimal (code_chars a b c) = true ->
  exists st',
    FTPClient._read_response st
    = Ok (decimal_value (code_chars a b c), strip_eol (reply_line a b c text)) st' /\
    ctrl_in st' = rest /\ faults st' = [] /\ reads_only st st'.
Proof.
  intros Hf Hq Hin Hd.
  destruct (read_response_ok st f [] (reply_line a b c text) rest Hf Hin)
    as (st' & Hrun & Hrest & Hfs & Hro).
  - rewrite Hq. reflexivity.
  - constructor.
  - apply reply_line_terminates.
  - exists st'. split; [|split; [exact Hrest|split; [|exact Hro]]].
    + rewrite Hrun. apply (response_of_reply_line [] a b c text st' Hd).
    + rewrite Hfs, Hq. reflexivity.
Qed.

(** A command answered by a reply of one line, with no failure pending:
    whatever the code, [_command] without an expected code returns it. *)
Lemma command_reply cmd st s f a b c text rest :
  _socket (self st) = Some s ->
  _file (self st) = Some f ->
  faults st = [] ->
  ctrl_in st = reply_line a b c text :: rest ->
  all_decimal (code_chars a b c) = true ->
  exists st',
    FTPClient._command cmd None st
    = Ok (decimal_value (code_chars a b c), strip_eol (reply_line a b c text)) st' /\
    ctrl_in st' = rest /\ faults st' = [] /\
    emits [EvSendall s (cmd ++ CRLF)] st st'.
Proof.
  intros Hs Hf Hq Hin Hd. rewrite command_unfold, Hs, Hq, (pop_fault_none _ Hq).
  destruct (read_response_reply (log (EvSendall s (cmd ++ CRLF)) st) f a b c text rest)
    as (st' & Hrun & Hrest & Hfs & (Hself & Htr & _)); try assumption.
  exists st'. rewrite Hrun. cbn [FTPClient.mismatch].
  split; [reflexivity|]. split; [exact Hrest|]. split; [exact Hfs|].
  unfold emits. rewrite Hself, Htr. auto.
Qed.

(** X13.  [connect] does not look at the codes of the replies: when no
    call fails and the server answers the connection, USER and PASS with
    one line each, [connect] returns whatever the three codes are, a
    refused login included, having read exactly these three lines. *)
Theorem X13_connect_accepts_any_reply_codes
    (st : state) (a1 b1 c1 a2 b2 c2 a3 b3 c3 : ascii) (t1 t2 t3 : string)
    (rest : list string)
    (Hquiet : faults st = [])
    (Hin : ctrl_in st = reply_line a1 b1 c1 t1 :: reply_line a2 b2 c2 t2
                        :: reply_line a3 b3 c3 t3 :: rest)
    (Hd1 : all_decimal (code_chars a1 b1 c1) = true)
    (Hd2 : all_decimal (code_chars a2 b2 c2) = true)
    (Hd3 : all_decimal (code_chars a3 b3 c3) = true) :
  exists st', FTPClient.connect st = Ok tt st' /\ ctrl_in st' = rest.
Proof.
  unfold FTPClient.connect.
  set (raw := next_id st).
  set (st1 := log (EvSocket raw) (set_next_id (S raw) st)).
  assert (E1 : Sys.socket_new st = Ok raw st1).
  { unfold Sys.socket_new. rewrite (fallible_none _ _ Hquiet). reflexivity. }
  rewrite (bind_Ok _ _ _ _ _ E1).
  set (cfg0 := config (self st)).
  set (st2 := set_self (mkClient cfg0 (Some raw) (_file (self st))) st1).
  rewrite (bind_Ok (FTPClient.set__socket raw) _ st1 tt st2 eq_refl).
  rewrite (bind_Ok FTPClient.cfg _ st2 cfg0 st2 eq_refl).
  set (st4 := log (EvSetTimeout raw (timeout cfg0)) st2).
  rewrite (bind_Ok (Sys.settimeout raw (timeout cfg0)) _ st2 tt st4 eq_refl).
  set (st5 := log (EvConnect raw (host cfg0) (port cfg0)) st4).
  assert (E5 : Sys.connect raw (host cfg0) (port cfg0) st4 = Ok tt st5).
  { unfold Sys.connect. rewrite fallible_none by exact Hquiet. reflexivity. }
  rewrite (bind_Ok _ _ _ _ _ E5).
  assert (E6 : exists final st6,
             (if secure cfg0
              then s' <- Sys.wrap_socket raw (host cfg0) ;; FTPClient.set__socket s'
              else ret tt) st5 = Ok tt st6 /\
             _socket (self st6) = Some final /\
             faults st6 = [] /\ ctrl_in st6 = ctrl_in st).
  { destruct (secure cfg0).
    - exists (next_id st5).
      eexists. split; [|split; [|split]].
      + unfold Sys.wrap_socket, bind. rewrite fallible_none by exact Hquiet.
        reflexivity.
      + reflexivity.
      + exact Hquiet.
      + reflexivity.
    - exists raw, st5. repeat split. exact Hquiet. }
  destruct E6 as (final & st6 & E6 & Hs6 & Hq6 & Hc6).
  rewrite (bind_Ok _ _ _ _ _ E6).
  rewrite (bind_Ok _ _ _ _ _ (the_socket_Some _ _ Hs6)).
  set (st8 := set_self (mkClient (config (self st6)) (_socket (self st6)) (Some final)) st6).
  rewrite (bind_Ok (FTPClient.set__file final) _ st6 tt st8 eq_refl).
  destruct (read_response_reply st8 final a1 b1 c1 t1
              (reply_line a2 b2 c2 t2 :: reply_line a3 b3 c3 t3 :: rest))
    as (st9 & E9 & Hc9 & Hq9 & (Hself9 & _)); try assumption; try reflexivity.
  { cbn. rewrite Hc6. exact Hin. }
  rewrite (bind_Ok _ _ _ _ _ E9).
  assert (Hs9 : _socket (self st9) = Some final) by (rewrite Hself9; exact Hs6).
  assert (Hf9 : _file (self st9) = Some final) by (rewrite Hself9; reflexivity).
  destruct (command_reply ("USER " ++ username cfg0) st9 final final a2 b2 c2 t2
              (reply_line a3 b3 c3 t3 :: rest) Hs9 Hf9 Hq9 Hc9 Hd2)
    as (st10 & E10 & Hc10 & Hq10 & (Hself10 & _)).
  rewrite (bind_Ok _ _ _ _ _ E10).
  assert (Hs10 : _socket (self st10) = Some final) by (rewrite Hself10; exact Hs9).
  assert (Hf10 : _file (self st10) = Some final) by (rewrite Hself10; exact Hf9).
  destruct (command_reply ("PASS " ++ password cfg0) st10 final final a3 b3 c3 t3
              rest Hs10 Hf10 Hq10 Hc10 Hd3)
    as (st11 & E11 & Hc11 & _).
  rewrite (bind_Ok _ _ _ _ _ E11).
  exists st11. split; [reflexivity | exact Hc11].
Qed.

Lemma X13_connect_accepts_any_reply_codes_witness :
  exists st', FTPClient.connect st_login_refused = Ok tt st' /\ ctrl_in st' = [].
Proof.
  apply (X13_connect_accepts_any_reply_codes st_login_refused
           "2" "2" "0" "3" "3" "1" "5" "3" "0"
           ("Welcome" ++ LF) ("Password required" ++ LF) ("Login incorrect" ++ LF) []).
  - reflexivity.
  - reflexivity.
  - reflexivity.
  - reflexivity.
  - reflexivity.
Defined.

(** ** One command, one line *)

Lemma at_most_one_line_command {A} cmd expect st (o : outcome A) :
  outcome_state o = outcome_state (FTPClient._command cmd expect st) ->
  at_most_one_line cmd st o.
Proof.
  intros H. unfold at_most_one_line. rewrite H. apply command_frame.
Qed.

(** X14.  Whatever way they end, [pwd], [size], [cwd], [mkd], [rmd] and
    [delete] leave the client object as it is and add to the trace
    nothing, or the single line of their command sent on the control
    connection: they open no socket, close none, and send nothing else,
    also when the reply is refused or the exchange fails. *)
Theorem X14_one_line_per_command (st : state) :
  at_most_one_line "PWD" st (FTPClient.pwd st) /\
  (forall path, at_most_one_line ("SIZE " ++ path) st (FTPClient.size path st)) /\
  (forall op path, at_most_one_line (verb op ++ path) st (run_simple op path st)).
Proof.
  split; [|split].
  - apply (at_most_one_line_command _ None). unfold FTPClient.pwd, bind.
    destruct (FTPClient._command "PWD" None st) as [[c m] st1|e st1|st1]; try reflexivity.
    destruct (PyStr.quoted_search m); reflexivity.
  - intros path. apply (at_most_one_line_command _ None). unfold FTPClient.size, bind.
    destruct (FTPClient._command ("SIZE " ++ path) None st) as [[c m] st1|e st1|st1];
      try reflexivity.
    destruct (c =? 213)%Z; [|reflexivity].
    destruct (FTPClient.last_item (PyStr.split m)) as [tok|x]; [|reflexivity].
    cbn. destruct (FTPClient.int_of tok); reflexivity.
  - intros op path. apply (at_most_one_line_command _ (Some (expected_code op))).
    destruct op; unfold run_simple, FTPClient.cwd, FTPClient.mkd, FTPClient.rmd,
      FTPClient.delete, bind, expected_code, verb;
      match goal with
      | |- context [FTPClient._command ?c ?e st] =>
          destruct (FTPClient._command c e st) as [[cd m] st1|x st1|st1]; reflexivity
      end.
Qed.

(** ** rename, when the server agrees *)

Lemma command_reply_expect cmd expect st s f a b c text rest :
  _socket (self st) = Some s ->
  _file (self st) = Some f ->
  faults st = [] ->
  ctrl_in st = reply_line a b c text :: rest ->
  all_decimal (code_chars a b c) = true ->
  decimal_value (code_chars a b c) = expect ->
  exists st',
    FTPClient._command cmd (Some expect) st
    = Ok (expect, strip_eol (reply_line a b c text)) st' /\
    ctrl_in st' = rest /\ faults st' = [] /\
    emits [EvSendall s (cmd ++ CRLF)] st st'.
Proof.
  intros Hs Hf Hq Hin Hd Hcode.
  destruct (command_reply cmd st s f a b c text rest Hs Hf Hq Hin Hd)
    as (st' & Hrun & Hrest & Hfs & He).
  exists st'. rewrite command_expect, Hrun, Hcode.
  unfold FTPClient.mismatch. rewrite Z.eqb_refl, andb_false_r. auto.
Qed.

(** X15.  When no call fails and the server answers RNFR with a line of
    code 350 and RNTO with a line of code 250, [rename] returns, having
    sent exactly these two commands, in this order, and read exactly
    these two lines. *)
Theorem X15_rename_goes_through
    (old new : string) (st : state) (s f : sock) (t1 t2 : string)
    (rest : list string)
    (Hsock : _socket (self st) = Some s)
    (Hfile : _file (self st) = Some f)
    (Hquiet : faults st = [])
    (Hin : ctrl_in st = reply_line "3" "5" "0" t1 :: reply_line "2" "5" "0" t2 :: rest) :
  exists st',
    FTPClient.rename old new st = Ok tt st' /\
    emits [EvSendall s (("RNFR " ++ old) ++ CRLF);
           EvSendall s (("RNTO " ++ new) ++ CRLF)] st st' /\
    ctrl_in st' = rest.
Proof.
  destruct (command_reply_expect ("RNFR " ++ old) 350%Z st s f "3" "5" "0" t1
              (reply_line "2" "5" "0" t2 :: rest) Hsock Hfile Hquiet Hin eq_refl eq_refl)
    as (st1 & E1 & Hc1 & Hq1 & He1).
  assert (Hs1 : _socket (self st1) = Some s) by (destruct He1 as (A & _); congruence).
  assert (Hf1 : _file (self st1) = Some f) by (destruct He1 as (A & _); congruence).
  destruct (command_reply_expect ("RNTO " ++ new) 250%Z st1 s f "2" "5" "0" t2
              rest Hs1 Hf1 Hq1 Hc1 eq_refl eq_refl)
    as (st2 & E2 & Hc2 & _ & He2).
  exists st2. split; [|split; [exact (emits_trans _ _ _ _ _ He1 He2) | exact Hc2]].
  unfold FTPClient.rename.
  rewrite (bind_Ok _ _ _ _ _ E1), (bind_Ok _ _ _ _ _ E2). reflexivity.
Qed.

Lemma X15_rename_goes_through_witness :
  exists st',
    FTPClient.rename "a.txt" "b.txt" st_rename_ok = Ok tt st' /\
    emits [EvSendall 0%nat (("RNFR " ++ "a.txt") ++ CRLF);
           EvSendall 0%nat (("RNTO " ++ "b.txt") ++ CRLF)] st_rename_ok st' /\
    ctrl_in st' = [].
Proof.
  apply (X15_rename_goes_through "a.txt" "b.txt" st_rename_ok 0%nat 0%nat
           ("Ready for RNTO." ++ LF) ("Rename successful." ++ LF) []).
  - reflexivity.
  - reflexivity.
  - reflexivity.
  - reflexivity.
Defined.

(** ** The data connection of a plain session *)

(** X16.  In a session without TLS, the data connection that
    [_data_connection] returns is the socket it has just created, given
    the session's timeout and connected to the address and port of the
    PASV reply; after the PASV exchange these three calls are all it
    does, and nothing is wrapped. *)
Theorem X16_plain_data_connection
    (st st' : state) (d : sock)
    (Hplain : secure (config (self st)) = false)
    (Hconn : FTPClient._data_connection st = Ok d st') :
  exists st0 pasv_host pasv_port,
    FTPClient._pasv st = Ok (pasv_host, pasv_port) st0 /\
    emits [EvSocket d; EvSetTimeout d (timeout (config (self st)));
           EvConnect d pasv_host pasv_port] st0 st'.
Proof.
  destruct (data_connection_Ok _ _ _ Hconn) as (st0 & ph & pp & raw & Hp & He & Hd).
  rewrite Hplain in He. rewrite (Hd Hplain). rewrite app_nil_r in He.
  exists st0, ph, pp. split; [exact Hp | exact He].
Qed.

Lemma X16_plain_data_connection_witness :
  exists st0 pasv_host pasv_port,
    FTPClient._pasv st_plain = Ok (pasv_host, pasv_port) st0 /\
    emits [EvSocket 1%nat; EvSetTimeout 1%nat 30%Q;
           EvConnect 1%nat pasv_host pasv_port] st0
          (outcome_state (FTPClient._data_connection st_plain)).
Proof.
  apply (X16_plain_data_connection st_plain _ 1%nat).
  - reflexivity.
  - reflexivity.
Defined.

(** ** The defaults of the module-level connect *)

(** X17.  When the module-level [connect] returns, it has logged in a new
    client built from its arguments: the events are those of the connect
    sequence for the host given, the port, timeout and TLS flag of the
    keyword arguments, or port 21, 30 seconds and no TLS where they are
    left out, and the credentials given, or anonymous ones; the client
    the state held before plays no part. *)
Theorem X17_module_connect_builds_its_client
    (h : string) (user pass : option string) (kw : kwargs) (st st' : state)
    (Hrun : connect h user pass kw st = Ok tt st') :
  let c := mkFTPConfig h
             (match kw_port kw with Some p => p | None => 21%Z end)
             (match user with Some u => u | None => "anonymous" end)
             (match pass with Some p => p | None => "anonymous@" end)
             (match kw_timeout kw with Some t => t | None => 30%Q end)
             (match kw_mode kw with Some m => m | None => PASSIVE end)
             (match kw_secure kw with Some b => b | None => false end) in
  exists raw final,
    trace st' = (trace st ++ login_events c raw final)%list /\
    self st' = mkClient c (Some final) (Some final).
Proof.
  cbv zeta. unfold connect in Hrun.
  apply bind_Ok_inv in Hrun as (u & st0 & Hm & H).
  unfold modify in Hm. injection Hm as _ <-.
  apply connect_sequence_Ok in H as (raw & final & Ht & Hs & _).
  exists raw, final. split; [exact Ht | exact Hs].
Qed.

Lemma X17_module_connect_builds_its_client_witness :
  exists raw final,
    trace (outcome_state (connect "ftp.example.com" None None no_kwargs st_fresh))
    = (trace st_fresh
       ++ login_events (mkFTPConfig "ftp.example.com" 21%Z "anonymous" "anonymous@"
                                    30%Q PASSIVE false) raw final)%list /\
    self (outcome_state (connect "ftp.example.com" None None no_kwargs st_fresh))
    = mkClient (mkFTPConfig "ftp.example.com" 21%Z "anonymous" "anonymous@"
                            30%Q PASSIVE false) (Some final) (Some final).
Proof.
  apply (X17_module_connect_builds_its_client "ftp.example.com" None None no_kwargs
           st_fresh).
  vm_compute. reflexivity.
Defined.

Lemma X7_parse_list_line_outcomes_witness :
  FTPClient._parse_list_line long_size_line = Raises value_error.
Proof.
  apply (proj2 (proj2 (X7_parse_list_line_outcomes long_size_line))).
  split; [reflexivity|]. split; [vm_compute; reflexivity|].
  split; vm_compute; reflexivity.
Defined.
